(** * TTS webhook service: request dispatch, audio cache and access control

    A shallow embedding of [src/tts_service/main.py] (the Flask webhook with
    its three synthesis engines and its in-memory audio cache) and of
    [src/tts_service/rate_limiter.py] (sliding-window rate limiter, API-key
    validator, security middleware, text sanitiser), with the properties
    of the dispatch and caching layer stated and proved over it.

    Conventions of the embedding.
    - A Python [str] is a [string]; the character numbered [n] stands for
      the code point U+00[n].  Code points above U+00FF are outside the
      model.
    - A JSON scalar of the request body is a [jval]; a Python float is
      identified by its [repr].  JSON arrays and objects as field values
      are outside the model.
    - A reading of [time.time()] is a rational number of seconds, and
      the arithmetic on readings is exact.
    - Calls that leave the program (the file system, the clock, the speech
      libraries, the [espeak] subprocess, [pathlib], [datetime]) are fields
      of a [World] record; every theorem is stated for an arbitrary world.
    - Exceptions are values of [exn]; code that can raise lives in the
      monad [M], which threads the process state and a trace of the
      observable steps taken. *)

From Stdlib Require Import ZArith QArith Lqa List Sorted Ascii String Bool Lia.
From Stdlib Require Import DecimalString.
From stdpp Require Import gmap strings.
Import ListNotations.

Local Open Scope string_scope.
Local Open Scope Z_scope.

(** ** Python values *)

Module Py.

(** [str.isspace] on the code points of the model: the ASCII white space
    and separators U+001C..U+001F, NEL (U+0085) and NBSP (U+00A0). *)
Definition isspace (c : ascii) : bool :=
  let n := N_of_ascii c in
  ((9 <=? n) && (n <=? 13) || (28 <=? n) && (n <=? 32)
   || (n =? 133) || (n =? 160))%N.

Fixpoint lstrip (s : string) : string :=
  match s with
  | String c rest => if isspace c then lstrip rest else s
  | EmptyString => EmptyString
  end.

Definition rstrip (s : string) : string :=
  String.rev (lstrip (String.rev s)).

(** [s.strip()] *)
Definition strip (s : string) : string := rstrip (lstrip s).

(** The string is empty or consists of white space only. *)
Fixpoint blank (s : string) : bool :=
  match s with
  | EmptyString => true
  | String c rest => isspace c && blank rest
  end.

(** Truth value of a string: [bool(s)]. *)
Definition nonempty (s : string) : bool :=
  match s with EmptyString => false | String _ _ => true end.

(** [str(n)] for an [int]. *)
Definition str_of_int (z : Z) : string :=
  NilZero.string_of_int (Z.to_int z).

(** [s.replace(old, new)] for a one-character [old]. *)
Fixpoint replace_char (old : ascii) (new : string) (s : string) : string :=
  match s with
  | EmptyString => EmptyString
  | String c rest =>
      if Ascii.eqb c old then new ++ replace_char old new rest
      else String c (replace_char old new rest)
  end.

(** [len(s)] *)
Definition len (s : string) : Z := Z.of_nat (String.length s).

(** Exceptions: the class name and [str(e)]. *)
Record exn := Exn { exn_class : string; exn_str : string }.

End Py.

(** ** JSON scalars and [json.dumps] *)

Module Json.

Inductive jval :=
  | JNull
  | JBool (b : bool)
  | JInt (z : Z)
  | JFloat (repr : string)
  | JStr (s : string).

#[global] Instance jval_eq_dec : EqDecision jval.
Proof. solve_decision. Defined.

(** [type(v).__name__] *)
Definition type_name (v : jval) : string :=
  match v with
  | JNull => "NoneType" | JBool _ => "bool" | JInt _ => "int"
  | JFloat _ => "float" | JStr _ => "str"
  end.

(** [bool(v)]: [None], [False], [0], [0.0], [-0.0] and the empty string
    are false. *)
Definition truthy (v : jval) : bool :=
  match v with
  | JNull => false
  | JBool b => b
  | JInt z => negb (z =? 0)
  | JFloat r => negb (String.eqb r "0.0" || String.eqb r "-0.0")
  | JStr s => Py.nonempty s
  end.

(** [str(v)], as an f-string renders it. *)
Definition to_str (v : jval) : string :=
  match v with
  | JNull => "None"
  | JBool true => "True"
  | JBool false => "False"
  | JInt z => Py.str_of_int z
  | JFloat r => r
  | JStr s => s
  end.

Definition dquote : ascii := ascii_of_N 34.
Definition backslash : ascii := ascii_of_N 92.

Definition hex_digit (n : N) : ascii :=
  (if n <? 10 then ascii_of_N (48 + n) else ascii_of_N (87 + n))%N.

(** The escape of one character under [ensure_ascii=True]: everything
    outside U+0020..U+007E, the quote and the backslash are escaped. *)
Definition escape_char (c : ascii) : string :=
  let n := N_of_ascii c in
  if (n =? 34)%N then String backslash (String dquote EmptyString)
  else if (n =? 92)%N then String backslash (String backslash EmptyString)
  else if (n =? 10)%N then String backslash "n"
  else if (n =? 13)%N then String backslash "r"
  else if (n =? 9)%N then String backslash "t"
  else if (n =? 12)%N then String backslash "f"
  else if (n =? 8)%N then String backslash "b"
  else if ((32 <=? n) && (n <=? 126))%N then String c EmptyString
  else String backslash
         ("u00" ++ String (hex_digit (n / 16)) (String (hex_digit (n mod 16)) EmptyString)).

Fixpoint escape (s : string) : string :=
  match s with
  | EmptyString => EmptyString
  | String c rest => escape_char c ++ escape rest
  end.

Definition quote (s : string) : string :=
  String dquote (escape s ++ String dquote EmptyString).

(** [json.dumps(v)] for a scalar. *)
Definition dumps_scalar (v : jval) : string :=
  match v with
  | JNull => "null"
  | JBool true => "true"
  | JBool false => "false"
  | JInt z => Py.str_of_int z
  | JFloat r =>
      if String.eqb r "nan" then "NaN"
      else if String.eqb r "inf" then "Infinity"
      else if String.eqb r "-inf" then "-Infinity"
      else r
  | JStr s => quote s
  end.

Fixpoint dumps_items (items : list (string * jval)) : string :=
  match items with
  | [] => EmptyString
  | [(k, v)] => quote k ++ ": " ++ dumps_scalar v
  | (k, v) :: rest => quote k ++ ": " ++ dumps_scalar v ++ ", " ++ dumps_items rest
  end.

(** Sorting of the items by key, as [sort_keys=True] does (code-point
    order). *)
Fixpoint insert_item (kv : string * jval) (items : list (string * jval))
  : list (string * jval) :=
  match items with
  | [] => [kv]
  | kv' :: rest =>
      if String.leb (fst kv) (fst kv') then kv :: items
      else kv' :: insert_item kv rest
  end.

Definition sort_items (items : list (string * jval)) : list (string * jval) :=
  fold_right insert_item [] items.

(** [json.dumps(d, sort_keys=...)] for a dict given by its items in
    insertion order. *)
Definition dumps (items : list (string * jval)) (sort_keys : bool) : string :=
  "{" ++ dumps_items (if sort_keys then sort_items items else items) ++ "}".

End Json.

(** ** [hashlib.md5] (RFC 1321), on bytes given as numbers below 256 *)

Module MD5.

Definition mask32 : Z := 0xffffffff.

Definition add32 (a b : Z) : Z := Z.land (a + b) mask32.

Definition rotl32 (x c : Z) : Z :=
  Z.lor (Z.land (Z.shiftl x c) mask32) (Z.shiftr x (32 - c)).

Definition not32 (x : Z) : Z := Z.lxor x mask32.

Definition shifts : list Z :=
  [7; 12; 17; 22; 7; 12; 17; 22; 7; 12; 17; 22; 7; 12; 17; 22;
   5; 9; 14; 20; 5; 9; 14; 20; 5; 9; 14; 20; 5; 9; 14; 20;
   4; 11; 16; 23; 4; 11; 16; 23; 4; 11; 16; 23; 4; 11; 16; 23;
   6; 10; 15; 21; 6; 10; 15; 21; 6; 10; 15; 21; 6; 10; 15; 21].

(** [floor(2^32 * abs(sin(i + 1)))] for i = 0..63 *)
Definition sines : list Z :=
  [0xd76aa478; 0xe8c7b756; 0x242070db; 0xc1bdceee;
   0xf57c0faf; 0x4787c62a; 0xa8304613; 0xfd469501;
   0x698098d8; 0x8b44f7af; 0xffff5bb1; 0x895cd7be;
   0x6b901122; 0xfd987193; 0xa679438e; 0x49b40821;
   0xf61e2562; 0xc040b340; 0x265e5a51; 0xe9b6c7aa;
   0xd62f105d; 0x02441453; 0xd8a1e681; 0xe7d3fbc8;
   0x21e1cde6; 0xc33707d6; 0xf4d50d87; 0x455a14ed;
   0xa9e3e905; 0xfcefa3f8; 0x676f02d9; 0x8d2a4c8a;
   0xfffa3942; 0x8771f681; 0x6d9d6122; 0xfde5380c;
   0xa4beea44; 0x4bdecfa9; 0xf6bb4b60; 0xbebfbc70;
   0x289b7ec6; 0xeaa127fa; 0xd4ef3085; 0x04881d05;
   0xd9d4d039; 0xe6db99e5; 0x1fa27cf8; 0xc4ac5665;
   0xf4292244; 0x432aff97; 0xab9423a7; 0xfc93a039;
   0x655b59c3; 0x8f0ccc92; 0xffeff47d; 0x85845dd1;
   0x6fa87e4f; 0xfe2ce6e0; 0xa3014314; 0x4e0811a1;
   0xf7537e82; 0xbd3af235; 0x2ad7d2bb; 0xeb86d391].

Record regs := Regs { rA : Z; rB : Z; rC : Z; rD : Z }.

Definition init : regs :=
  Regs 0x67452301 0xefcdab89 0x98badcfe 0x10325476.

(** The round function and the message-word index of step [i]. *)
Definition mix (i : Z) (r : regs) : Z * Z :=
  let '(Regs _ b c d) := r in
  if i <? 16 then (Z.lor (Z.land b c) (Z.land (not32 b) d), i)
  else if i <? 32 then (Z.lor (Z.land d b) (Z.land (not32 d) c), (5 * i + 1) mod 16)
  else if i <? 48 then (Z.lxor (Z.lxor b c) d, (3 * i + 5) mod 16)
  else (Z.lxor c (Z.lor b (not32 d)), (7 * i) mod 16).

Definition step (block : list Z) (r : regs) (i : Z) : regs :=
  let '(f, g) := mix i r in
  let m := nth (Z.to_nat g) block 0 in
  let k := nth (Z.to_nat i) sines 0 in
  let s := nth (Z.to_nat i) shifts 0 in
  let f' := add32 (add32 (add32 f (rA r)) k) m in
  Regs (rD r) (add32 (rB r) (rotl32 f' s)) (rB r) (rC r).

(** One 512-bit block, given as 16 little-endian words. *)
Definition compress (r : regs) (block : list Z) : regs :=
  let r' := fold_left (step block) (map Z.of_nat (seq 0 64)) r in
  Regs (add32 (rA r) (rA r')) (add32 (rB r) (rB r'))
       (add32 (rC r) (rC r')) (add32 (rD r) (rD r')).

(** [n] as [k] little-endian bytes. *)
Fixpoint le_bytes (k : nat) (n : Z) : list Z :=
  match k with
  | O => []
  | S k' => Z.land n 255 :: le_bytes k' (Z.shiftr n 8)
  end.

Fixpoint le_words (bytes : list Z) : list Z :=
  match bytes with
  | b0 :: b1 :: b2 :: b3 :: rest =>
      (b0 + Z.shiftl b1 8 + Z.shiftl b2 16 + Z.shiftl b3 24) :: le_words rest
  | _ => []
  end.

(** The message followed by 0x80, zeros up to 56 modulo 64 and the bit
    length on 64 bits. *)
Definition pad (msg : list Z) : list Z :=
  let n := Z.of_nat (length msg) in
  let zeros := Z.to_nat ((55 - n) mod 64) in
  msg ++ 128 :: repeat 0 zeros ++ le_bytes 8 ((8 * n) mod 2 ^ 64).

Fixpoint blocks (count : nat) (words : list Z) : list (list Z) :=
  match count with
  | O => []
  | S count' => firstn 16 words :: blocks count' (skipn 16 words)
  end.

Definition digest (msg : list Z) : list Z :=
  let words := le_words (pad msg) in
  let r := fold_left compress (blocks (Nat.div (length words) 16) words) init in
  le_bytes 4 (rA r) ++ le_bytes 4 (rB r) ++ le_bytes 4 (rC r) ++ le_bytes 4 (rD r).

Definition hex_of_byte (b : Z) : string :=
  String (Json.hex_digit (Z.to_N (b / 16)))
    (String (Json.hex_digit (Z.to_N (b mod 16))) EmptyString).

(** [hashlib.md5(data).hexdigest()] *)
Definition hexdigest (msg : list Z) : string :=
  String.concat EmptyString (map hex_of_byte (digest msg)).

(** [s.encode()] for a string of ASCII characters. *)
Definition encode (s : string) : list Z :=
  map (fun c => Z.of_N (N_of_ascii c)) (list_ascii_of_string s).

End MD5.

(** ** [rate_limiter.py] *)

Module rate_limiter.

Import Json.

(** Clock readings ([time.time()]) are rationals, in seconds, and the
    arithmetic on them is exact, where the code computes in double
    precision.  The two agree on the comparisons of [is_allowed] for
    readings from 0 to 2^53 and a whole number of seconds, not
    negative, as window length: [now - window_seconds] is exact there
    unless it is negative, and then no reading is older; the value of
    [get_reset_time] is the exact value of the expression that the code
    rounds. *)
Definition Qltb (a b : Q) : bool := negb (Qle_bool b a).

(** [int(x)]: truncation towards zero. *)
Definition int_of_Q (x : Q) : Z := Z.quot (Qnum x) (Z.pos (Qden x)).

Record RateLimiter := mkRateLimiter {
  max_requests : Z;
  window_seconds : Z;
  requests : gmap string (list Q)
  }.

(** [RateLimiter(max_requests=100, window_seconds=3600)] *)
Definition RateLimiter_init (max_requests window_seconds : Z) : RateLimiter :=
  mkRateLimiter max_requests window_seconds ∅.

Definition RateLimiter_default : RateLimiter := RateLimiter_init 100 3600.

(** [self.requests[identifier]]: the deque of the identifier, which a
    [defaultdict(deque)] creates empty on first access. *)
Definition window (self : RateLimiter) (identifier : string) : list Q :=
  default [] (requests self !! identifier).

Definition set_window (self : RateLimiter) (identifier : string) (dq : list Q)
  : RateLimiter :=
  mkRateLimiter (max_requests self) (window_seconds self)
                (<[identifier := dq]> (requests self)).

(** The cleaning loop of [is_allowed]: [popleft] while the deque is not
    empty and its first element is older than [window_start]. *)
Fixpoint clean_old (window_start : Q) (dq : list Q) : list Q :=
  match dq with
  | t :: rest => if Qltb t window_start then clean_old window_start rest else dq
  | [] => []
  end.

(** [is_allowed(identifier)], with [now] the value of [time.time()]. *)
Definition is_allowed (self : RateLimiter) (identifier : string) (now : Q)
  : bool * RateLimiter :=
  let window_start := (now - inject_Z (window_seconds self))%Q in
  let dq := clean_old window_start (window self identifier) in
  if Z.of_nat (length dq) <? max_requests self
  then (true, set_window self identifier (dq ++ [now]))
  else (false, set_window self identifier dq).

(** [get_reset_time(identifier)], with [now] the value of [time.time()]
    in its last line.  On an empty deque the result is the literal [0];
    otherwise it is the exact value of [oldest + window_seconds - now],
    which the code evaluates in double precision. *)
Definition get_reset_time (self : RateLimiter) (identifier : string) (now : Q)
  : Q * RateLimiter :=
  let dq := window self identifier in
  let self' := set_window self identifier dq in
  match dq with
  | [] => (0%Q, self')
  | oldest_request :: _ =>
      ((oldest_request + inject_Z (window_seconds self) - now)%Q, self')
  end.

(** Key metadata is a dict. *)
Abbreviation metadata := (gmap string jval).

Record APIKeyValidator := mkAPIKeyValidator {
  valid_keys : gmap string metadata
  }.

(** [APIKeyValidator(valid_keys=None)] *)
Definition APIKeyValidator_init (keys : option (gmap string metadata))
  : APIKeyValidator :=
  mkAPIKeyValidator (default ∅ keys).

Definition validate_key (self : APIKeyValidator) (api_key : string)
  : option metadata :=
  valid_keys self !! api_key.

Definition add_key (self : APIKeyValidator) (api_key : string) (md : metadata)
  : APIKeyValidator :=
  mkAPIKeyValidator (<[api_key := md]> (valid_keys self)).

Definition remove_key (self : APIKeyValidator) (api_key : string)
  : APIKeyValidator :=
  mkAPIKeyValidator (delete api_key (valid_keys self)).

(** Truth value of [key_metadata]: [None] and the empty dict are false. *)
Definition metadata_truthy (md : option metadata) : bool :=
  match md with
  | Some m => negb (bool_decide (m = ∅))
  | None => false
  end.

Record SecurityMiddleware := mkSecurityMiddleware {
  rate_limiter : RateLimiter;
  api_validator : APIKeyValidator;
  require_api_key : bool
  }.

(** [SecurityMiddleware(rate_limiter=None, api_validator=None,
    require_api_key=False)] *)
Definition SecurityMiddleware_init (rl : option RateLimiter)
    (av : option APIKeyValidator) (require : bool) : SecurityMiddleware :=
  mkSecurityMiddleware (default RateLimiter_default rl)
                       (default (APIKeyValidator_init None) av) require.

(** What [check_request] reads of the request. *)
Record Request := mkRequest {
  client_host : option string;        (* request.client.host, None without client *)
  header_api_key : option string;     (* request.headers.get("X-API-Key") *)
  query_api_key : option string       (* request.query_params.get("api_key") *)
  }.

Record HTTPException := mkHTTPException {
  status_code : Z;
  detail : string;
  headers : list (string * string)
  }.

Record check_result := mkCheckResult {
  res_client_ip : string;
  res_api_key : option string;
  res_key_metadata : option metadata;
  res_identifier : string
  }.

(** [a or b] on optional strings. *)
Definition str_or (a b : option string) : option string :=
  match a with
  | Some s => if Py.nonempty s then a else b
  | None => b
  end.

Definition get_client_ip (request : Request) : string :=
  default "unknown" (client_host request).

Definition get_api_key (request : Request) : option string :=
  str_or (header_api_key request) (query_api_key request).

(** [identifier = api_key if api_key else client_ip] *)
Definition get_identifier (request : Request) : string :=
  match get_api_key request with
  | Some k => if Py.nonempty k then k else get_client_ip request
  | None => get_client_ip request
  end.

Definition rate_limit_exceeded (reset_time : Q) : HTTPException :=
  let secs := Py.str_of_int (int_of_Q reset_time) in
  mkHTTPException 429
    ("Rate limit exceeded. Try again in " ++ secs ++ " seconds")
    [("Retry-After", secs)].

(** The rate-limiting step of [check_request] and its return value;
    [now] is the clock read by [is_allowed], [now'] the clock read by
    [get_reset_time]. *)
Definition rate_limiting (self : SecurityMiddleware) (request : Request)
    (key_metadata : option metadata) (now now' : Q)
  : (HTTPException + check_result) * SecurityMiddleware :=
  let identifier := get_identifier request in
  let '(allowed, rl) := is_allowed (rate_limiter self) identifier now in
  if negb allowed then
    let '(reset_time, rl') := get_reset_time rl identifier now' in
    (inl (rate_limit_exceeded reset_time),
     mkSecurityMiddleware rl' (api_validator self) (require_api_key self))
  else
    (inr (mkCheckResult (get_client_ip request) (get_api_key request)
                        key_metadata identifier),
     mkSecurityMiddleware rl (api_validator self) (require_api_key self)).

(** The API-key step of [check_request]: the key metadata, or the
    exception raised. *)
Definition api_key_validation (self : SecurityMiddleware) (request : Request)
  : HTTPException + option metadata :=
  match get_api_key request with
  | Some api_key =>
      if Py.nonempty api_key then
        let key_metadata := validate_key (api_validator self) api_key in
        if negb (metadata_truthy key_metadata) then
          inl (mkHTTPException 401 "Invalid API key" [])
        else inr key_metadata
      else if require_api_key self then
        inl (mkHTTPException 401 "API key required" [])
      else inr None
  | None =>
      if require_api_key self then
        inl (mkHTTPException 401 "API key required" [])
      else inr None
  end.

(** [check_request(request)] *)
Definition check_request (self : SecurityMiddleware) (request : Request)
    (now now' : Q) : (HTTPException + check_result) * SecurityMiddleware :=
  match api_key_validation self request with
  | inl e => (inl e, self)
  | inr key_metadata => rate_limiting self request key_metadata now now'
  end.

(** The exception a call of [check_request] ended with, if any. *)
Definition denied_with (r : HTTPException + check_result)
  : option HTTPException :=
  match r with
  | inl e => Some e
  | inr _ => None
  end.

(** [sanitize_text(text, max_length=5000)]; the list of forbidden
    patterns is empty in the source, so its loop does nothing. *)
Definition sanitize_text (text : string) (max_length : Z) : Py.exn + string :=
  if negb (Py.nonempty text) || negb (Py.nonempty (Py.strip text)) then
    inl (Py.Exn "ValueError" "Text cannot be empty")
  else
    let text := Py.strip text in
    if Py.len text >? max_length then
      inl (Py.Exn "ValueError"
             ("Text too long. Maximum " ++ Py.str_of_int max_length
              ++ " characters allowed"))
    else inr text.


End rate_limiter.

(** ** [main.py] *)

Module main.

Import Json.

(** *** Results, exceptions *)

Inductive result (A : Type) :=
  | Ok (a : A)
  | Raised (e : Py.exn).
Arguments Ok {A} a.
Arguments Raised {A} e.

Definition rbind {A B} (r : result A) (k : A -> result B) : result B :=
  match r with
  | Ok a => k a
  | Raised e => Raised e
  end.

Declare Scope result_scope.
Delimit Scope result_scope with result.
Notation "'let*' x := r 'in' k" := (rbind r (fun x => k))
  (at level 10, x name, r at level 100, k at level 200) : result_scope.

(** *** The world outside the process *)

(** The value of [timestamp] after line 218: a [datetime] (given by its
    [isoformat()]) when the field was a string, the field itself
    otherwise. *)
Inductive tsval :=
  | Datetime (isoformat : string)
  | Undecoded (v : jval).

Record options := mkOptions {
  agent : jval;
  timestamp : tsval;
  engine : jval;
  voice_type : jval;
  language : jval;
  speed : jval
  }.

Record wav_params := mkWav {
  nchannels : Z;
  sampwidth : Z;
  framerate : Z;
  frames : list Z          (* the bytes given to [writeframes] *)
  }.

Record World := mkWorld {
  (** [datetime.datetime.now().isoformat()] of line 215 *)
  now_isoformat : string;
  (** [datetime.datetime.fromisoformat(s)]: the [isoformat()] of the
      parsed value, or the [ValueError] *)
  fromisoformat : string -> result string;
  GTTS_AVAILABLE : bool;
  (** [tts_engines["openai"].client is not None] *)
  openai_client : bool;
  (** lines 62-65: the language, the [slow] flag and [gTTS(...)], for the
      text, [options['language']] and [options['speed']] *)
  gtts_new : string -> jval -> jval -> result unit;
  (** line 70: [tts.save(path)] *)
  gtts_save : string -> jval -> jval -> string -> result unit;
  (** lines 102-108: [client.audio.speech.create] for the voice, the
      text and [options['speed']] *)
  openai_speech_create : string -> string -> jval -> result unit;
  (** lines 113-114: writing the response content to the path *)
  write_content : string -> result unit;
  (** lines 133-140: building the command from [options['speed']], the
      path and the text and running it; the return code and stderr *)
  espeak_run : jval -> string -> string -> result (Z * string);
  (** lines 154-158: writing a WAV file *)
  wave_write : string -> wav_params -> result unit;
  (** [str(AUDIO_DIR / filename)] *)
  audio_dir_join : string -> string;
  (** [Path(p).exists()] at the cache check *)
  path_exists : string -> bool;
  (** [Path(p).name] *)
  path_name : string -> string;
  (** [Path(p).stat().st_size] at response assembly, [None] when the
      file does not exist then *)
  stat_size : string -> option Z
  }.

(** *** The engines *)

Inductive engine_t := GTTSEngine | OpenAITTSEngine | SystemTTSEngine.

#[global] Instance engine_eq_dec : EqDecision engine_t.
Proof. solve_decision. Defined.

(** [engine.name] *)
Definition name (e : engine_t) : string :=
  match e with
  | GTTSEngine => "gtts"
  | OpenAITTSEngine => "openai"
  | SystemTTSEngine => "system"
  end.

(** [options['timestamp'].isoformat()] *)
Definition timestamp_isoformat (ts : tsval) : result string :=
  match ts with
  | Datetime iso => Ok iso
  | Undecoded v =>
      Raised (Py.Exn "AttributeError"
                ("'" ++ type_name v ++ "' object has no attribute 'isoformat'"))
  end.

(** [f"{options['agent']}_{options['timestamp'].isoformat().replace(':', '-')}<suffix>"] *)
Definition audio_filename (o : options) (suffix : string) : result string :=
  (let* iso := timestamp_isoformat (timestamp o) in
   Ok (to_str (agent o) ++ "_" ++ Py.replace_char ":" "-" iso ++ suffix))%result.

Definition GTTSEngine_generate_audio (w : World) (text : string) (o : options)
  : result string :=
  if negb (GTTS_AVAILABLE w) then
    Raised (Py.Exn "Exception" "gTTS engine not available")
  else
    match (let* tts := gtts_new w text (language o) (speed o) in
           let* filename := audio_filename o ".mp3" in
           let filepath := audio_dir_join w filename in
           let* saved := gtts_save w text (language o) (speed o) filepath in
           Ok filepath)%result
    with
    | Ok filepath => Ok filepath
    | Raised e =>
        Raised (Py.Exn "Exception" ("gTTS generation failed: " ++ Py.exn_str e))
    end.

(** [voice_map.get(options.get('voice_type', 'neutral'), "alloy")] *)
Definition openai_voice (voice_type : jval) : string :=
  match voice_type with
  | JStr "male" => "onyx"
  | JStr "female" => "nova"
  | JStr "neutral" => "alloy"
  | _ => "alloy"
  end.

Definition OpenAITTSEngine_generate_audio (w : World) (text : string) (o : options)
  : result string :=
  if negb (openai_client w) then
    Raised (Py.Exn "Exception" "OpenAI TTS engine not available")
  else
    match (let voice := openai_voice (voice_type o) in
           let* response := openai_speech_create w voice text (speed o) in
           let* filename := audio_filename o ".mp3" in
           let filepath := audio_dir_join w filename in
           let* written := write_content w filepath in
           Ok filepath)%result
    with
    | Ok filepath => Ok filepath
    | Raised e =>
        Raised (Py.Exn "Exception" ("OpenAI TTS generation failed: " ++ Py.exn_str e))
    end.

(** The fallback file of the system engine: mono, 16-bit, 22050 Hz,
    44100 zero bytes. *)
Definition silent_wav : wav_params := mkWav 1 2 22050 (repeat 0 (Z.to_nat 44100)).


Definition SystemTTSEngine_generate_audio (w : World) (text : string) (o : options)
  : result string :=
  match (let* filename := audio_filename o ".wav" in
         let filepath := audio_dir_join w filename in
         let* run := espeak_run w (speed o) filepath text in
         let '(returncode, stderr) := run in
         if returncode =? 0 then Ok filepath
         else Raised (Py.Exn "Exception" ("espeak failed: " ++ stderr)))%result
  with
  | Ok filepath => Ok filepath
  | Raised _ =>
      (let* filename := audio_filename o "_silent.wav" in
       let filepath := audio_dir_join w filename in
       let* written := wave_write w filepath silent_wav in
       Ok filepath)%result
  end.

Definition generate_audio (e : engine_t) : World -> string -> options -> result string :=
  match e with
  | GTTSEngine => GTTSEngine_generate_audio
  | OpenAITTSEngine => OpenAITTSEngine_generate_audio
  | SystemTTSEngine => SystemTTSEngine_generate_audio
  end.

(** The registry. *)
Definition tts_engines : gmap string engine_t :=
  <["gtts" := GTTSEngine]> (<["openai" := OpenAITTSEngine]>
    (<["system" := SystemTTSEngine]> ∅)).

(** [tts_engines.get(engine_name)] *)
Definition tts_engines_get (engine_name : jval) : option engine_t :=
  match engine_name with
  | JStr s => tts_engines !! s
  | _ => None
  end.

(** *** The cache key *)

Definition cache_data (text : string) (o : options) : list (string * jval) :=
  [("text", JStr text); ("engine", engine o); ("voice_type", voice_type o);
   ("language", language o); ("speed", speed o)].

Definition generate_cache_key (text : string) (o : options) : string :=
  MD5.hexdigest (MD5.encode (dumps (cache_data text o) true)).

(** *** Process state and the handler monad *)

(** The steps of a request that the properties speak about, in program
    order.  The trace is not a variable of the program: it records which
    of these steps an execution took. *)
Inductive event :=
  | Fingerprint (key : string)          (* [generate_cache_key] returned [key] *)
  | CacheLookup (key : string)          (* [cache_key in app_state["cache"]] *)
  | CacheEvict (key : string)           (* [del app_state["cache"][cache_key]] *)
  | CacheStore (key path : string)      (* [app_state["cache"][cache_key] = path] *)
  | Invoke (engine_name : string).      (* a call of [generate_audio] *)

#[global] Instance event_eq_dec : EqDecision event.
Proof. solve_decision. Defined.

(** [app_state], without the start time, and the trace. *)
Record machine := mkMachine {
  request_count : Z;
  cache : gmap string string;
  trace : list event
  }.

Definition M (A : Type) : Type := machine -> result A * machine.

Definition ret {A} (a : A) : M A := fun m => (Ok a, m).

Definition raise {A} (e : Py.exn) : M A := fun m => (Raised e, m).

Definition bind {A B} (c : M A) (k : A -> M B) : M B :=
  fun m =>
    match c m with
    | (Ok a, m') => k a m'
    | (Raised e, m') => (Raised e, m')
    end.

(** [try: c  except Exception as e: h e]; what [c] did to the state
    before raising stays done. *)
Definition try_except {A} (c : M A) (h : Py.exn -> M A) : M A :=
  fun m =>
    match c m with
    | (Ok a, m') => (Ok a, m')
    | (Raised e, m') => h e m'
    end.

Definition lift {A} (r : result A) : M A := fun m => (r, m).

Definition emit (ev : event) : M unit :=
  fun m => (Ok tt, mkMachine (request_count m) (cache m) (trace m ++ [ev])).

Definition get_cache : M (gmap string string) := fun m => (Ok (cache m), m).

Definition set_cache (c : gmap string string) : M unit :=
  fun m => (Ok tt, mkMachine (request_count m) c (trace m)).

Declare Scope handler_scope.
Delimit Scope handler_scope with handler.
Notation "'let!' x := c 'in' k" := (bind c (fun x => k))
  (at level 10, x name, c at level 100, k at level 200) : handler_scope.
Notation "c ;; k" := (bind c (fun _ => k))
  (at level 100, k at level 200, right associativity) : handler_scope.

(** *** The webhook *)

Inductive body :=
  | Success (audio_file audio_url : string) (agent : jval)
          (engine_used : string) (file_size : Z) (cache_hit : bool)
  | Invalid (message : string)
  | Failed (message : string) (agent : jval) (engine_used : string).

(** The JSON body and the HTTP status; [processing_time] is left out. *)
Record response := mkResponse {
  http_status : Z;
  json : body
  }.

(** [payload.get(key, default)] *)
Definition payload_get (payload : gmap string jval) (key : string) (dflt : jval)
  : jval :=
  default dflt (payload !! key).

(** Lines 217-218. *)
Definition decode_timestamp (w : World) (timestamp : jval) : result tsval :=
  match timestamp with
  | JStr s =>
      (let* iso := fromisoformat w (Py.replace_char "Z" "+00:00" s) in
       Ok (Datetime iso))%result
  | v => Ok (Undecoded v)
  end.

(** Line 225, [not utterance or not utterance.strip()]: [None] when the
    condition holds, the text when it does not; a true value that is
    not a string has no [strip]. *)
Definition checked_text (utterance : jval) : result (option string) :=
  if negb (truthy utterance) then Ok None
  else match utterance with
       | JStr s => if negb (Py.nonempty (Py.strip s)) then Ok None else Ok (Some s)
       | v => Raised (Py.Exn "AttributeError"
                        ("'" ++ type_name v ++ "' object has no attribute 'strip'"))
       end.

(** Lines 246-254: the cached path on a hit. *)
Definition check_cache (w : World) (cache_key : string) : M (option string) :=
  (emit (CacheLookup cache_key) ;;
   let! c := get_cache in
   match c !! cache_key with
   | Some cached_file =>
       if path_exists w cached_file then ret (Some cached_file)
       else (emit (CacheEvict cache_key) ;;
             set_cache (delete cache_key c) ;;
             ret None)
   | None => ret None
   end)%handler.

(** [audio_filepath = engine.generate_audio(utterance, options)] followed
    by [app_state["cache"][cache_key] = audio_filepath]. *)
Definition synthesize_and_store (w : World) (e : engine_t) (text : string)
    (o : options) (cache_key : string) : M string :=
  (emit (Invoke (name e)) ;;
   let! audio_filepath := lift (generate_audio e w text o) in
   emit (CacheStore cache_key audio_filepath) ;;
   let! c := get_cache in
   set_cache (<[cache_key := audio_filepath]> c) ;;
   ret audio_filepath)%handler.

(** Lines 257-273: the engine bound at the end and the audio path. *)
Definition dispatch (w : World) (engine_name : jval) (text : string)
    (o : options) (cache_key : string) : M (engine_t * string) :=
  let engine := default SystemTTSEngine (tts_engines_get engine_name) in
  try_except
    (let! audio_filepath := synthesize_and_store w engine text o cache_key in
     ret (engine, audio_filepath))%handler
    (fun e =>
       if negb (bool_decide (engine_name = JStr "system")) then
         (let! audio_filepath :=
            synthesize_and_store w SystemTTSEngine text o cache_key in
          ret (SystemTTSEngine, audio_filepath))%handler
       else raise e).

(** [engine.name] at line 296; [engine] is a local variable that only
    the dispatch block assigns (message of CPython 3.11 and later). *)
Definition engine_name_of (engine : option engine_t) : result string :=
  match engine with
  | Some e => Ok (name e)
  | None =>
      Raised (Py.Exn "UnboundLocalError"
                "cannot access local variable 'engine' where it is not associated with a value")
  end.

(** Lines 212-220: the fields of the request, with their defaults. *)
Definition request_agent (payload : gmap string jval) : jval :=
  payload_get payload "agent" (JStr "unknown").

Definition request_utterance (payload : gmap string jval) : jval :=
  payload_get payload "utterance" (JStr EmptyString).

Definition request_timestamp (w : World) (payload : gmap string jval) : jval :=
  payload_get payload "timestamp" (JStr (now_isoformat w)).

Definition request_engine (payload : gmap string jval) : jval :=
  payload_get payload "engine" (JStr "gtts").

(** [jsonify] of lines 290-300, 226-229 and 306-312. *)
Definition success_response (w : World) (agent : jval) (engine_used : string)
    (audio_filepath : string) (cache_hit : bool) : response :=
  mkResponse 200
    (Success audio_filepath ("/audio/" ++ path_name w audio_filepath) agent
             engine_used (default 0 (stat_size w audio_filepath)) cache_hit).

Definition empty_response : response :=
  mkResponse 400 (Invalid "Utterance cannot be empty").

Definition failure_response (payload : gmap string jval) (e : Py.exn)
  : response :=
  mkResponse 500
    (Failed ("TTS processing failed: " ++ Py.exn_str e)
            (request_agent payload) "none").

(** Lines 275-300: the success response.  [engine] is [None] when the
    local variable was never assigned. *)
Definition respond (w : World) (agent : jval) (engine : option engine_t)
    (audio_filepath : string) (cache_hit : bool) : M response :=
  (let! engine_used := lift (engine_name_of engine) in
   ret (success_response w agent engine_used audio_filepath cache_hit))%handler.

(** Lines 220-223 and 234-241: the options of a request. *)
Definition request_options (payload : gmap string jval) (timestamp : tsval)
  : options :=
  mkOptions (request_agent payload)
            timestamp
            (request_engine payload)
            (payload_get payload "voice_type" (JStr "neutral"))
            (payload_get payload "language" (JStr "en"))
            (payload_get payload "speed" (JFloat "1.0")).

(** The body of the [try] of [receive_utterance]. *)
Definition handle (w : World) (payload : gmap string jval) : M response :=
  (let agent := request_agent payload in
   let utterance := request_utterance payload in
   let timestamp := request_timestamp w payload in
   let! timestamp := lift (decode_timestamp w timestamp) in
   let engine_name := request_engine payload in
   let! checked := lift (checked_text utterance) in
   match checked with
   | None => ret empty_response
   | Some text =>
       let options := request_options payload timestamp in
       let cache_key := generate_cache_key text options in
       emit (Fingerprint cache_key) ;;
       let! hit := check_cache w cache_key in
       match hit with
       | Some cached_file => respond w agent None cached_file true
       | None =>
           let! r := dispatch w engine_name text options cache_key in
           respond w agent (Some (fst r)) (snd r) false
       end
   end)%handler.

(** [app_state["request_count"] += 1] *)
Definition count_request (m : machine) : machine :=
  mkMachine (request_count m + 1) (cache m) (trace m).

(** [receive_utterance()] for the JSON object [payload]. *)
Definition receive_utterance (w : World) (payload : gmap string jval)
    (m : machine) : response * machine :=
  match handle w payload (count_request m) with
  | (Ok r, m') => (r, m')
  | (Raised e, m') => (failure_response payload e, m')
  end.

(** The machine with the cache [c] and after the further events
    [evs]. *)
Definition after (m : machine) (c : gmap string string) (evs : list event)
  : machine :=
  mkMachine (request_count m) c (trace m ++ evs).

(** The events up to the end of the cache check when it finds no live
    entry for [k]. *)
Definition miss_events (m : machine) (k : string) : list event :=
  match cache m !! k with
  | Some _ => [Fingerprint k; CacheLookup k; CacheEvict k]
  | None => [Fingerprint k; CacheLookup k]
  end.

(** The engines invoked along a trace, in order. *)
Definition invoked (tr : list event) : list string :=
  flat_map (fun ev => match ev with Invoke n => [n] | _ => [] end) tr.

(** [clear_cache()] *)
Definition clear_cache (m : machine) : machine :=
  mkMachine (request_count m) ∅ (trace m).

End main.

(** ** A world and requests for the examples

    [example_world] answers like CPython on the inputs the examples give
    it: timestamps of the shape [YYYY-MM-DDTHH:MM:SS] parse, other strings
    are rejected; the gTTS package is not installed and there is no OpenAI
    client; [espeak] exits with 0; paths are joined with a slash. *)

Module Examples.

Import Json main.

Definition is_digit (c : ascii) : bool :=
  let n := N_of_ascii c in ((48 <=? n) && (n <=? 57))%N.

Fixpoint matches (pattern s : string) : bool :=
  match pattern, s with
  | EmptyString, EmptyString => true
  | String p pattern', String c s' =>
      (if Ascii.eqb p "d" then is_digit c else Ascii.eqb p c)
      && matches pattern' s'
  | _, _ => false
  end.

Definition example_fromisoformat (s : string) : result string :=
  if matches "dddd-dd-ddTdd:dd:dd" s then Ok s
  else Raised (Py.Exn "ValueError" ("Invalid isoformat string: '" ++ s ++ "'")).

Fixpoint basename (acc s : string) : string :=
  match s with
  | EmptyString => acc
  | String c rest =>
      if Ascii.eqb c "/" then basename EmptyString rest
      else basename (acc ++ String c EmptyString) rest
  end.

Definition example_world (existing : list string) : World :=
  {| now_isoformat := "2024-05-01T10:00:00";
     fromisoformat := example_fromisoformat;
     GTTS_AVAILABLE := false;
     openai_client := false;
     gtts_new := fun _ _ _ => Ok tt;
     gtts_save := fun _ _ _ _ => Ok tt;
     openai_speech_create := fun _ _ _ => Ok tt;
     write_content := fun _ => Ok tt;
     espeak_run := fun _ _ _ => Ok (0, EmptyString);
     wave_write := fun _ _ => Ok tt;
     audio_dir_join := fun filename => "audio_files/" ++ filename;
     path_exists := fun p => bool_decide (p ∈ existing);
     path_name := basename EmptyString;
     stat_size := fun p => if bool_decide (p ∈ existing) then Some 1024 else None |}.

Definition fresh : machine := mkMachine 0 ∅ [].

Definition hello (engine_name : string) : gmap string jval :=
  <["agent" := JStr "bot1"]> (<["utterance" := JStr "hello"]>
    (<["engine" := JStr engine_name]> ∅)).

(** A blank text with a time stamp that does not parse. *)
Definition blank_with_bad_timestamp : gmap string jval :=
  <["utterance" := JStr " "]> (<["timestamp" := JStr "garbage"]> ∅).




(** A request with a numeric time stamp that names an unknown engine. *)
Definition numeric_timestamp_unknown_engine : gmap string jval :=
  <["utterance" := JStr "hi"]> (<["engine" := JStr "nonexistent"]>
    (<["timestamp" := JInt 5]> ∅)).

(** A request whose utterance is a number. *)
Definition numeric_utterance : gmap string jval :=
  <["utterance" := JInt 5]> ∅.

(** A request from the address 10.0.0.1 without a key. *)
Definition request_plain : rate_limiter.Request :=
  rate_limiter.mkRequest (Some "10.0.0.1") None None.

(** A validator knowing one key, and two requests carrying it: one in
    the header from one address, one in the query string from
    another. *)
Definition example_validator : rate_limiter.APIKeyValidator :=
  rate_limiter.add_key (rate_limiter.APIKeyValidator_init None)
    "tts_key1" (<["tier" := JStr "pro"]> ∅).

Definition request_header : rate_limiter.Request :=
  rate_limiter.mkRequest (Some "10.0.0.1") (Some "tts_key1") None.

Definition request_query : rate_limiter.Request :=
  rate_limiter.mkRequest (Some "10.0.0.2") None (Some "tts_key1").

(** One request allowed per minute; the address 10.0.0.1 has used its
    request at time 100. *)
Definition limiter_used : rate_limiter.RateLimiter :=
  rate_limiter.set_window (rate_limiter.RateLimiter_init 1 60)
    "10.0.0.1" [100%Q].

Definition limiter_new : rate_limiter.RateLimiter :=
  rate_limiter.RateLimiter_init 1 60.

End Examples.


(** ** [rate_limiter.py]: usage tracking *)

Module UsageTracker.

(** One entry of [self.stats]. *)
Record stats := mkStats {
  requests : Z;
  characters : Z;
  audio_files : Z;
  errors : Z;
  last_request : option Q
}.

(** The default factory of the [defaultdict]. *)
Definition fresh_stats : stats := mkStats 0 0 0 0 None.

(** [UsageTracker()] *)
Definition init : gmap string stats := ∅.

(** [self.stats[identifier]]: the entry, created on first access. *)
Definition entry (self : gmap string stats) (identifier : string) : stats :=
  default fresh_stats (self !! identifier).

(** Lines 218-225: what [record_request] does to the entry. *)
Definition updated (st : stats) (character_count : Z) (success : bool) (now : Q)
  : stats :=
  let st := mkStats (requests st + 1) (characters st + character_count)
                    (audio_files st) (errors st) (Some now) in
  if success
  then mkStats (requests st) (characters st) (audio_files st + 1)
               (errors st) (last_request st)
  else mkStats (requests st) (characters st) (audio_files st)
               (errors st + 1) (last_request st).

(** [record_request(identifier, character_count, success)], with [now]
    the value of [time.time()]. *)
Definition record_request (self : gmap string stats) (identifier : string)
    (character_count : Z) (success : bool) (now : Q) : gmap string stats :=
  <[identifier := updated (entry self identifier) character_count success now]>
    self.

(** [get_stats(identifier)]: the copy returned, and the tracker, in which
    the access has created the entry. *)
Definition get_stats (self : gmap string stats) (identifier : string)
  : stats * gmap string stats :=
  (entry self identifier, <[identifier := entry self identifier]> self).

(** [get_all_stats()] *)
Definition get_all_stats (self : gmap string stats) : gmap string stats := self.

(** A request to record. *)
Record observation := mkObservation {
  obs_identifier : string;
  obs_characters : Z;
  obs_success : bool;
  obs_time : Q
}.

Definition observe (st : stats) (o : observation) : stats :=
  updated st (obs_characters o) (obs_success o) (obs_time o).

(** [record_request] for each observation in turn. *)
Definition record_all (self : gmap string stats) (obs : list observation)
  : gmap string stats :=
  fold_left
    (fun t o => record_request t (obs_identifier o) (obs_characters o)
                               (obs_success o) (obs_time o))
    obs self.

End UsageTracker.

(** ** Sequences of calls *)

Module Runs.

(** [is_allowed] for each (identifier, clock reading) in turn. *)
Fixpoint calls (rl : rate_limiter.RateLimiter) (cs : list (string * Q))
  : rate_limiter.RateLimiter :=
  match cs with
  | [] => rl
  | (identifier, now) :: rest =>
      calls (snd (rate_limiter.is_allowed rl identifier now)) rest
  end.

(** The calls of a sequence that [is_allowed] allowed. *)
Fixpoint allowed (rl : rate_limiter.RateLimiter) (cs : list (string * Q))
  : list (string * Q) :=
  match cs with
  | [] => []
  | (identifier, now) :: rest =>
      let out := rate_limiter.is_allowed rl identifier now in
      if fst out then (identifier, now) :: allowed (snd out) rest
      else allowed (snd out) rest
  end.

(** The time stamps of the calls of one identifier. *)
Definition stamps_of (identifier : string) (cs : list (string * Q)) : list Q :=
  map snd (List.filter (fun c => String.eqb (fst c) identifier) cs).

(** Every window is what is left of the allowed calls of its identifier
    ([hist]) once stamps older than [T - window_seconds] were dropped. *)
Definition tracks (hist : list (string * Q)) (T : Q)
    (rl : rate_limiter.RateLimiter) : Prop :=
  forall i, exists dropped,
    stamps_of i hist = (dropped ++ rate_limiter.window rl i)%list
    /\ Forall (fun s => (s < T - inject_Z (rate_limiter.window_seconds rl))%Q)
              dropped.

(** The windows are in clock order and hold no time stamp later than
    [T]. *)
Definition ordered_until (T : Q) (rl : rate_limiter.RateLimiter) : Prop :=
  forall i, StronglySorted Qle (rate_limiter.window rl i)
            /\ Forall (fun t => (t <= T)%Q) (rate_limiter.window rl i).

(** The webhook called for each (world, payload) in turn. *)
Fixpoint requests (m : main.machine)
    (rs : list (main.World * gmap string Json.jval)) : main.machine :=
  match rs with
  | [] => m
  | (w, payload) :: rest => requests (snd (main.receive_utterance w payload m)) rest
  end.

Import Json main.

(** The ways a request can end, with the machine each leaves. *)
Inductive ending (w : World) (payload : gmap string jval) (m : machine)
  : response -> machine -> Prop :=
| end_early r :
    (r = empty_response \/ exists err, r = failure_response payload err) ->
    ending w payload m r (count_request m)
| end_hit ts text p :
    decode_timestamp w (request_timestamp w payload) = Ok ts ->
    checked_text (request_utterance payload) = Ok (Some text) ->
    let k := generate_cache_key text (request_options payload ts) in
    cache m !! k = Some p -> path_exists w p = true ->
    ending w payload m
      (failure_response payload
         (Py.Exn "UnboundLocalError"
            "cannot access local variable 'engine' where it is not associated with a value"))
      (after (count_request m) (cache m) [Fingerprint k; CacheLookup k])
| end_failed ts text err names :
    decode_timestamp w (request_timestamp w payload) = Ok ts ->
    checked_text (request_utterance payload) = Ok (Some text) ->
    let o := request_options payload ts in
    let k := generate_cache_key text o in
    names <> [] ->
    generate_audio SystemTTSEngine w text o = Raised err ->
    ending w payload m (failure_response payload err)
      (after (count_request m) (delete k (cache m))
             (miss_events m k ++ map Invoke names)%list)
| end_served ts text e p names :
    decode_timestamp w (request_timestamp w payload) = Ok ts ->
    checked_text (request_utterance payload) = Ok (Some text) ->
    let o := request_options payload ts in
    let k := generate_cache_key text o in
    generate_audio e w text o = Ok p ->
    List.last names EmptyString = name e ->
    ending w payload m
      (success_response w (request_agent payload) (name e) p false)
      (after (count_request m) (<[k := p]> (cache m))
             (miss_events m k ++ map Invoke names ++ [CacheStore k p])%list).

End Runs.

(** ** [main.py]: the other endpoints *)

Module endpoints.

Import Json main.

Definition is_upper (c : ascii) : bool :=
  let n := N_of_ascii c in ((65 <=? n) && (n <=? 90))%N.

Definition is_lower (c : ascii) : bool :=
  let n := N_of_ascii c in ((97 <=? n) && (n <=? 122))%N.

Definition to_upper (c : ascii) : ascii :=
  if is_lower c then ascii_of_N (N_of_ascii c - 32) else c.

Definition to_lower (c : ascii) : ascii :=
  if is_upper c then ascii_of_N (N_of_ascii c + 32) else c.

(** [s.title()] for a string of ASCII characters: a letter is put in upper
    case when it follows a character that is not a letter, in lower case
    otherwise. *)
Fixpoint title_from (after_letter : bool) (s : string) : string :=
  match s with
  | EmptyString => EmptyString
  | String c rest =>
      if is_upper c || is_lower c then
        String (if after_letter then to_lower c else to_upper c)
               (title_from true rest)
      else String c (title_from false rest)
  end.

Definition title (s : string) : string := title_from false s.

(** The availability flags that [health_check] and [list_engines] compute.
    The OpenAI client exists only when the package was imported, so
    [OPENAI_AVAILABLE and client is not None] is [openai_client]. *)
Definition available (w : World) (engine_name : string) : bool :=
  if String.eqb engine_name "gtts" then GTTS_AVAILABLE w
  else if String.eqb engine_name "openai" then openai_client w
  else true.

Record health := mkHealth {
  h_status : string;
  h_version : string;
  h_engines_available : list (string * bool);
  h_total_requests : Z;
  h_cache_size : Z
}.

(** [health_check()], without the uptime. *)
Definition health_check (w : World) (m : machine) : health :=
  mkHealth "healthy" "2.0.0"
    [("gtts", GTTS_AVAILABLE w); ("openai", openai_client w); ("system", true)]
    (request_count m)
    (Z.of_nat (size (cache m))).

Record engine_info := mkEngineInfo {
  info_name : string;
  info_available : bool;
  info_description : string
}.

(** The registry in insertion order: [tts_engines.items()]. *)
Definition tts_engines_items : list (string * engine_t) :=
  [("gtts", GTTSEngine); ("openai", OpenAITTSEngine); ("system", SystemTTSEngine)].

(** [list_engines()] *)
Definition list_engines (w : World) : list (string * engine_info) :=
  map (fun item =>
         let '(engine_name, e) := item in
         (engine_name,
          mkEngineInfo (name e) (available w engine_name)
            (title engine_name ++ " Text-to-Speech Engine")))
      tts_engines_items.

End endpoints.

(** ** [heygen_integration.py] *)

Module heygen_integration.

Import Json main.

(** The service after [__init__]: [api_key or os.getenv('HEYGEN_API_KEY')]. *)
Record HeyGenAvatarService := mkService {
  api_key : option string
}.

Definition HeyGenAvatarService_init (api_key env : option string)
  : HeyGenAvatarService :=
  mkService (rate_limiter.str_or api_key env).

Definition has_key (self : HeyGenAvatarService) : bool :=
  match api_key self with
  | Some k => Py.nonempty k
  | None => false
  end.

(** The parts of the request body that vary. *)
Record video_request := mkVideoRequest {
  input_text : jval;
  avatar_id : jval;
  voice_id : jval;
  background : jval
}.

(** The answer to an HTTP request: the status code and what
    [response.json()] gives (a dict, or the exception it raises). *)
Record http_answer := mkAnswer {
  status_code : Z;
  json_body : result (gmap string jval)
}.

(** [a or b] on JSON values. *)
Definition jval_or (a b : jval) : jval := if truthy a then a else b.

(** [dict.get(key)] *)
Definition get (d : gmap string jval) (key : string) : jval :=
  default JNull (d !! key).

Definition error_dict (message : string) : gmap string jval :=
  <["error" := JStr message]> ∅.

(** [create_avatar_video(text, avatar_id, voice_id, background)]; [post]
    is the HTTP client: the answer to the request, or the exception raised
    by the call. *)
Definition create_avatar_video (self : HeyGenAvatarService)
    (post : video_request -> result http_answer)
    (text avatar voice bg : jval) : result (gmap string jval) :=
  if negb (has_key self) then
    Raised (Py.Exn "ValueError" "HeyGen API key not provided")
  else
    match (let payload :=
             mkVideoRequest text avatar (jval_or voice (JStr "default"))
                            (jval_or bg (JStr "#ffffff")) in
           let* response := post payload in
           if status_code response =? 200 then json_body response
           else Ok (error_dict ("HeyGen API error: "
                                ++ Py.str_of_int (status_code response))))%result
    with
    | Ok r => Ok r
    | Raised e => Ok (error_dict (Py.exn_str e))
    end.

Inductive binding :=
| Skipped (message : string)
| BindError (message : jval)
| Bound (video_id : jval) (message : string).

(** [bind_avatar_to_utterance(utterance_data, audio_file_path,
    heygen_service)] *)
Definition bind_avatar_to_utterance (utterance_data : gmap string jval)
    (audio_file_path : string) (heygen_service : HeyGenAvatarService)
    (post : video_request -> result http_answer) : binding :=
  match (let avatar := get utterance_data "avatar_id" in
         if negb (truthy avatar) then Ok (Skipped "No avatar ID provided")
         else
           let* text :=
             match utterance_data !! "utterance" with
             | Some v => Ok v
             | None => Raised (Py.Exn "KeyError" "'utterance'")
             end in
           let* r := create_avatar_video heygen_service post text avatar
                       (get utterance_data "voice_id")
                       (get utterance_data "background") in
           match r !! "error" with
           | Some e => Ok (BindError e)
           | None => Ok (Bound (get r "video_id")
                               "Avatar video generation initiated")
           end)%result
  with
  | Ok b => b
  | Raised e => BindError (JStr (Py.exn_str e))
  end.

(** The request that [bind_avatar_to_utterance] has [create_avatar_video]
    send for the utterance data and their text. *)
Definition sent (utterance_data : gmap string jval) (text : jval)
  : video_request :=
  mkVideoRequest text (get utterance_data "avatar_id")
    (jval_or (get utterance_data "voice_id") (JStr "default"))
    (jval_or (get utterance_data "background") (JStr "#ffffff")).

(** Utterance data with an avatar and a client that answers 200 with a
    video id; a service with and one without a key. *)
Definition example_data : gmap string jval :=
  <["utterance" := JStr "hello"]> (<["avatar_id" := JStr "anna"]> ∅).

Definition example_post (r : video_request) : result http_answer :=
  Ok (mkAnswer 200 (Ok (<["video_id" := JStr "v1"]> ∅))).

Definition with_key : HeyGenAvatarService :=
  HeyGenAvatarService_init (Some "secret") None.

Definition without_key : HeyGenAvatarService :=
  HeyGenAvatarService_init None None.

End heygen_integration.


(** ** Reading back what [json.dumps] wrote, and shapes of strings *)

Module JsonRead.

Import Json.

(** The value of a lower-case hexadecimal digit. *)
Definition hex_value (c : ascii) : option N :=
  let n := N_of_ascii c in
  if ((48 <=? n) && (n <=? 57))%N then Some (n - 48)%N
  else if ((97 <=? n) && (n <=? 102))%N then Some (n - 87)%N
  else None.

(** The character of a two-character escape. *)
Definition short_escape (e : ascii) : option ascii :=
  let n := N_of_ascii e in
  if (n =? 34)%N then Some dquote
  else if (n =? 92)%N then Some backslash
  else if (n =? 110)%N then Some (ascii_of_N 10)
  else if (n =? 114)%N then Some (ascii_of_N 13)
  else if (n =? 116)%N then Some (ascii_of_N 9)
  else if (n =? 102)%N then Some (ascii_of_N 12)
  else if (n =? 98)%N then Some (ascii_of_N 8)
  else None.

(** The content of a JSON string literal, read as [json.loads] reads the
    escapes that [json.dumps] writes; [None] for anything else. *)
Fixpoint unescape (s : string) : option string :=
  match s with
  | EmptyString => Some EmptyString
  | String c rest =>
      if Ascii.eqb c backslash then
        match rest with
        | String e rest' =>
            if Ascii.eqb e "u" then
              match rest' with
              | String z1 (String z2 (String h1 (String h2 rest''))) =>
                  if Ascii.eqb z1 "0" && Ascii.eqb z2 "0" then
                    match hex_value h1, hex_value h2, unescape rest'' with
                    | Some a, Some b, Some r =>
                        Some (String (ascii_of_N (16 * a + b)) r)
                    | _, _, _ => None
                    end
                  else None
              | _ => None
              end
            else
              match short_escape e, unescape rest' with
              | Some c', Some r => Some (String c' r)
              | _, _ => None
              end
        | EmptyString => None
        end
      else
        match unescape rest with
        | Some r => Some (String c r)
        | None => None
        end
  end.

(** A lower-case hexadecimal digit. *)
Definition is_lower_hex (c : ascii) : bool :=
  let n := N_of_ascii c in
  ((48 <=? n) && (n <=? 57) || (97 <=? n) && (n <=? 102))%N.

(** A printable ASCII character, U+0020..U+007E. *)
Definition is_printable (c : ascii) : bool :=
  let n := N_of_ascii c in ((32 <=? n) && (n <=? 126))%N.

Fixpoint all_chars (p : ascii -> bool) (s : string) : bool :=
  match s with
  | EmptyString => true
  | String c rest => p c && all_chars p rest
  end.

End JsonRead.

(** * Properties *)

Import Json main.

(** ** [hashlib.md5]: the test vectors of RFC 1321 (appendix A.5) and the
    digest [hashlib] gives for a request's cache data *)

Example md5_empty : MD5.hexdigest [] = "d41d8cd98f00b204e9800998ecf8427e".
Proof. vm_compute. reflexivity. Qed.

Example md5_abc :
  MD5.hexdigest (MD5.encode "abc") = "900150983cd24fb0d6963f7d28e17f72".
Proof. vm_compute. reflexivity. Qed.

Example md5_eighty_digits :
  MD5.hexdigest (MD5.encode
    "12345678901234567890123456789012345678901234567890123456789012345678901234567890")
  = "57edf4a22be3c955ac49da2e2107b67a".
Proof. vm_compute. reflexivity. Qed.

Example cache_key_hello :
  generate_cache_key "hello"
    (mkOptions (JStr "bot1") (Datetime "2024-05-01T10:00:00") (JStr "system")
               (JStr "neutral") (JStr "en") (JFloat "1.0"))
  = "c9d8e1b9f6bf8d124d367b3fa104ce12".
Proof. vm_compute. reflexivity. Qed.

(** ** The cache key *)

Section CacheKey.

(** The digest is a string of 32 characters. *)
Lemma le_bytes_length k n : length (MD5.le_bytes k n) = k.
Proof. revert n. induction k as [|k IH]; intros n; simpl; [|rewrite IH]; reflexivity. Qed.

Lemma digest_length msg : length (MD5.digest msg) = 16%nat.
Proof.
  unfold MD5.digest. rewrite !length_app, !le_bytes_length. reflexivity.
Qed.

Lemma string_length_app (s1 s2 : string) :
  String.length (s1 ++ s2) = (String.length s1 + String.length s2)%nat.
Proof. induction s1 as [|c s1 IH]; simpl; [|rewrite IH]; reflexivity. Qed.

Lemma concat_hex_length bs :
  String.length (String.concat EmptyString (map MD5.hex_of_byte bs))
  = (2 * length bs)%nat.
Proof.
  induction bs as [|b bs IH]; [reflexivity|].
  destruct bs as [|b' bs].
  - reflexivity.
  - change (String.length
              (MD5.hex_of_byte b ++
               String.concat EmptyString (map MD5.hex_of_byte (b' :: bs)))
            = (2 * length (b :: b' :: bs))%nat).
    rewrite string_length_app, IH. simpl. lia.
Qed.

Lemma generate_cache_key_length text o :
  String.length (generate_cache_key text o) = 32%nat.
Proof.
  unfold generate_cache_key, MD5.hexdigest.
  rewrite concat_hex_length, digest_length. reflexivity.
Qed.

(** The serialised cache data never mention the agent or the time
    stamp. *)
Lemma cache_data_five_fields text a1 ts1 a2 ts2 e v l s :
  cache_data text (mkOptions a1 ts1 e v l s)
  = cache_data text (mkOptions a2 ts2 e v l s).
Proof. reflexivity. Qed.

End CacheKey.

(** C1.  The cache key is a function of the text and of the engine, voice
    type, language and speed of the request: two requests that agree on
    these five fields get the same digest, whatever their agents and time
    stamps are (taking the same request twice, the key is computed to the
    same value both times). *)
Theorem generate_cache_key_deterministic (text1 text2 : string) (o1 o2 : options) :
  text1 = text2 ->
  engine o1 = engine o2 ->
  voice_type o1 = voice_type o2 ->
  language o1 = language o2 ->
  speed o1 = speed o2 ->
  generate_cache_key text1 o1 = generate_cache_key text2 o2.
Proof.
  intros Ht He Hv Hl Hs.
  unfold generate_cache_key, cache_data.
  rewrite Ht, He, Hv, Hl, Hs. reflexivity.
Qed.

Lemma generate_cache_key_deterministic_witness :
  generate_cache_key "hello"
    (mkOptions (JStr "bot1") (Datetime "2024-05-01T10:00:00") (JStr "system")
               (JStr "neutral") (JStr "en") (JFloat "1.0"))
  = generate_cache_key "hello"
      (mkOptions (JStr "bot2") (Undecoded (JInt 7)) (JStr "system")
                 (JStr "neutral") (JStr "en") (JFloat "1.0")).
Proof.
  apply generate_cache_key_deterministic; reflexivity.
Defined.

(** ** The rate limiter *)

Section RateLimiter.

Import rate_limiter.
Local Open Scope list_scope.

Lemma Qltb_true (a b : Q) : Qltb a b = true <-> (a < b)%Q.
Proof.
  unfold Qltb. rewrite negb_true_iff, <- not_true_iff_false, Qle_bool_iff.
  split; [apply Qnot_le_lt | apply Qlt_not_le].
Qed.

Lemma Qltb_false (a b : Q) : Qltb a b = false <-> (b <= a)%Q.
Proof.
  unfold Qltb. rewrite negb_false_iff. apply Qle_bool_iff.
Qed.

Lemma window_set_window rl id dq : window (set_window rl id dq) id = dq.
Proof. unfold window, set_window; simpl. by rewrite lookup_insert_eq. Qed.

Lemma window_set_window_ne rl id id' dq :
  id <> id' -> window (set_window rl id dq) id' = window rl id'.
Proof. intros Hne. unfold window, set_window; simpl. by rewrite lookup_insert_ne. Qed.

Lemma window_init mx ws id : window (RateLimiter_init mx ws) id = [].
Proof. unfold window, RateLimiter_init; simpl. by rewrite lookup_empty. Qed.

(** What the cleaning loop keeps is a suffix of the deque, whose first
    element (if any) is not older than the window start. *)
Lemma clean_old_suffix ws dq :
  exists dropped, dq = dropped ++ clean_old ws dq
                  /\ Forall (fun t => (t < ws)%Q) dropped.
Proof.
  induction dq as [|t dq IH]; simpl.
  - exists []. split; [reflexivity | constructor].
  - destruct (Qltb t ws) eqn:Hlt.
    + destruct IH as (dropped & Heq & Hall).
      exists (t :: dropped). split.
      * simpl. congruence.
      * constructor; [by apply Qltb_true | exact Hall].
    + exists []. split; [reflexivity | constructor].
Qed.

Lemma clean_old_head ws dq t rest :
  clean_old ws dq = t :: rest -> (ws <= t)%Q.
Proof.
  induction dq as [|u dq IH]; simpl; [discriminate|].
  destruct (Qltb u ws) eqn:Hlt; [exact IH|].
  intros [= -> _]. by apply Qltb_false.
Qed.

(** On a deque in clock order the loop removes exactly the time stamps
    older than the window start. *)
Lemma clean_old_sorted ws dq :
  StronglySorted Qle dq ->
  clean_old ws dq = List.filter (fun t => Qle_bool ws t) dq.
Proof.
  induction 1 as [|t dq Hs IH Hall]; simpl; [reflexivity|].
  destruct (Qltb t ws) eqn:Hlt.
  - apply Qltb_true in Hlt.
    destruct (Qle_bool ws t) eqn:Hle.
    + apply Qle_bool_iff in Hle. exfalso. lra.
    + exact IH.
  - apply Qltb_false in Hlt.
    assert (Hkeep : forall l, Forall (Qle t) l ->
              List.filter (fun u => Qle_bool ws u) l = l).
    { induction 1 as [|u l Hu _ IHl]; simpl; [reflexivity|].
      assert (Qle_bool ws u = true) as ->
          by (apply Qle_bool_iff; lra).
      by rewrite IHl. }
    assert (Qle_bool ws t = true) as -> by (by apply Qle_bool_iff).
    by rewrite Hkeep.
Qed.

Lemma clean_old_keep ws t rest :
  (ws <= t)%Q -> clean_old ws (t :: rest) = t :: rest.
Proof. intros H. simpl. by apply Qltb_false in H as ->. Qed.

Lemma clean_old_length ws dq : (length (clean_old ws dq) <= length dq)%nat.
Proof.
  induction dq as [|t dq IH]; simpl; [lia|].
  destruct (Qltb t ws); simpl; lia.
Qed.

Lemma clean_old_drop ws t rest :
  (t < ws)%Q -> (length (clean_old ws (t :: rest)) <= length rest)%nat.
Proof.
  intros H. simpl. apply Qltb_true in H as ->. apply clean_old_length.
Qed.

(** [is_allowed] in terms of what the cleaning loop keeps. *)
Lemma is_allowed_spec rl id now :
  let kept := clean_old (now - inject_Z (window_seconds rl)) (window rl id) in
  (fst (is_allowed rl id now) = true
   <-> Z.of_nat (length kept) < max_requests rl)
  /\ window (snd (is_allowed rl id now)) id
     = (if fst (is_allowed rl id now) then kept ++ [now] else kept)
  /\ max_requests (snd (is_allowed rl id now)) = max_requests rl
  /\ window_seconds (snd (is_allowed rl id now)) = window_seconds rl
  /\ forall id', id <> id' ->
       window (snd (is_allowed rl id now)) id' = window rl id'.
Proof.
  intros kept. unfold is_allowed. fold kept.
  destruct (Z.of_nat (length kept) <? max_requests rl) eqn:Hlt; simpl.
  - apply Z.ltb_lt in Hlt. rewrite window_set_window.
    repeat split; auto using window_set_window_ne.
  - apply Z.ltb_ge in Hlt. rewrite window_set_window.
    repeat split; auto using window_set_window_ne; try discriminate; lia.
Qed.

Lemma get_reset_time_empty rl id now :
  window rl id = [] -> fst (get_reset_time rl id now) = 0%Q.
Proof. intros H. unfold get_reset_time. by rewrite H. Qed.

Lemma get_reset_time_oldest rl id now oldest rest :
  window rl id = oldest :: rest ->
  fst (get_reset_time rl id now)
  = (oldest + inject_Z (window_seconds rl) - now)%Q.
Proof. intros H. unfold get_reset_time. by rewrite H. Qed.

Lemma get_reset_time_window rl id now id' :
  window (snd (get_reset_time rl id now)) id' = window rl id'.
Proof.
  unfold get_reset_time.
  destruct (decide (id = id')) as [<-|Hne].
  - destruct (window rl id) eqn:Hw; simpl;
      by rewrite window_set_window.
  - destruct (window rl id) eqn:Hw; simpl;
      by rewrite window_set_window_ne.
Qed.

End RateLimiter.

Section SlidingWindow.

Import rate_limiter.
Local Open Scope list_scope.

Lemma is_allowed_under rl id now dq :
  window rl id = dq ->
  clean_old (now - inject_Z (window_seconds rl)) dq = dq ->
  Z.of_nat (length dq) < max_requests rl ->
  is_allowed rl id now = (true, set_window rl id (dq ++ [now])).
Proof.
  intros Hw Hc Hlen. unfold is_allowed. rewrite Hw, Hc.
  apply Z.ltb_lt in Hlen. by rewrite Hlen.
Qed.

Lemma is_allowed_full rl id now dq :
  window rl id = dq ->
  clean_old (now - inject_Z (window_seconds rl)) dq = dq ->
  max_requests rl <= Z.of_nat (length dq) ->
  is_allowed rl id now = (false, set_window rl id dq).
Proof.
  intros Hw Hc Hlen. unfold is_allowed. rewrite Hw, Hc.
  apply Z.ltb_ge in Hlen. by rewrite Hlen.
Qed.

Lemma is_allowed_after_drop rl id now t rest :
  window rl id = t :: rest ->
  (t < now - inject_Z (window_seconds rl))%Q ->
  Z.of_nat (length rest) < max_requests rl ->
  fst (is_allowed rl id now) = true.
Proof.
  intros Hw Hold Hlen.
  apply (proj1 (is_allowed_spec rl id now)). rewrite Hw.
  pose proof (clean_old_drop _ _ rest Hold). lia.
Qed.

End SlidingWindow.

(** Rational arithmetic over the concrete limits. *)
Ltac q_arith := simpl; unfold inject_Z; lra.

(** C5 (amended).  [is_allowed] is a sliding window over a deque.  Its
    loop removes time stamps from the front for as long as the first one
    is older than [now - window_seconds]: what it removes is a prefix of
    older stamps, what it keeps starts with a stamp that is not older, and
    on a deque in clock order it keeps exactly the stamps that are not
    older.  The call is then allowed, and [now] recorded, exactly when
    fewer than [max_requests] stamps are kept.  With [max_requests = 3] and
    [window_seconds = 60], for clock readings from 0 to 2^53: three calls
    are allowed, a fourth made less than 60 seconds after the first is
    denied, [get_reset_time] is then not negative (and is 0 on an empty
    window), and a call made more than 60 seconds after the first one is
    allowed again.  Of the reset time only the sign is stated: the code
    computes [oldest + 60 - now] in double precision, where it can round
    to 0.0 before the window has elapsed (0.4 + 60 - 60.4); the bounds on
    the readings are those between which [now - 60] is exact in double
    precision, so that the comparisons come out as they do here. *)
Theorem is_allowed_sliding_window
    (rl : rate_limiter.RateLimiter) (id : string) (now t1 t2 t3 t4 t5 t6 : Q) :
  (0 <= t1)%Q ->
  (t1 <= t2)%Q -> (t2 <= t3)%Q -> (t3 <= t4)%Q -> (t4 <= t5)%Q ->
  (t5 < t1 + 60)%Q -> (t1 + 60 < t6)%Q ->
  (t6 <= 9007199254740992)%Q ->
  let window_start := (now - inject_Z (rate_limiter.window_seconds rl))%Q in
  let kept := rate_limiter.clean_old window_start (rate_limiter.window rl id) in
  rate_limiter.is_allowed rl id now
  = (if Z.of_nat (length kept) <? rate_limiter.max_requests rl
     then (true, rate_limiter.set_window rl id (kept ++ [now])%list)
     else (false, rate_limiter.set_window rl id kept))
  /\ (exists dropped,
        rate_limiter.window rl id = (dropped ++ kept)%list
        /\ Forall (fun t => (t < window_start)%Q) dropped)
  /\ (forall t rest, kept = t :: rest -> (window_start <= t)%Q)
  /\ (StronglySorted Qle (rate_limiter.window rl id) ->
      kept = List.filter (fun t => Qle_bool window_start t)
               (rate_limiter.window rl id))
  /\ (rate_limiter.window rl id = [] ->
      fst (rate_limiter.get_reset_time rl id now) = 0%Q)
  /\ let rl0 := rate_limiter.RateLimiter_init 3 60 in
     let r1 := rate_limiter.is_allowed rl0 id t1 in
     let r2 := rate_limiter.is_allowed (snd r1) id t2 in
     let r3 := rate_limiter.is_allowed (snd r2) id t3 in
     let r4 := rate_limiter.is_allowed (snd r3) id t4 in
     fst r1 = true /\ fst r2 = true /\ fst r3 = true /\ fst r4 = false
     /\ (0 <= fst (rate_limiter.get_reset_time (snd r4) id t5))%Q
     /\ fst (rate_limiter.get_reset_time rl0 id t5) = 0%Q
     /\ fst (rate_limiter.is_allowed (snd r4) id t6) = true.
Proof.
  intros _ H12 H23 H34 H45 H5 H6 _ window_start kept.
  split; [|split; [|split; [|split; [|split]]]].
  - reflexivity.
  - apply clean_old_suffix.
  - intros t rest Hk.
    exact (clean_old_head window_start (rate_limiter.window rl id) t rest Hk).
  - intros Hsorted. apply (clean_old_sorted _ _ Hsorted).
  - apply get_reset_time_empty.
  - intros rl0 r1 r2 r3 r4.
    set (w1 := rate_limiter.set_window rl0 id [t1]).
    set (w2 := rate_limiter.set_window w1 id [t1; t2]).
    set (w3 := rate_limiter.set_window w2 id [t1; t2; t3]).
    set (w4 := rate_limiter.set_window w3 id [t1; t2; t3]).
    assert (E1 : r1 = (true, w1)).
    { apply (is_allowed_under rl0 id t1 []);
        [apply window_init | reflexivity | cbn; lia]. }
    assert (E2 : r2 = (true, w2)).
    { subst r2. rewrite E1. cbn [snd].
      apply (is_allowed_under w1 id t2 [t1]).
      - apply window_set_window.
      - apply clean_old_keep. cbn. unfold inject_Z. lra.
      - cbn. lia. }
    assert (E3 : r3 = (true, w3)).
    { subst r3. rewrite E2. cbn [snd].
      apply (is_allowed_under w2 id t3 [t1; t2]).
      - apply window_set_window.
      - apply clean_old_keep. cbn. unfold inject_Z. lra.
      - cbn. lia. }
    assert (E4 : r4 = (false, w4)).
    { subst r4. rewrite E3. cbn [snd].
      apply (is_allowed_full w3 id t4 [t1; t2; t3]).
      - apply window_set_window.
      - apply clean_old_keep. cbn. unfold inject_Z. lra.
      - cbn. lia. }
    clearbody r1 r2 r3 r4. subst r1 r2 r3 r4. cbn [fst snd].
    do 4 (split; [reflexivity|]).
    split; [|split].
    + rewrite (get_reset_time_oldest w4 id t5 t1 [t2; t3])
        by apply window_set_window.
      cbn. unfold inject_Z. lra.
    + apply get_reset_time_empty, window_init.
    + apply (is_allowed_after_drop w4 id t6 t1 [t2; t3]).
      * apply window_set_window.
      * cbn. unfold inject_Z. lra.
      * cbn. lia.
Qed.

Lemma is_allowed_sliding_window_witness :
  let rl := rate_limiter.set_window (rate_limiter.RateLimiter_init 2 10)
              "10.0.0.1" [1%Q; 5%Q; 12%Q] in
  rate_limiter.is_allowed rl "10.0.0.1" 13
  = (false, rate_limiter.set_window rl "10.0.0.1" [5%Q; 12%Q])
  /\ fst (rate_limiter.is_allowed
            (snd (rate_limiter.is_allowed
               (snd (rate_limiter.is_allowed
                  (snd (rate_limiter.is_allowed
                     (rate_limiter.RateLimiter_init 3 60) "10.0.0.1" 0))
                  "10.0.0.1" 10)) "10.0.0.1" 20)) "10.0.0.1" 30) = false.
Proof.
  pose proof (is_allowed_sliding_window
                (rate_limiter.set_window (rate_limiter.RateLimiter_init 2 10)
                   "10.0.0.1" [1%Q; 5%Q; 12%Q])
                "10.0.0.1" 13 0 10 20 30 40 61) as H.
  destruct H as (Hgen & _ & _ & _ & _ & Hscen).
  - unfold Qle; simpl; lia.
  - unfold Qle; simpl; lia.
  - unfold Qle; simpl; lia.
  - unfold Qle; simpl; lia.
  - unfold Qle; simpl; lia.
  - unfold Qlt; simpl; lia.
  - unfold Qlt; simpl; lia.
  - unfold Qle; simpl; lia.
  - split.
    + etransitivity; [exact Hgen|]. vm_compute. reflexivity.
    + exact (proj1 (proj2 (proj2 (proj2 Hscen)))).
Defined.

(** C5, as stated, fails when the clock steps back: [is_allowed] does not
    remove all the time stamps older than [now - window_seconds], only
    those in front of the first one that is not older.  With 2 requests
    per 60 seconds, calls at the readings 100 and 1 leave the deque
    [100; 1]; at the reading 130 the stamp 1 is older than 70, and without
    it one stamp would remain, so that the call would be allowed; the loop
    stops at 100, keeps both stamps and the call is denied. *)
Lemma is_allowed_keeps_a_stale_stamp :
  let rl0 := rate_limiter.RateLimiter_init 2 60 in
  let r1 := rate_limiter.is_allowed rl0 "10.0.0.1" 100 in
  let r2 := rate_limiter.is_allowed (snd r1) "10.0.0.1" 1 in
  let r3 := rate_limiter.is_allowed (snd r2) "10.0.0.1" 130 in
  let not_older :=
    List.filter (fun t => Qle_bool (130 - 60) t)
      (rate_limiter.window (snd r2) "10.0.0.1") in
  fst r1 = true /\ fst r2 = true
  /\ rate_limiter.window (snd r2) "10.0.0.1" = [100%Q; 1%Q]
  /\ not_older = [100%Q]
  /\ (Z.of_nat (length not_older) <? rate_limiter.max_requests (snd r2)) = true
  /\ fst r3 = false
  /\ rate_limiter.window (snd r3) "10.0.0.1" = [100%Q; 1%Q].
Proof. vm_compute. repeat split; reflexivity. Qed.

(** ** The security middleware *)

Section Gate.

Import rate_limiter.

Lemma get_identifier_key request k :
  get_api_key request = Some k -> Py.nonempty k = true ->
  get_identifier request = k.
Proof. intros Hk Hne. unfold get_identifier. by rewrite Hk, Hne. Qed.

Lemma get_identifier_ip request :
  get_api_key request = None ->
  get_identifier request = get_client_ip request.
Proof. intros Hk. unfold get_identifier. by rewrite Hk. Qed.

(** The rate-limiting step reads the limits and the window of the
    identifier and nothing else of the limiter. *)
Lemma is_allowed_local rlA rlB id now :
  max_requests rlA = max_requests rlB ->
  window_seconds rlA = window_seconds rlB ->
  window rlA id = window rlB id ->
  fst (is_allowed rlA id now) = fst (is_allowed rlB id now)
  /\ window (snd (is_allowed rlA id now)) id
     = window (snd (is_allowed rlB id now)) id
  /\ max_requests (snd (is_allowed rlA id now))
     = max_requests (snd (is_allowed rlB id now))
  /\ window_seconds (snd (is_allowed rlA id now))
     = window_seconds (snd (is_allowed rlB id now)).
Proof.
  intros Hm Hw Hwin. unfold is_allowed. rewrite Hm, Hw, Hwin.
  destruct (_ <? _); simpl; rewrite !window_set_window; auto.
Qed.

Lemma get_reset_time_local rlA rlB id now :
  window_seconds rlA = window_seconds rlB ->
  window rlA id = window rlB id ->
  fst (get_reset_time rlA id now) = fst (get_reset_time rlB id now).
Proof.
  intros Hw Hwin. unfold get_reset_time. rewrite Hw, Hwin.
  by destruct (window rlB id).
Qed.

Lemma rate_limiting_local rlA rlB av require reqA reqB mdA mdB now now' :
  get_identifier reqA = get_identifier reqB ->
  max_requests rlA = max_requests rlB ->
  window_seconds rlA = window_seconds rlB ->
  window rlA (get_identifier reqA) = window rlB (get_identifier reqA) ->
  let outA := rate_limiting (mkSecurityMiddleware rlA av require) reqA mdA now now' in
  let outB := rate_limiting (mkSecurityMiddleware rlB av require) reqB mdB now now' in
  denied_with (fst outA) = denied_with (fst outB)
  /\ window (rate_limiter (snd outA)) (get_identifier reqA)
     = window (rate_limiter (snd outB)) (get_identifier reqA)
  /\ (forall r, fst outA = inr r -> res_identifier r = get_identifier reqA).
Proof.
  intros Hid Hm Hw Hwin. unfold rate_limiting. simpl rate_limiter.
  rewrite <- Hid.
  destruct (is_allowed_local rlA rlB (get_identifier reqA) now Hm Hw Hwin)
    as (Hfst & Hwin' & Hm' & Hw').
  destruct (is_allowed rlA (get_identifier reqA) now) as [okA rlA'].
  destruct (is_allowed rlB (get_identifier reqA) now) as [okB rlB'].
  simpl in *. subst okB.
  destruct okA; simpl.
  - repeat split; auto. by intros r [= <-].
  - pose proof (get_reset_time_local rlA' rlB' (get_identifier reqA) now' Hw' Hwin')
      as Hreset.
    pose proof (get_reset_time_window rlA' (get_identifier reqA) now'
                  (get_identifier reqA)) as HA.
    pose proof (get_reset_time_window rlB' (get_identifier reqA) now'
                  (get_identifier reqA)) as HB.
    destruct (get_reset_time rlA' (get_identifier reqA) now') as [tA rlA''].
    destruct (get_reset_time rlB' (get_identifier reqA) now') as [tB rlB''].
    simpl in *. subst tB.
    repeat split; [congruence | discriminate].
Qed.

(** A request that is denied by the limiter is answered 429 with the
    whole seconds of the reset time as [Retry-After]. *)
Lemma rate_limiting_denied self request md now now' :
  fst (is_allowed (rate_limiter self) (get_identifier request) now) = false ->
  let rl := snd (is_allowed (rate_limiter self) (get_identifier request) now) in
  let reset_time := fst (get_reset_time rl (get_identifier request) now') in
  fst (rate_limiting self request md now now')
  = inl (mkHTTPException 429
           ("Rate limit exceeded. Try again in "
            ++ Py.str_of_int (int_of_Q reset_time) ++ " seconds")
           [("Retry-After", Py.str_of_int (int_of_Q reset_time))]).
Proof.
  intros Hdeny rl reset_time. unfold rate_limiting.
  subst rl reset_time.
  destruct (is_allowed _ _ now) as [ok rl]. simpl in *. subst ok. simpl.
  by destruct (get_reset_time rl _ now').
Qed.

Lemma rate_limiting_allowed self request md now now' :
  fst (is_allowed (rate_limiter self) (get_identifier request) now) = true ->
  fst (rate_limiting self request md now now')
  = inr (mkCheckResult (get_client_ip request) (get_api_key request) md
                       (get_identifier request)).
Proof.
  intros Hok. unfold rate_limiting.
  destruct (is_allowed _ _ now) as [ok rl]. simpl in *. by subst ok.
Qed.

(** The key check comes first: what it rejects never reaches the
    limiter. *)
Lemma api_key_validation_status self request e :
  api_key_validation self request = inl e -> status_code e = 401.
Proof.
  unfold api_key_validation.
  repeat (case_match; simpl); intros [= <-]; reflexivity.
Qed.

Lemma check_request_rejected self request e now now' :
  api_key_validation self request = inl e ->
  check_request self request now now' = (inl e, self).
Proof. intros H. unfold check_request. by rewrite H. Qed.

Lemma check_request_passed self request md now now' :
  api_key_validation self request = inr md ->
  check_request self request now now' = rate_limiting self request md now now'.
Proof. intros H. unfold check_request. by rewrite H. Qed.

Lemma api_key_validation_valid self request k :
  get_api_key request = Some k -> Py.nonempty k = true ->
  metadata_truthy (validate_key (api_validator self) k) = true ->
  api_key_validation self request = inr (validate_key (api_validator self) k).
Proof.
  intros Hk Hne Hmd. unfold api_key_validation. by rewrite Hk, Hne, Hmd.
Qed.

End Gate.

(** C6.  When a valid API key is supplied, the identifier that is rate
    limited is the key: two requests carrying the same key, from any two
    client addresses and however the key is passed, checked against two
    limiters that agree on the limits and on the window of that key (and
    differ at will on every other window), get the same verdict, and leave
    the key's window in the same state. *)
Theorem api_key_takes_precedence
    (av : rate_limiter.APIKeyValidator) (require : bool)
    (rlA rlB : rate_limiter.RateLimiter)
    (reqA reqB : rate_limiter.Request) (k : string) (now now' : Q) :
  rate_limiter.get_api_key reqA = Some k ->
  rate_limiter.get_api_key reqB = Some k ->
  Py.nonempty k = true ->
  rate_limiter.metadata_truthy (rate_limiter.validate_key av k) = true ->
  rate_limiter.max_requests rlA = rate_limiter.max_requests rlB ->
  rate_limiter.window_seconds rlA = rate_limiter.window_seconds rlB ->
  rate_limiter.window rlA k = rate_limiter.window rlB k ->
  let outA :=
    rate_limiter.check_request
      (rate_limiter.mkSecurityMiddleware rlA av require) reqA now now' in
  let outB :=
    rate_limiter.check_request
      (rate_limiter.mkSecurityMiddleware rlB av require) reqB now now' in
  rate_limiter.get_identifier reqA = k
  /\ rate_limiter.get_identifier reqB = k
  /\ rate_limiter.denied_with (fst outA) = rate_limiter.denied_with (fst outB)
  /\ (forall r, fst outA = inr r -> rate_limiter.res_identifier r = k)
  /\ rate_limiter.window (rate_limiter.rate_limiter (snd outA)) k
     = rate_limiter.window (rate_limiter.rate_limiter (snd outB)) k.
Proof.
  intros HkA HkB Hne Hvalid Hm Hw Hwin outA outB.
  pose proof (get_identifier_key reqA k HkA Hne) as HidA.
  pose proof (get_identifier_key reqB k HkB Hne) as HidB.
  subst outA outB.
  rewrite (check_request_passed _ reqA (rate_limiter.validate_key av k))
    by (by apply api_key_validation_valid).
  rewrite (check_request_passed _ reqB (rate_limiter.validate_key av k))
    by (by apply api_key_validation_valid).
  pose proof (rate_limiting_local rlA rlB av require reqA reqB
                (rate_limiter.validate_key av k) (rate_limiter.validate_key av k)
                now now') as H.
  rewrite HidA in H. specialize (H (eq_sym HidB) Hm Hw Hwin).
  destruct H as (Hd & Hwin' & Hres).
  repeat split; assumption.
Qed.

Lemma api_key_takes_precedence_witness :
  rate_limiter.denied_with
    (fst (rate_limiter.check_request
            (rate_limiter.mkSecurityMiddleware Examples.limiter_used
               Examples.example_validator false)
            Examples.request_header 101 102))
  = rate_limiter.denied_with
      (fst (rate_limiter.check_request
              (rate_limiter.mkSecurityMiddleware Examples.limiter_new
                 Examples.example_validator false)
              Examples.request_query 101 102)).
Proof.
  refine (proj1 (proj2 (proj2
    (api_key_takes_precedence Examples.example_validator false
       Examples.limiter_used Examples.limiter_new
       Examples.request_header Examples.request_query "tts_key1" 101 102
       _ _ _ _ _ _ _)))); vm_compute; reflexivity.
Defined.

(** ** Blank texts *)

Section Strip.

Lemma lstrip_blank s : Py.blank s = true -> Py.lstrip s = EmptyString.
Proof.
  induction s as [|c s IH]; simpl; [reflexivity|].
  intros [Hc Hs]%andb_true_iff. rewrite Hc. by apply IH.
Qed.

Lemma lstrip_empty_blank s : Py.lstrip s = EmptyString -> Py.blank s = true.
Proof.
  induction s as [|c s IH]; simpl; [reflexivity|].
  destruct (Py.isspace c); [exact IH | discriminate].
Qed.

Lemma blank_lstrip s : Py.blank (Py.lstrip s) = Py.blank s.
Proof.
  induction s as [|c s IH]; simpl; [reflexivity|].
  destruct (Py.isspace c) eqn:Hc; simpl; [exact IH | by rewrite Hc].
Qed.

Lemma blank_app (s1 s2 : string) :
  Py.blank (s1 ++ s2) = Py.blank s1 && Py.blank s2.
Proof.
  induction s1 as [|c s1 IH]; simpl; [reflexivity|].
  by rewrite IH, andb_assoc.
Qed.

Lemma blank_rev_app s1 s2 :
  Py.blank (String.rev_app s1 s2) = Py.blank s1 && Py.blank s2.
Proof.
  revert s2. induction s1 as [|c s1 IH]; intros s2; simpl; [reflexivity|].
  rewrite IH. simpl. destruct (Py.isspace c), (Py.blank s1); reflexivity.
Qed.

Lemma blank_rev s : Py.blank (String.rev s) = Py.blank s.
Proof. unfold String.rev. rewrite blank_rev_app. simpl. apply andb_true_r. Qed.

Lemma rev_app_empty s1 s2 :
  String.rev_app s1 s2 = EmptyString -> s1 = EmptyString.
Proof.
  revert s2. induction s1 as [|c s1 IH]; intros s2; simpl; [reflexivity|].
  intros H. pose proof (IH _ H) as ->. simpl in H. discriminate.
Qed.

Lemma rev_empty s : String.rev s = EmptyString -> s = EmptyString.
Proof. apply rev_app_empty. Qed.

(** [s.strip()] is empty exactly for the blank strings. *)
Lemma strip_nonempty s : Py.nonempty (Py.strip s) = negb (Py.blank s).
Proof.
  unfold Py.strip, Py.rstrip.
  destruct (Py.blank s) eqn:Hb; simpl.
  - rewrite (lstrip_blank s Hb). reflexivity.
  - destruct (String.rev (Py.lstrip (String.rev (Py.lstrip s)))) eqn:Hr;
      [|reflexivity].
    apply rev_empty, lstrip_empty_blank in Hr.
    rewrite blank_rev, blank_lstrip in Hr. congruence.
Qed.

Lemma blank_nonempty s : Py.blank s = false -> Py.nonempty s = true.
Proof. by destruct s. Qed.

(** The check of line 225 on a string. *)
Lemma checked_text_str s :
  checked_text (JStr s) = Ok (if Py.blank s then None else Some s).
Proof.
  unfold checked_text. simpl.
  destruct (Py.blank s) eqn:Hb.
  - destruct (Py.nonempty s); simpl; [|reflexivity].
    by rewrite strip_nonempty, Hb.
  - rewrite (blank_nonempty s Hb). simpl.
    by rewrite strip_nonempty, Hb.
Qed.

End Strip.

(** ** The webhook, step by step *)

Section Webhook.

Local Open Scope list_scope.

Variable w : World.

Lemma check_cache_hit k p m :
  cache m !! k = Some p -> path_exists w p = true ->
  check_cache w k m = (Ok (Some p), after m (cache m) [CacheLookup k]).
Proof.
  intros Hk Hp. unfold check_cache, bind, emit, get_cache, ret; simpl.
  by rewrite Hk, Hp.
Qed.

Lemma check_cache_stale k p m :
  cache m !! k = Some p -> path_exists w p = false ->
  check_cache w k m
  = (Ok None, after m (delete k (cache m)) [CacheLookup k; CacheEvict k]).
Proof.
  intros Hk Hp. unfold check_cache, bind, emit, get_cache, set_cache, ret; simpl.
  rewrite Hk, Hp. unfold after; simpl. by rewrite <- app_assoc.
Qed.

Lemma check_cache_absent k m :
  cache m !! k = None ->
  check_cache w k m = (Ok None, after m (cache m) [CacheLookup k]).
Proof.
  intros Hk. unfold check_cache, bind, emit, get_cache, ret; simpl.
  by rewrite Hk.
Qed.

Lemma synthesize_and_store_ok e text o k p m :
  generate_audio e w text o = Ok p ->
  synthesize_and_store w e text o k m
  = (Ok p, after m (<[k := p]> (cache m)) [Invoke (name e); CacheStore k p]).
Proof.
  intros H.
  unfold synthesize_and_store, bind, emit, lift, get_cache, set_cache, ret; simpl.
  rewrite H. unfold after; simpl. by rewrite <- app_assoc.
Qed.

Lemma synthesize_and_store_raised e text o k err m :
  generate_audio e w text o = Raised err ->
  synthesize_and_store w e text o k m
  = (Raised err, after m (cache m) [Invoke (name e)]).
Proof.
  intros H.
  unfold synthesize_and_store, bind, emit, lift; simpl. by rewrite H.
Qed.

Lemma after_after m c evs c' evs' :
  after (after m c evs) c' evs' = after m c' (evs ++ evs').
Proof. unfold after; simpl. by rewrite <- app_assoc. Qed.

(** The three ways through the dispatch block. *)
Lemma dispatch_first engine_name text o k p m :
  let e := default SystemTTSEngine (tts_engines_get engine_name) in
  generate_audio e w text o = Ok p ->
  dispatch w engine_name text o k m
  = (Ok (e, p), after m (<[k := p]> (cache m)) [Invoke (name e); CacheStore k p]).
Proof.
  intros e H. unfold dispatch, try_except, bind, ret. fold e.
  by rewrite (synthesize_and_store_ok e text o k p m H).
Qed.

Lemma dispatch_fallback engine_name text o k err m :
  let e := default SystemTTSEngine (tts_engines_get engine_name) in
  generate_audio e w text o = Raised err ->
  engine_name <> JStr "system" ->
  dispatch w engine_name text o k m
  = match generate_audio SystemTTSEngine w text o with
    | Ok p =>
        (Ok (SystemTTSEngine, p),
         after m (<[k := p]> (cache m))
               [Invoke (name e); Invoke "system"; CacheStore k p])
    | Raised err' =>
        (Raised err', after m (cache m) [Invoke (name e); Invoke "system"])
    end.
Proof.
  intros e H Hne. unfold dispatch, try_except, bind, ret. fold e.
  rewrite (synthesize_and_store_raised e text o k err m H).
  rewrite bool_decide_eq_false_2 by exact Hne.
  unfold bind, ret. cbn [negb]. cbv beta.
  destruct (generate_audio SystemTTSEngine w text o) as [p|err'] eqn:Hsys.
  - rewrite (synthesize_and_store_ok SystemTTSEngine text o k p _ Hsys).
    by rewrite after_after.
  - rewrite (synthesize_and_store_raised SystemTTSEngine text o k err' _ Hsys).
    by rewrite after_after.
Qed.

Lemma dispatch_reraise text o k err m :
  generate_audio SystemTTSEngine w text o = Raised err ->
  dispatch w (JStr "system") text o k m
  = (Raised err, after m (cache m) [Invoke "system"]).
Proof.
  intros H. unfold dispatch, try_except, bind, ret.
  change (default SystemTTSEngine (tts_engines_get (JStr "system")))
    with SystemTTSEngine.
  by rewrite (synthesize_and_store_raised SystemTTSEngine text o k err m H).
Qed.

End Webhook.

(** ** The webhook, path by path *)

Section Paths.

Local Open Scope list_scope.

Variable w : World.
Variable payload : gmap string jval.
Variable m : machine.

Lemma receive_utterance_bad_timestamp err :
  decode_timestamp w (request_timestamp w payload) = Raised err ->
  receive_utterance w payload m = (failure_response payload err, count_request m).
Proof.
  intros H. unfold receive_utterance, handle, bind, lift. by rewrite H.
Qed.

Lemma receive_utterance_empty ts :
  decode_timestamp w (request_timestamp w payload) = Ok ts ->
  checked_text (request_utterance payload) = Ok None ->
  receive_utterance w payload m = (empty_response, count_request m).
Proof.
  intros H1 H2. unfold receive_utterance, handle, bind, lift.
  by rewrite H1, H2.
Qed.

Lemma receive_utterance_not_text ts err :
  decode_timestamp w (request_timestamp w payload) = Ok ts ->
  checked_text (request_utterance payload) = Raised err ->
  receive_utterance w payload m = (failure_response payload err, count_request m).
Proof.
  intros H1 H2. unfold receive_utterance, handle, bind, lift.
  by rewrite H1, H2.
Qed.

Section WithText.

Variable ts : tsval.
Variable text : string.
Hypothesis Hts : decode_timestamp w (request_timestamp w payload) = Ok ts.
Hypothesis Htext : checked_text (request_utterance payload) = Ok (Some text).

Let o := request_options payload ts.
Let k := generate_cache_key text o.

(** A live entry: the handler stops at [engine.name]. *)
Lemma receive_utterance_hit p :
  cache m !! k = Some p -> path_exists w p = true ->
  receive_utterance w payload m
  = (failure_response payload
       (Py.Exn "UnboundLocalError"
          "cannot access local variable 'engine' where it is not associated with a value"),
     after (count_request m) (cache m) [Fingerprint k; CacheLookup k]).
Proof.
  intros Hk Hp. unfold receive_utterance, handle, bind, lift.
  rewrite Hts, Htext. fold o. fold k.
  unfold emit at 1. cbv beta iota.
  rewrite (check_cache_hit w k p) by (simpl; assumption).
  unfold respond, bind, lift, engine_name_of. cbv beta iota.
  unfold after, count_request; simpl. by rewrite <- app_assoc.
Qed.

(** No live entry: the handler answers with what the dispatch block
    produced. *)
Lemma receive_utterance_miss :
  (forall p, cache m !! k = Some p -> path_exists w p = false) ->
  receive_utterance w payload m
  = match dispatch w (request_engine payload) text o k
            (after (count_request m) (delete k (cache m)) (miss_events m k))
    with
    | (Ok (e, p), m') =>
        (success_response w (request_agent payload) (name e) p false, m')
    | (Raised err, m') => (failure_response payload err, m')
    end.
Proof.
  intros Hmiss. unfold receive_utterance, handle, bind, lift.
  rewrite Hts, Htext. fold o. fold k.
  unfold emit at 1. cbv beta iota.
  assert (Hcheck :
    check_cache w k
      {| request_count := request_count (count_request m);
         cache := cache (count_request m);
         trace := trace (count_request m) ++ [Fingerprint k] |}
    = (Ok None, after (count_request m) (delete k (cache m)) (miss_events m k))).
  { unfold miss_events. destruct (cache m !! k) as [p|] eqn:Hk.
    - rewrite (check_cache_stale w k p) by (simpl; auto).
      unfold after; simpl. by rewrite <- app_assoc.
    - rewrite (check_cache_absent w k) by (simpl; auto).
      unfold after; simpl. rewrite <- app_assoc.
      by rewrite delete_id. }
  rewrite Hcheck.
  destruct (dispatch w (request_engine payload) text o k _) as [[[e p]|err] m'];
    reflexivity.
Qed.

End WithText.

End Paths.

(** ** Statuses of the webhook *)

Section Statuses.

Variable w : World.
Variable payload : gmap string jval.
Variable m : machine.

Lemma respond_bound agent e p hit m0 :
  respond w agent (Some e) p hit m0
  = (Ok (success_response w agent (name e) p hit), m0).
Proof. reflexivity. Qed.

(** A response that [handle] returns is the 400 of the emptiness check or
  a 200. *)
Lemma handle_ok r m0 m' :
  handle w payload m0 = (Ok r, m') ->
  (r = empty_response
 /\ checked_text (request_utterance payload) = Ok None /\ m' = m0)
  \/ http_status r = 200.
Proof.
  unfold handle, bind, lift.
  destruct (decode_timestamp w (request_timestamp w payload)) as [ts|err];
  [|discriminate].
  destruct (checked_text (request_utterance payload)) as [[text|]|err];
  [| |discriminate].
  - unfold emit at 1. cbv beta iota.
  destruct (check_cache w _ _) as [[[p|]|err] m1]; [| |discriminate].
  + unfold respond, bind, lift, engine_name_of. discriminate.
  + destruct (dispatch w _ _ _ _ m1) as [[[e p]|err] m2]; [|discriminate].
    simpl fst; simpl snd. rewrite respond_bound.
    intros [= <- _]. by right.
  - unfold ret. intros [= <- <-]. by left.
Qed.

Lemma receive_utterance_status :
  let r := fst (receive_utterance w payload m) in
  http_status r = 200 \/ http_status r = 400 \/ http_status r = 500.
Proof.
  unfold receive_utterance.
  destruct (handle w payload (count_request m)) as [[r|err] m'] eqn:H; simpl.
  - destruct (handle_ok r _ _ H) as [(-> & _)|H200]; auto.
  - auto.
Qed.


End Statuses.

(** ** Traces *)

Lemma invoked_app (tr1 tr2 : list event) :
  invoked (tr1 ++ tr2)%list = (invoked tr1 ++ invoked tr2)%list.
Proof. apply flat_map_app. Qed.

Lemma invoked_miss_events m k : invoked (miss_events m k) = [].
Proof. unfold miss_events. by destruct (cache m !! k). Qed.

Lemma tts_engines_get_known engine_name e :
  tts_engines_get engine_name = Some e ->
  e <> SystemTTSEngine -> engine_name <> JStr "system".
Proof.
  intros Hget Hne ->. apply Hne.
  change (tts_engines_get (JStr "system")) with (Some SystemTTSEngine) in Hget.
  congruence.
Qed.

Lemma no_live_entry (w : World) (m : machine) (k : string) :
  match cache m !! k with
  | Some p => path_exists w p = false
  | None => True
  end ->
  forall p, cache m !! k = Some p -> path_exists w p = false.
Proof. intros H p Hp. by rewrite Hp in H. Qed.

(** C8 (amended).  A request whose text is empty or white space only never
    reaches the cache or a backend: whatever else it carries, the handler
    only counts the request, computes no cache key, makes no lookup, leaves
    the cache as it was and invokes no engine.  Its answer is the 400
    "Utterance cannot be empty" when its time stamp decodes; a time stamp
    that does not parse is reported first, as a 500. *)
Theorem blank_text_stops_before_cache
    (w : World) (payload : gmap string jval) (m : machine) (s : string) :
  request_utterance payload = JStr s ->
  Py.blank s = true ->
  receive_utterance w payload m
  = (match decode_timestamp w (request_timestamp w payload) with
     | Ok _ => empty_response
     | Raised err => failure_response payload err
     end, count_request m)
  /\ http_status empty_response = 400
  /\ cache (count_request m) = cache m
  /\ trace (count_request m) = trace m.
Proof.
  intros Hu Hb. split; [|by repeat split].
  destruct (decode_timestamp w (request_timestamp w payload)) as [ts|err] eqn:Hts.
  - apply (receive_utterance_empty w payload m ts Hts).
    by rewrite Hu, checked_text_str, Hb.
  - by apply receive_utterance_bad_timestamp.
Qed.

Lemma blank_text_stops_before_cache_witness :
  receive_utterance (Examples.example_world [])
    (<["utterance" := JStr "   "]> ∅) Examples.fresh
  = (empty_response, count_request Examples.fresh).
Proof.
  exact (proj1 (blank_text_stops_before_cache (Examples.example_world [])
                  (<["utterance" := JStr "   "]> ∅) Examples.fresh "   "
                  eq_refl eq_refl)).
Defined.

(** C8, as stated, fails: a blank text with a time stamp that does not
    parse is answered 500, not 400. *)
Lemma blank_text_with_bad_timestamp_is_500 :
  request_utterance Examples.blank_with_bad_timestamp = JStr " "
  /\ Py.blank " " = true
  /\ http_status
       (fst (receive_utterance (Examples.example_world [])
               Examples.blank_with_bad_timestamp Examples.fresh)) = 500.
Proof. vm_compute. auto. Qed.

(** ** The length bound *)

Lemma sanitize_text_not_blank text max_length :
  Py.blank text = false ->
  rate_limiter.sanitize_text text max_length
  = if Py.len (Py.strip text) >? max_length
    then inl (Py.Exn "ValueError"
                ("Text too long. Maximum " ++ Py.str_of_int max_length
                 ++ " characters allowed"))
    else inr (Py.strip text).
Proof.
  intros Hb. unfold rate_limiter.sanitize_text.
  by rewrite (blank_nonempty text Hb), strip_nonempty, Hb.
Qed.




(** ** The gate and the webhook *)

(** C4 (amended).  [check_request] validates the API key first and limits
    the rate second: a request that the key check rejects is answered 401
    and leaves the limiter untouched; a request that passes it and whose
    identifier has used up its quota is answered 429, with a [Retry-After]
    header that holds a whole number of seconds, the number quoted in the
    detail of the error; any other request is let through.  The webhook
    handler does not call [check_request]: it answers 200, 400 or 500 and
    nothing else. *)
Theorem gate_order_and_webhook_statuses
    (self : rate_limiter.SecurityMiddleware) (request : rate_limiter.Request)
    (now now' : Q) (w : World) (payload : gmap string jval) (m : machine) :
  (forall e, rate_limiter.api_key_validation self request = inl e ->
     rate_limiter.status_code e = 401
     /\ rate_limiter.check_request self request now now' = (inl e, self))
  /\ (forall md, rate_limiter.api_key_validation self request = inr md ->
      fst (rate_limiter.is_allowed (rate_limiter.rate_limiter self)
             (rate_limiter.get_identifier request) now) = false ->
      exists seconds : Z,
        fst (rate_limiter.check_request self request now now')
        = inl (rate_limiter.mkHTTPException 429
                 ("Rate limit exceeded. Try again in "
                  ++ Py.str_of_int seconds ++ " seconds")
                 [("Retry-After", Py.str_of_int seconds)]))
  /\ (forall md, rate_limiter.api_key_validation self request = inr md ->
      fst (rate_limiter.is_allowed (rate_limiter.rate_limiter self)
             (rate_limiter.get_identifier request) now) = true ->
      fst (rate_limiter.check_request self request now now')
      = inr (rate_limiter.mkCheckResult
               (rate_limiter.get_client_ip request)
               (rate_limiter.get_api_key request) md
               (rate_limiter.get_identifier request)))
  /\ (http_status (fst (receive_utterance w payload m)) = 200
      \/ http_status (fst (receive_utterance w payload m)) = 400
      \/ http_status (fst (receive_utterance w payload m)) = 500).
Proof.
  split; [|split; [|split]].
  - intros e He. split.
    + by apply (api_key_validation_status self request).
    + by apply check_request_rejected.
  - intros md Hmd Hdeny.
    rewrite (check_request_passed self request md) by exact Hmd.
    eexists. by apply rate_limiting_denied.
  - intros md Hmd Hok.
    rewrite (check_request_passed self request md) by exact Hmd.
    by apply rate_limiting_allowed.
  - apply receive_utterance_status.
Qed.

(** C4, as stated, fails: a client that the gate would answer 429 gets a
    200 from the webhook, which synthesizes for it. *)
Lemma webhook_is_not_gated :
  (exists e,
     fst (rate_limiter.check_request
            (rate_limiter.mkSecurityMiddleware Examples.limiter_used
               Examples.example_validator false)
            Examples.request_plain 101 102) = inl e
     /\ rate_limiter.status_code e = 429
     /\ rate_limiter.headers e = [("Retry-After", "58")])
  /\ http_status
       (fst (receive_utterance (Examples.example_world [])
               (Examples.hello "system") Examples.fresh)) = 200
  /\ invoked
       (trace (snd (receive_utterance (Examples.example_world [])
                      (Examples.hello "system") Examples.fresh))) = ["system"].
Proof.
  split.
  - eexists. vm_compute. repeat split; reflexivity.
  - vm_compute. split; reflexivity.
Qed.

(** ** Dispatch and fallback *)

(** C3.  When the engine chosen for a request is not the system engine and
    its synthesis raises, the handler calls the system engine once and
    nothing after it: the engines invoked for the request are the chosen
    one and then "system".  If the system engine returns a path the
    request succeeds with it; if it raises too, the request ends with the
    500 response carrying its message. *)
Theorem fallback_happens_once
    (w : World) (payload : gmap string jval) (m : machine)
    (ts : tsval) (text : string) (e : engine_t) (err : Py.exn) :
  decode_timestamp w (request_timestamp w payload) = Ok ts ->
  checked_text (request_utterance payload) = Ok (Some text) ->
  let o := request_options payload ts in
  let k := generate_cache_key text o in
  match cache m !! k with
  | Some p => path_exists w p = false
  | None => True
  end ->
  tts_engines_get (request_engine payload) = Some e ->
  e <> SystemTTSEngine ->
  generate_audio e w text o = Raised err ->
  let out := receive_utterance w payload m in
  invoked (trace (snd out)) = (invoked (trace m) ++ [name e; "system"])%list
  /\ match generate_audio SystemTTSEngine w text o with
     | Ok p =>
         fst out = success_response w (request_agent payload) "system" p false
         /\ cache (snd out) = <[k := p]> (cache m)
     | Raised err' =>
         fst out = failure_response payload err'
         /\ http_status (fst out) = 500
         /\ cache (snd out) = delete k (cache m)
     end.
Proof.
  intros Hts Htext o k Hmiss He Hne Herr out. subst out.
  rewrite (receive_utterance_miss w payload m ts text Hts Htext
             (no_live_entry w m k Hmiss)).
  fold o k.
  pose proof (tts_engines_get_known _ e He Hne) as Hname.
  pose proof (dispatch_fallback w (request_engine payload) text o k err) as Hd.
  rewrite He in Hd. simpl default in Hd.
  rewrite (Hd _ Herr Hname).
  destruct (generate_audio SystemTTSEngine w text o) as [p|err'];
    cbn [fst snd after trace cache name].
  - split; [|split; [reflexivity|]].
    + rewrite !invoked_app, invoked_miss_events, app_nil_r. reflexivity.
    + apply insert_delete_eq.
  - split; [|repeat split].
    rewrite !invoked_app, invoked_miss_events, app_nil_r. reflexivity.
Qed.

Lemma fallback_happens_once_witness :
  let out :=
    receive_utterance (Examples.example_world []) (Examples.hello "gtts")
      Examples.fresh in
  invoked (trace (snd out)) = ["gtts"; "system"]
  /\ http_status (fst out) = 200.
Proof.
  pose proof (fallback_happens_once (Examples.example_world [])
                (Examples.hello "gtts") Examples.fresh
                (Datetime "2024-05-01T10:00:00") "hello" GTTSEngine
                (Py.Exn "Exception" "gTTS engine not available")) as H.
  cbv zeta in H.
  destruct H as [Htrace Hsys].
  - vm_compute. reflexivity.
  - vm_compute. reflexivity.
  - vm_compute. exact I.
  - vm_compute. reflexivity.
  - discriminate.
  - vm_compute. reflexivity.
  - split.
    + exact Htrace.
    + vm_compute. reflexivity.
Defined.

(** C9 (amended).  A request that names an engine that is not in the
    registry is handed to the system engine, and succeeds when the system
    engine does: when the request reaches the dispatch block (its time
    stamp decodes, its text is not blank, the cache has no live entry for
    its key) and the system engine returns a path, the answer is the 200
    response with that path and ["system"] as [engine_used], the system
    engine is the only one invoked, and the path is cached under the key
    of the request. *)
Theorem unknown_engine_is_served_by_system
    (w : World) (payload : gmap string jval) (m : machine)
    (ts : tsval) (text : string) (p : string) :
  decode_timestamp w (request_timestamp w payload) = Ok ts ->
  checked_text (request_utterance payload) = Ok (Some text) ->
  let o := request_options payload ts in
  let k := generate_cache_key text o in
  match cache m !! k with
  | Some p' => path_exists w p' = false
  | None => True
  end ->
  tts_engines_get (request_engine payload) = None ->
  generate_audio SystemTTSEngine w text o = Ok p ->
  let out := receive_utterance w payload m in
  fst out = success_response w (request_agent payload) (name SystemTTSEngine) p false
  /\ http_status (fst out) = 200
  /\ invoked (trace (snd out)) = (invoked (trace m) ++ ["system"])%list
  /\ cache (snd out) !! k = Some p.
Proof.
  intros Hts Htext o k Hmiss Hnone Hsys out. subst out.
  rewrite (receive_utterance_miss w payload m ts text Hts Htext
             (no_live_entry w m k Hmiss)).
  fold o k.
  pose proof (dispatch_first w (request_engine payload) text o k p) as Hd.
  rewrite Hnone in Hd. simpl default in Hd.
  rewrite (Hd _ Hsys).
  cbn [fst snd after trace cache name].
  split; [reflexivity|]. split; [reflexivity|]. split.
  - rewrite !invoked_app, invoked_miss_events, app_nil_r. reflexivity.
  - apply lookup_insert_eq.
Qed.

Lemma unknown_engine_is_served_by_system_witness :
  let out :=
    receive_utterance (Examples.example_world []) (Examples.hello "nonexistent")
      Examples.fresh in
  fst out
  = success_response (Examples.example_world []) (JStr "bot1") "system"
      "audio_files/bot1_2024-05-01T10-00-00.wav" false
  /\ invoked (trace (snd out)) = ["system"].
Proof.
  pose proof (unknown_engine_is_served_by_system (Examples.example_world [])
                (Examples.hello "nonexistent") Examples.fresh
                (Datetime "2024-05-01T10:00:00") "hello"
                "audio_files/bot1_2024-05-01T10-00-00.wav") as H.
  cbv zeta in H.
  destruct H as (Hresp & _ & Htrace & _).
  - vm_compute. reflexivity.
  - vm_compute. reflexivity.
  - vm_compute. exact I.
  - vm_compute. reflexivity.
  - vm_compute. reflexivity.
  - split; [exact Hresp | exact Htrace].
Defined.

(** C9, as stated, fails: naming an engine outside the registry does not
    make a request succeed.  A request for the engine "nonexistent" whose
    time stamp is the JSON number 5 is handed to the system engine, which
    raises on [options['timestamp'].isoformat()], is called a second time
    because the name of the request is not "system", raises again, and
    the request is answered 500 with ["none"] as [engine_used]. *)
Lemma unknown_engine_request_can_fail :
  let payload := Examples.numeric_timestamp_unknown_engine in
  let out := receive_utterance (Examples.example_world []) payload Examples.fresh in
  request_engine payload = JStr "nonexistent"
  /\ tts_engines_get (request_engine payload) = None
  /\ fst out
     = failure_response payload
         (Py.Exn "AttributeError" "'int' object has no attribute 'isoformat'")
  /\ http_status (fst out) = 500
  /\ invoked (trace (snd out)) = ["system"; "system"]
  /\ cache (snd out) = ∅.
Proof. cbv zeta. repeat split; vm_compute; reflexivity. Qed.

(** ** The system engine *)




(** ** The cache *)

(** X25.  Lazy invalidation: a request that finds an entry whose file is
    gone evicts it and is then served exactly like a request that finds no
    entry: same response, same cache afterwards, same engines invoked. *)
Lemma stale_entry_is_a_miss
    (w : World) (payload : gmap string jval) (m : machine)
    (ts : tsval) (text : string) (p : string) :
  decode_timestamp w (request_timestamp w payload) = Ok ts ->
  checked_text (request_utterance payload) = Ok (Some text) ->
  let k := generate_cache_key text (request_options payload ts) in
  cache m !! k = Some p ->
  path_exists w p = false ->
  let stale := receive_utterance w payload m in
  let fresh :=
    receive_utterance w payload
      (mkMachine (request_count m) (delete k (cache m)) (trace m)) in
  fst stale = fst fresh
  /\ cache (snd stale) = cache (snd fresh)
  /\ invoked (trace (snd stale)) = invoked (trace (snd fresh))
  /\ In (CacheEvict k) (trace (snd stale)).
Proof.
  intros Hts Htext k Hk Hp stale fresh. subst stale fresh.
  rewrite (receive_utterance_miss w payload m ts text Hts Htext)
    by (fold k; intros p' Hp'; congruence).
  rewrite (receive_utterance_miss w payload _ ts text Hts Htext)
    by (fold k; cbn [cache]; intros p'; rewrite lookup_delete_eq; discriminate).
  fold k. unfold miss_events. cbn [cache]. rewrite Hk, lookup_delete_eq.
  rewrite delete_delete_eq.
  set (o := request_options payload ts).
  unfold dispatch, try_except, bind, ret.
  set (e := default SystemTTSEngine (tts_engines_get (request_engine payload))).
  unfold synthesize_and_store, bind, emit, lift, get_cache, set_cache, ret.
  clearbody k o e.
  cbn [cache trace request_count after count_request].
  assert (Hfin : forall (r : response) c (tr1 tr2 : list event),
            let stale := (r, mkMachine (request_count m + 1) c
                               ((trace m ++ [Fingerprint k; CacheLookup k;
                                             CacheEvict k]) ++ tr1 ++ tr2)) in
            let fresh := (r, mkMachine (request_count m + 1) c
                               ((trace m ++ [Fingerprint k; CacheLookup k])
                                ++ tr1 ++ tr2)) in
            fst stale = fst fresh
            /\ cache (snd stale) = cache (snd fresh)
            /\ invoked (trace (snd stale)) = invoked (trace (snd fresh))
            /\ In (CacheEvict k) (trace (snd stale))).
  { intros r c tr1 tr2. cbn [fst snd cache trace].
    split; [reflexivity|]. split; [reflexivity|]. split.
    - rewrite !invoked_app. reflexivity.
    - rewrite !in_app_iff. cbn [In]. auto 10. }
  destruct (generate_audio e w text o) as [p1|err1].
  - rewrite <- !app_assoc. rewrite !(app_assoc (trace m)).
    apply (Hfin _ _ [Invoke (name e)] [CacheStore k p1]).
  - destruct (bool_decide (request_engine payload = JStr "system"));
      cbn [negb]; cbv beta iota; unfold raise;
      cbn [cache trace request_count].
    + rewrite <- (app_nil_r [Invoke (name e)]).
      rewrite <- !app_assoc. rewrite !(app_assoc (trace m)).
      apply (Hfin _ _ [Invoke (name e)] []).
    + destruct (generate_audio SystemTTSEngine w text o) as [p2|err2].
      * rewrite <- !app_assoc. rewrite !(app_assoc (trace m)).
        apply (Hfin _ _ [Invoke (name e)]
                 [Invoke (name SystemTTSEngine); CacheStore k p2]).
      * rewrite <- !app_assoc. rewrite !(app_assoc (trace m)).
        apply (Hfin _ _ [Invoke (name e)] [Invoke (name SystemTTSEngine)]).
Qed.

(** C2.  The lookup finds the live entry and invokes no engine, but the
    request does not return the cached path: building the response reads
    [engine.name], and [engine] was never assigned.  The first request
    below is answered 200 and caches its file; the second, identical one,
    made while the file exists, is answered 500. *)
Theorem second_identical_request_fails :
  let path := "audio_files/bot1_2024-05-01T10-00-00.wav" in
  let key := "c9d8e1b9f6bf8d124d367b3fa104ce12" in
  let first :=
    receive_utterance (Examples.example_world []) (Examples.hello "system")
      Examples.fresh in
  let second :=
    receive_utterance (Examples.example_world [path]) (Examples.hello "system")
      (snd first) in
  fst first
  = success_response (Examples.example_world []) (JStr "bot1") "system" path false
  /\ cache (snd first) !! key = Some path
  /\ path_exists (Examples.example_world [path]) path = true
  /\ fst second
     = failure_response (Examples.hello "system")
         (Py.Exn "UnboundLocalError"
            "cannot access local variable 'engine' where it is not associated with a value")
  /\ http_status (fst second) = 500
  /\ trace (snd second)
     = (trace (snd first) ++ [Fingerprint key; CacheLookup key])%list
  /\ cache (snd second) = cache (snd first).
Proof. cbv zeta. repeat split; vm_compute; reflexivity. Qed.

(** * Further properties *)

(** ** The rate limiter over sequences of calls *)

Section LimiterRuns.

Import rate_limiter.
Local Open Scope list_scope.

Lemma window_is_allowed rl id now :
  window (snd (is_allowed rl id now)) id
  = (let kept := clean_old (now - inject_Z (window_seconds rl)) (window rl id) in
     if Z.of_nat (length kept) <? max_requests rl then kept ++ [now] else kept).
Proof.
  unfold is_allowed.
  destruct (_ <? _); simpl; by rewrite window_set_window.
Qed.

Lemma window_is_allowed_ne rl id id' now :
  id <> id' -> window (snd (is_allowed rl id now)) id' = window rl id'.
Proof. intros Hne. by apply (is_allowed_spec rl id now). Qed.

Lemma limits_is_allowed rl id now :
  max_requests (snd (is_allowed rl id now)) = max_requests rl
  /\ window_seconds (snd (is_allowed rl id now)) = window_seconds rl.
Proof. split; by apply (is_allowed_spec rl id now). Qed.

Lemma limits_calls cs rl :
  max_requests (Runs.calls rl cs) = max_requests rl
  /\ window_seconds (Runs.calls rl cs) = window_seconds rl.
Proof.
  revert rl. induction cs as [|[id now] cs IH]; intros rl; simpl; [done|].
  destruct (IH (snd (is_allowed rl id now))) as [-> ->].
  apply limits_is_allowed.
Qed.

(** One call keeps every window within the quota. *)
Lemma bounded_is_allowed rl id now :
  (forall i, Z.of_nat (length (window rl i)) <= Z.max 0 (max_requests rl)) ->
  forall i, Z.of_nat (length (window (snd (is_allowed rl id now)) i))
            <= Z.max 0 (max_requests (snd (is_allowed rl id now))).
Proof.
  intros Hinv i.
  rewrite (proj1 (limits_is_allowed rl id now)).
  destruct (decide (id = i)) as [<-|Hne].
  - rewrite window_is_allowed. cbv zeta.
    pose proof (clean_old_length (now - inject_Z (window_seconds rl)) (window rl id)).
    specialize (Hinv id).
    destruct (_ <? _) eqn:Hlt.
    + apply Z.ltb_lt in Hlt. rewrite length_app. simpl. lia.
    + lia.
  - rewrite window_is_allowed_ne by done. apply Hinv.
Qed.

End LimiterRuns.

(** X1.  The quota is an invariant: starting from a new limiter, whatever
    identifiers call [is_allowed] and whenever they do, no window ever
    holds more than [max_requests] time stamps (none at all when
    [max_requests] is not positive). *)
Theorem window_never_exceeds_quota
    (max_requests window_seconds : Z) (cs : list (string * Q)) (id : string) :
  Z.of_nat (length (rate_limiter.window
                      (Runs.calls (rate_limiter.RateLimiter_init max_requests
                                     window_seconds) cs) id))
  <= Z.max 0 max_requests.
Proof.
  assert (Hgen : forall cs rl,
            (forall i, Z.of_nat (length (rate_limiter.window rl i))
                       <= Z.max 0 (rate_limiter.max_requests rl)) ->
            forall i, Z.of_nat (length (rate_limiter.window (Runs.calls rl cs) i))
                      <= Z.max 0 (rate_limiter.max_requests rl)).
  { clear. induction cs as [|[id now] cs IH]; intros rl Hinv i; simpl; [apply Hinv|].
    rewrite <- (proj1 (limits_is_allowed rl id now)).
    apply IH. by apply bounded_is_allowed. }
  apply (Hgen cs (rate_limiter.RateLimiter_init max_requests window_seconds)).
  intros i. rewrite window_init. simpl. lia.
Qed.

Section LimiterOrder.

Import rate_limiter.
Local Open Scope list_scope.

Lemma sorted_clean_old ws dq :
  StronglySorted Qle dq -> StronglySorted Qle (clean_old ws dq).
Proof.
  induction 1 as [|t dq Hs IH Hall]; simpl; [constructor|].
  destruct (Qltb t ws); [exact IH | by constructor].
Qed.

Lemma forall_clean_old (P : Q -> Prop) ws dq :
  Forall P dq -> Forall P (clean_old ws dq).
Proof.
  induction 1 as [|t dq Ht Hall IH]; simpl; [constructor|].
  destruct (Qltb t ws); [exact IH | by constructor].
Qed.

Lemma sorted_snoc (l : list Q) (x : Q) :
  StronglySorted Qle l -> Forall (fun t => (t <= x)%Q) l ->
  StronglySorted Qle (l ++ [x]).
Proof.
  induction 1 as [|t l Hs IH Hall]; intros Hle; simpl.
  - repeat constructor.
  - inversion Hle as [|? ? Ht Hl]; subst.
    constructor; [by apply IH|].
    apply Forall_app. split; [exact Hall | by repeat constructor].
Qed.

Lemma ordered_is_allowed T rl id now :
  (T <= now)%Q -> Runs.ordered_until T rl ->
  Runs.ordered_until now (snd (is_allowed rl id now)).
Proof.
  intros HT Hinv i. destruct (Hinv i) as [Hs Hall].
  assert (Hall' : Forall (fun t => (t <= now)%Q) (window rl i)).
  { eapply Forall_impl; [exact Hall|]. intros t Ht. simpl in Ht. lra. }
  destruct (decide (id = i)) as [<-|Hne].
  - rewrite window_is_allowed. cbv zeta.
    set (kept := clean_old _ _).
    assert (Hks : StronglySorted Qle kept) by (by apply sorted_clean_old).
    assert (Hka : Forall (fun t => (t <= now)%Q) kept)
      by (by apply forall_clean_old).
    destruct (_ <? _).
    + split; [by apply sorted_snoc|].
      apply Forall_app. split; [exact Hka|].
      repeat constructor. apply Qle_refl.
    + by split.
  - rewrite window_is_allowed_ne by done. by split.
Qed.

Lemma ordered_calls cs T rl :
  StronglySorted Qle (T :: map snd cs) -> Runs.ordered_until T rl ->
  exists T', Runs.ordered_until T' (Runs.calls rl cs).
Proof.
  revert T rl. induction cs as [|[id now] cs IH]; intros T rl Hs Hinv; simpl.
  - by exists T.
  - inversion Hs as [|? ? Hs' Hall]; subst. simpl in *.
    inversion Hall as [|? ? HT _]; subst.
    apply (IH now); [exact Hs'|].
    by apply (ordered_is_allowed T).
Qed.

End LimiterOrder.

(** X2.  With a clock that never goes back, every window stays in clock
    order: after any sequence of calls made at non-decreasing times on a
    new limiter, each deque is sorted, so that the cleaning loop of the
    next call removes exactly the stamps that left the window. *)
Theorem windows_stay_in_clock_order
    (max_requests window_seconds : Z) (cs : list (string * Q))
    (id : string) (now : Q) :
  StronglySorted Qle (map snd cs) ->
  let rl := Runs.calls (rate_limiter.RateLimiter_init max_requests window_seconds) cs in
  let window_start := (now - inject_Z (rate_limiter.window_seconds rl))%Q in
  StronglySorted Qle (rate_limiter.window rl id)
  /\ rate_limiter.clean_old window_start (rate_limiter.window rl id)
     = List.filter (fun t => Qle_bool window_start t) (rate_limiter.window rl id).
Proof.
  intros Hs rl window_start.
  assert (Hsorted : StronglySorted Qle (rate_limiter.window rl id)).
  { destruct cs as [|[id0 t0] cs].
    - subst rl. simpl. rewrite window_init. constructor.
    - destruct (ordered_calls ((id0, t0) :: cs) t0
                  (rate_limiter.RateLimiter_init max_requests window_seconds))
        as [T' HT'].
      + simpl. constructor; [exact Hs|].
        inversion Hs as [|? ? _ Hall]; subst.
        constructor; [apply Qle_refl | exact Hall].
      + intros i. rewrite window_init. split; constructor.
      + apply HT'. }
  split; [exact Hsorted | by apply clean_old_sorted].
Qed.

Lemma windows_stay_in_clock_order_witness :
  StronglySorted Qle
    (rate_limiter.window
       (Runs.calls (rate_limiter.RateLimiter_init 2 10)
          [("a", 1%Q); ("b", 2%Q); ("a", 3%Q); ("a", 4%Q); ("a", 12%Q)]) "a").
Proof.
  refine (proj1 (windows_stay_in_clock_order 2 10
            [("a", 1%Q); ("b", 2%Q); ("a", 3%Q); ("a", 4%Q); ("a", 12%Q)]
            "a" 12 _)).
  simpl. repeat constructor; unfold Qle; simpl; lia.
Defined.

(** X3.  Identifiers do not interfere: calls of [is_allowed] leave the
    window of every identifier that is not among the callers, and the
    limits, exactly as they were. *)
Theorem calls_leave_other_windows
    (rl : rate_limiter.RateLimiter) (cs : list (string * Q)) (id : string) :
  ~ In id (map fst cs) ->
  rate_limiter.window (Runs.calls rl cs) id = rate_limiter.window rl id
  /\ rate_limiter.max_requests (Runs.calls rl cs) = rate_limiter.max_requests rl
  /\ rate_limiter.window_seconds (Runs.calls rl cs)
     = rate_limiter.window_seconds rl.
Proof.
  intros Hnot. split; [|apply limits_calls].
  revert rl. induction cs as [|[id0 now] cs IH]; intros rl; simpl; [done|].
  simpl in Hnot.
  rewrite IH by tauto.
  apply window_is_allowed_ne. tauto.
Qed.

Lemma calls_leave_other_windows_witness :
  rate_limiter.window
    (Runs.calls Examples.limiter_used [("10.0.0.2", 101%Q); ("10.0.0.3", 102%Q)])
    "10.0.0.1"
  = [100%Q].
Proof.
  refine (proj1 (calls_leave_other_windows Examples.limiter_used
                   [("10.0.0.2", 101%Q); ("10.0.0.3", 102%Q)] "10.0.0.1" _)).
  simpl. intros [H|[H|[]]]; discriminate.
Defined.

(** X5.  A limiter whose [max_requests] is not positive allows nothing:
    every request that passes the key check is answered 429, the very
    first one of an identifier with [Retry-After: 0]. *)
Theorem zero_quota_rejects_everything
    (self : rate_limiter.SecurityMiddleware) (request : rate_limiter.Request)
    (md : option (gmap string jval)) (now now' : Q) :
  rate_limiter.max_requests (rate_limiter.rate_limiter self) <= 0 ->
  rate_limiter.api_key_validation self request = inr md ->
  (exists e, fst (rate_limiter.check_request self request now now') = inl e
             /\ rate_limiter.status_code e = 429)
  /\ (rate_limiter.window (rate_limiter.rate_limiter self)
        (rate_limiter.get_identifier request) = [] ->
      fst (rate_limiter.check_request self request now now')
      = inl (rate_limiter.mkHTTPException 429
               "Rate limit exceeded. Try again in 0 seconds"
               [("Retry-After", "0")])).
Proof.
  intros Hzero Hmd.
  assert (Hdeny : fst (rate_limiter.is_allowed (rate_limiter.rate_limiter self)
                         (rate_limiter.get_identifier request) now) = false).
  { apply not_true_is_false. intros Hok.
    apply (proj1 (is_allowed_spec _ _ _)) in Hok. lia. }
  rewrite (check_request_passed self request md) by exact Hmd.
  rewrite (rate_limiting_denied self request md now now' Hdeny).
  split; [by eexists|].
  intros Hempty.
  rewrite (get_reset_time_empty _ _ now'); [reflexivity|].
  rewrite window_is_allowed. cbv zeta. rewrite Hempty.
  cbn [rate_limiter.clean_old length app].
  change (Z.of_nat 0) with 0.
  by rewrite (proj2 (Z.ltb_ge 0 _) Hzero).
Qed.

Lemma zero_quota_rejects_everything_witness :
  fst (rate_limiter.check_request
         (rate_limiter.mkSecurityMiddleware (rate_limiter.RateLimiter_init 0 60)
            Examples.example_validator false)
         Examples.request_plain 5 5)
  = inl (rate_limiter.mkHTTPException 429
           "Rate limit exceeded. Try again in 0 seconds" [("Retry-After", "0")]).
Proof.
  apply (zero_quota_rejects_everything
           (rate_limiter.mkSecurityMiddleware (rate_limiter.RateLimiter_init 0 60)
              Examples.example_validator false)
           Examples.request_plain None 5 5).
  - vm_compute. discriminate.
  - vm_compute. reflexivity.
  - vm_compute. reflexivity.
Defined.

(** ** API keys *)

Section Keys.

Import rate_limiter.

Lemma metadata_truthy_spec (md : option (gmap string jval)) :
  metadata_truthy md = true <-> exists m, md = Some m /\ m <> ∅.
Proof.
  unfold metadata_truthy. destruct md as [m|].
  - rewrite negb_true_iff, bool_decide_eq_false. split.
    + intros Hne. by exists m.
    + by intros (m' & [= <-] & Hne).
  - split; [discriminate|]. by intros (m & [=] & _).
Qed.

Lemma validate_key_add_key av k k' md :
  validate_key (add_key av k md) k'
  = if decide (k = k') then Some md else validate_key av k'.
Proof. unfold validate_key, add_key; simpl. apply lookup_insert. Qed.

Lemma validate_key_remove_key av k k' :
  validate_key (remove_key av k) k'
  = if decide (k = k') then None else validate_key av k'.
Proof. unfold validate_key, remove_key; simpl. apply lookup_delete. Qed.

End Keys.

(** X7.  A supplied key is accepted exactly when the validator holds
    non-empty metadata for it.  A key that was never added, that was
    removed, or that was added with an empty dict is answered 401 "Invalid
    API key" without the limiter being touched; adding a key with
    non-empty metadata makes it pass, and adding or removing one key does
    not change the verdict on another. *)
Theorem key_is_valid_iff_nonempty_metadata
    (av : rate_limiter.APIKeyValidator) (rl : rate_limiter.RateLimiter)
    (require : bool) (request : rate_limiter.Request) (k k' : string)
    (md : gmap string jval) (now now' : Q) :
  rate_limiter.get_api_key request = Some k ->
  Py.nonempty k = true ->
  let gate v := rate_limiter.mkSecurityMiddleware rl v require in
  let invalid v :=
    rate_limiter.check_request (gate v) request now now'
    = (inl (rate_limiter.mkHTTPException 401 "Invalid API key" []), gate v) in
  (invalid av <-> rate_limiter.validate_key av k = None
                  \/ rate_limiter.validate_key av k = Some ∅)
  /\ invalid (rate_limiter.remove_key av k)
  /\ invalid (rate_limiter.add_key av k ∅)
  /\ (md <> ∅ ->
      rate_limiter.api_key_validation (gate (rate_limiter.add_key av k md)) request
      = inr (Some md))
  /\ (k' <> k ->
      rate_limiter.validate_key (rate_limiter.add_key av k' md) k
      = rate_limiter.validate_key av k
      /\ rate_limiter.validate_key (rate_limiter.remove_key av k') k
         = rate_limiter.validate_key av k).
Proof.
  intros Hk Hne gate invalid.
  assert (Hval : forall v,
            rate_limiter.api_key_validation (gate v) request
            = if rate_limiter.metadata_truthy (rate_limiter.validate_key v k)
              then inr (rate_limiter.validate_key v k)
              else inl (rate_limiter.mkHTTPException 401 "Invalid API key" [])).
  { intros v. unfold rate_limiter.api_key_validation. rewrite Hk, Hne. simpl.
    by destruct (rate_limiter.metadata_truthy _). }
  assert (Hinv : forall v,
            invalid v
            <-> rate_limiter.metadata_truthy (rate_limiter.validate_key v k) = false).
  { intros v. unfold invalid, rate_limiter.check_request. rewrite Hval.
    destruct (rate_limiter.metadata_truthy _) eqn:Ht; [|done].
    split; [|discriminate].
    unfold rate_limiter.rate_limiting.
    destruct (rate_limiter.is_allowed _ _ _) as [[] r1]; simpl.
    - discriminate.
    - destruct (rate_limiter.get_reset_time _ _ _). intros H. inversion H. }
  assert (Hfalse : forall o : option (gmap string jval),
            rate_limiter.metadata_truthy o = false <-> o = None \/ o = Some ∅).
  { intros o. rewrite <- not_true_iff_false, metadata_truthy_spec.
    destruct o as [m|].
    - destruct (decide (m = ∅)) as [->|Hm].
      + split; [auto|]. intros _ (m' & [= <-] & Hm'). done.
      + split.
        * intros Hn. exfalso. apply Hn. by exists m.
        * intros [[=]|[= ->]]. done.
    - split; [auto|]. intros _ (m' & [=] & _). }
  split; [|split; [|split; [|split]]].
  - rewrite Hinv. apply Hfalse.
  - apply Hinv, Hfalse. left.
    rewrite validate_key_remove_key. by rewrite decide_True.
  - apply Hinv, Hfalse. right.
    rewrite validate_key_add_key. by rewrite decide_True.
  - intros Hmd. rewrite Hval, validate_key_add_key, decide_True by done.
    assert (rate_limiter.metadata_truthy (Some md) = true) as ->
        by (apply metadata_truthy_spec; by exists md).
    done.
  - intros Hkk.
    rewrite validate_key_add_key, validate_key_remove_key.
    by rewrite !decide_False.
Qed.

Lemma key_is_valid_iff_nonempty_metadata_witness :
  rate_limiter.check_request
    (rate_limiter.mkSecurityMiddleware Examples.limiter_new
       (rate_limiter.add_key Examples.example_validator "tts_key1" ∅) false)
    Examples.request_header 1 1
  = (inl (rate_limiter.mkHTTPException 401 "Invalid API key" []),
     rate_limiter.mkSecurityMiddleware Examples.limiter_new
       (rate_limiter.add_key Examples.example_validator "tts_key1" ∅) false).
Proof.
  exact (proj1 (proj2 (proj2
    (key_is_valid_iff_nonempty_metadata Examples.example_validator
       Examples.limiter_new false Examples.request_header "tts_key1" "other"
       ∅ 1 1 eq_refl eq_refl)))).
Defined.

(** X8.  Where the key is read: a non-empty [X-API-Key] header wins over
    the [api_key] query parameter, an absent or empty header falls back to
    it, and a request is answered 401 "API key required" exactly when the
    middleware requires a key and both are absent or empty.  Without a
    usable key the identifier is the client address (["unknown"] when the
    request has no client). *)
Theorem where_the_key_comes_from
    (self : rate_limiter.SecurityMiddleware) (client header query : option string)
    (now now' : Q) :
  let request := rate_limiter.mkRequest client header query in
  let usable (o : option string) :=
    match o with Some s => Py.nonempty s | None => false end in
  (usable header = true -> rate_limiter.get_api_key request = header)
  /\ (usable header = false -> rate_limiter.get_api_key request = query)
  /\ (usable header = false -> usable query = false ->
      rate_limiter.get_identifier request = default "unknown" client)
  /\ (rate_limiter.check_request self request now now'
      = (inl (rate_limiter.mkHTTPException 401 "API key required" []), self)
      <-> rate_limiter.require_api_key self = true
          /\ usable header = false /\ usable query = false).
Proof.
  intros request usable.
  assert (H1 : usable header = true -> rate_limiter.get_api_key request = header).
  { unfold rate_limiter.get_api_key; simpl.
    destruct header as [h|]; simpl; [|discriminate]. by intros ->. }
  assert (H2 : usable header = false -> rate_limiter.get_api_key request = query).
  { unfold rate_limiter.get_api_key; simpl.
    destruct header as [h|]; simpl; [|done]. by intros ->. }
  split; [exact H1|]. split; [exact H2|]. split.
  - intros Hh Hq. unfold rate_limiter.get_identifier. rewrite (H2 Hh).
    destruct query as [q|]; simpl in *; [by rewrite Hq | done].
  - unfold rate_limiter.check_request, rate_limiter.api_key_validation.
    destruct (usable header) eqn:Hh.
    + rewrite (H1 eq_refl).
      destruct header as [h|]; simpl in Hh; [|discriminate]. rewrite Hh.
      split; [|by intros (_ & [=] & _)].
      destruct (negb _); [discriminate|].
      unfold rate_limiter.rate_limiting.
      destruct (rate_limiter.is_allowed _ _ _) as [[] r1]; simpl; [discriminate|].
      destruct (rate_limiter.get_reset_time _ _ _). intros H. inversion H.
    + rewrite (H2 eq_refl).
      assert (Hnolimit : forall md,
                rate_limiter.rate_limiting self request md now now'
                <> (inl (rate_limiter.mkHTTPException 401 "API key required" []),
                    self)).
      { intros md. unfold rate_limiter.rate_limiting.
        destruct (rate_limiter.is_allowed _ _ _) as [[] r1]; simpl; [discriminate|].
        destruct (rate_limiter.get_reset_time _ _ _). intros H. inversion H. }
      destruct query as [q|]; simpl.
      * destruct (Py.nonempty q) eqn:Hq.
        -- split; [|by intros (_ & _ & [=])].
           destruct (negb _); [discriminate|]. intros H. by apply Hnolimit in H.
        -- destruct (rate_limiter.require_api_key self); [done|].
           split; [|by intros ([=] & _)]. intros H. by apply Hnolimit in H.
      * destruct (rate_limiter.require_api_key self); [done|].
        split; [|by intros ([=] & _)]. intros H. by apply Hnolimit in H.
Qed.

(** ** [strip] and [sanitize_text] *)

Section Sanitize.

Lemma string_app_cons c (s t : string) : String c s ++ t = String c (s ++ t).
Proof. reflexivity. Qed.

Lemma string_app_nil_r (s : string) : s ++ EmptyString = s.
Proof.
  induction s as [|c s IH]; [reflexivity|]. by rewrite string_app_cons, IH.
Qed.

Lemma string_app_assoc (s1 s2 s3 : string) : (s1 ++ s2) ++ s3 = s1 ++ s2 ++ s3.
Proof.
  induction s1 as [|c s1 IH]; [reflexivity|].
  by rewrite !string_app_cons, IH.
Qed.

Lemma rev_app_spec s acc : String.rev_app s acc = String.rev s ++ acc.
Proof.
  unfold String.rev. revert acc.
  induction s as [|c s IH]; intros acc; simpl; [reflexivity|].
  rewrite (IH (String c acc)), (IH (String c EmptyString)), string_app_assoc.
  reflexivity.
Qed.

Lemma rev_cons c s : String.rev (String c s) = String.rev s ++ String c EmptyString.
Proof. unfold String.rev at 1. simpl. apply rev_app_spec. Qed.

Lemma rev_snoc s c : String.rev (s ++ String c EmptyString) = String c (String.rev s).
Proof.
  induction s as [|d s IH]; [reflexivity|].
  change (String d s ++ String c EmptyString)
    with (String d (s ++ String c EmptyString)).
  rewrite !rev_cons, IH. reflexivity.
Qed.

Lemma rev_rev s : String.rev (String.rev s) = s.
Proof.
  induction s as [|c s IH]; [reflexivity|].
  by rewrite rev_cons, rev_snoc, IH.
Qed.

Lemma lstrip_app (x y : string) :
  Py.lstrip (x ++ y) = if Py.blank x then Py.lstrip y else Py.lstrip x ++ y.
Proof.
  induction x as [|c x IH]; [reflexivity|].
  rewrite string_app_cons. simpl.
  destruct (Py.isspace c); simpl; [exact IH | reflexivity].
Qed.

Lemma lstrip_lstrip s : Py.lstrip (Py.lstrip s) = Py.lstrip s.
Proof.
  induction s as [|c s IH]; simpl; [reflexivity|].
  destruct (Py.isspace c) eqn:Hc; [exact IH|]. simpl. by rewrite Hc.
Qed.

Lemma rstrip_rstrip s : Py.rstrip (Py.rstrip s) = Py.rstrip s.
Proof. unfold Py.rstrip. by rewrite rev_rev, lstrip_lstrip. Qed.

(** A character that is not white space stays at the front. *)
Lemma rstrip_cons c s :
  Py.isspace c = false -> Py.rstrip (String c s) = String c (Py.rstrip s).
Proof.
  intros Hc. unfold Py.rstrip. rewrite rev_cons, lstrip_app.
  destruct (Py.blank (String.rev s)) eqn:Hb.
  - simpl. rewrite Hc. by rewrite (lstrip_blank _ Hb).
  - by rewrite rev_snoc.
Qed.

Lemma lstrip_head s :
  Py.lstrip s = EmptyString
  \/ exists c r, Py.lstrip s = String c r /\ Py.isspace c = false.
Proof.
  induction s as [|c s IH]; simpl; [by left|].
  destruct (Py.isspace c) eqn:Hc; [exact IH|]. right. by exists c, s.
Qed.

Lemma lstrip_strip s : Py.lstrip (Py.strip s) = Py.strip s.
Proof.
  unfold Py.strip. destruct (lstrip_head s) as [->|(c & r & -> & Hc)].
  - reflexivity.
  - rewrite (rstrip_cons c r Hc). simpl. by rewrite Hc.
Qed.

Lemma rstrip_strip s : Py.rstrip (Py.strip s) = Py.strip s.
Proof. unfold Py.strip. apply rstrip_rstrip. Qed.

Lemma strip_strip s : Py.strip (Py.strip s) = Py.strip s.
Proof.
  unfold Py.strip at 1. by rewrite lstrip_strip, rstrip_strip.
Qed.

Lemma blank_strip s : Py.blank (Py.strip s) = Py.blank s.
Proof.
  unfold Py.strip, Py.rstrip.
  by rewrite blank_rev, blank_lstrip, blank_rev, blank_lstrip.
Qed.

End Sanitize.

(** X9.  What [sanitize_text] returns: a blank text raises "Text cannot be
    empty" whatever [max_length] is; a returned text is the input without
    its leading and trailing white space, is not blank, is at most
    [max_length] characters long, and is returned unchanged when sanitized
    again. *)
Theorem sanitize_text_result (text : string) (max_length : Z) :
  (Py.blank text = true ->
   rate_limiter.sanitize_text text max_length
   = inl (Py.Exn "ValueError" "Text cannot be empty"))
  /\ forall clean,
       rate_limiter.sanitize_text text max_length = inr clean ->
       clean = Py.strip text
       /\ Py.blank clean = false
       /\ Py.lstrip clean = clean /\ Py.rstrip clean = clean
       /\ Py.len clean <= max_length
       /\ rate_limiter.sanitize_text clean max_length = inr clean.
Proof.
  split.
  - intros Hb. unfold rate_limiter.sanitize_text.
    rewrite strip_nonempty, Hb. simpl. by rewrite orb_true_r.
  - intros clean Hs.
    destruct (Py.blank text) eqn:Hb.
    + unfold rate_limiter.sanitize_text in Hs.
      rewrite strip_nonempty, Hb in Hs. simpl in Hs.
      rewrite orb_true_r in Hs. discriminate.
    + rewrite (sanitize_text_not_blank text max_length Hb) in Hs.
      destruct (Py.len (Py.strip text) >? max_length) eqn:Hgt; [discriminate|].
      injection Hs as <-.
      assert (Hbs : Py.blank (Py.strip text) = false)
        by (by rewrite blank_strip).
      split; [reflexivity|]. split; [exact Hbs|].
      split; [apply lstrip_strip|]. split; [apply rstrip_strip|].
      split.
      * destruct (Z.gtb_spec (Py.len (Py.strip text)) max_length);
          [discriminate | lia].
      * rewrite (sanitize_text_not_blank _ max_length Hbs), strip_strip.
        by rewrite Hgt.
Qed.

(** ** Usage tracking *)

Section Usage.

Import UsageTracker.
Local Open Scope list_scope.

Lemma entry_record_request self i n ok now id :
  entry (record_request self i n ok now) id
  = if decide (i = id) then updated (entry self id) n ok now else entry self id.
Proof.
  unfold entry at 1, record_request.
  destruct (decide (i = id)) as [<-|Hne].
  - by rewrite lookup_insert_eq.
  - by rewrite lookup_insert_ne.
Qed.

(** The entry of an identifier only sees its own observations. *)
Lemma entry_record_all id obs self :
  entry (record_all self obs) id
  = fold_left observe
      (List.filter (fun o => String.eqb (obs_identifier o) id) obs)
      (entry self id).
Proof.
  revert self. induction obs as [|o obs IH]; intros self; [reflexivity|].
  unfold record_all in *. cbn [fold_left List.filter].
  rewrite IH, entry_record_request.
  destruct (String.eqb_spec (obs_identifier o) id) as [Heq|Hne].
  - by rewrite decide_True.
  - by rewrite decide_False.
Qed.

Lemma last_cons_default {A} (l : list A) (x d : A) :
  List.last (x :: l) d = List.last l x.
Proof.
  revert x d. induction l as [|y l IH]; intros x d; [reflexivity|].
  change (List.last (x :: y :: l) d) with (List.last (y :: l) d).
  by rewrite !IH.
Qed.

Lemma observe_all l st :
  let st' := fold_left observe l st in
  requests st' = requests st + Z.of_nat (length l)
  /\ characters st' = characters st + fold_right Z.add 0 (map obs_characters l)
  /\ audio_files st'
     = audio_files st + Z.of_nat (length (List.filter obs_success l))
  /\ errors st'
     = errors st
       + Z.of_nat (length (List.filter (fun o => negb (obs_success o)) l))
  /\ last_request st'
     = List.last (map (fun o => Some (obs_time o)) l) (last_request st).
Proof.
  revert st. induction l as [|o l IH]; intros st.
  - simpl. repeat split; lia.
  - cbn zeta. cbn [fold_left]. destruct (IH (observe st o)) as (H1 & H2 & H3 & H4 & H5).
    rewrite H1, H2, H3, H4, H5. clear.
    unfold observe, updated.
    cbn [map List.filter fold_right length].
    destruct (obs_success o);
      cbn [negb length requests characters audio_files errors last_request];
      (split; [lia|]; split; [lia|]; split; [lia|]; split; [lia|]);
      by rewrite last_cons_default.
Qed.

End Usage.

(** X10.  The tracker counts what it was told: after any sequence of
    [record_request] calls on a new tracker, the entry of an identifier
    holds the number of its requests, the sum of their character counts,
    the numbers of its successes and of its failures, and the time of its
    last request; in particular [requests = audio_files + errors]. *)
Theorem usage_counts_are_exact
    (obs : list UsageTracker.observation) (id : string) :
  let mine :=
    List.filter (fun o => String.eqb (UsageTracker.obs_identifier o) id) obs in
  let st := UsageTracker.entry (UsageTracker.record_all UsageTracker.init obs) id in
  UsageTracker.requests st = Z.of_nat (length mine)
  /\ UsageTracker.characters st
     = fold_right Z.add 0 (map UsageTracker.obs_characters mine)
  /\ UsageTracker.audio_files st
     = Z.of_nat (length (List.filter UsageTracker.obs_success mine))
  /\ UsageTracker.errors st
     = Z.of_nat (length (List.filter
                           (fun o => negb (UsageTracker.obs_success o)) mine))
  /\ UsageTracker.last_request st
     = List.last (map (fun o => Some (UsageTracker.obs_time o)) mine) None
  /\ UsageTracker.requests st
     = UsageTracker.audio_files st + UsageTracker.errors st.
Proof.
  intros mine st. subst st. rewrite entry_record_all. fold mine.
  assert (Hz : UsageTracker.entry UsageTracker.init id = UsageTracker.fresh_stats)
    by (unfold UsageTracker.entry, UsageTracker.init; by rewrite lookup_empty).
  rewrite Hz.
  destruct (observe_all mine UsageTracker.fresh_stats) as (H1 & H2 & H3 & H4 & H5).
  cbn zeta in *. simpl in H1, H2, H3, H4, H5.
  repeat split; try assumption.
  rewrite H1, H3, H4.
  clear. induction mine as [|o l IH]; simpl; [reflexivity|].
  destruct (UsageTracker.obs_success o); simpl; lia.
Qed.

(** X11.  Reading creates: [get_stats] of an identifier that was never
    recorded returns the zero entry and leaves that identifier in
    [get_all_stats]; of a recorded identifier it returns the entry and
    changes nothing.  Either way no counter of any identifier changes. *)
Theorem get_stats_registers_the_identifier
    (self : gmap string UsageTracker.stats) (id : string) :
  let out := UsageTracker.get_stats self id in
  (self !! id = None ->
   fst out = UsageTracker.fresh_stats
   /\ UsageTracker.get_all_stats (snd out) !! id = Some UsageTracker.fresh_stats
   /\ size (UsageTracker.get_all_stats (snd out)) = S (size self))
  /\ (forall st, self !! id = Some st -> out = (st, self))
  /\ (forall i, UsageTracker.entry (snd out) i = UsageTracker.entry self i).
Proof.
  intros out. subst out. unfold UsageTracker.get_stats, UsageTracker.get_all_stats.
  simpl. split; [|split].
  - intros Hnone. unfold UsageTracker.entry. rewrite Hnone. simpl.
    split; [reflexivity|]. split; [apply lookup_insert_eq|].
    by apply map_size_insert_None.
  - intros st Hst. unfold UsageTracker.entry. rewrite Hst. simpl.
    by rewrite insert_id.
  - intros i. unfold UsageTracker.entry at 1.
    destruct (decide (id = i)) as [<-|Hne].
    + by rewrite lookup_insert_eq.
    + by rewrite lookup_insert_ne.
Qed.

(** ** Every request, whatever its outcome *)

Section Shape.

Local Open Scope list_scope.

Variable w : World.
Variable payload : gmap string jval.
Variable m : machine.

Lemma after_nil m0 : after m0 (cache m0) [] = m0.
Proof. destruct m0. unfold after; simpl. by rewrite app_nil_r. Qed.

Lemma receive_utterance_ending :
  Runs.ending w payload m (fst (receive_utterance w payload m))
    (snd (receive_utterance w payload m)).
Proof.
  destruct (decode_timestamp w (request_timestamp w payload)) as [ts|err] eqn:Hts.
  2:{ rewrite (receive_utterance_bad_timestamp w payload m err Hts).
      apply Runs.end_early. right. by exists err. }
  destruct (checked_text (request_utterance payload)) as [[text|]|err] eqn:Htext.
  3:{ rewrite (receive_utterance_not_text w payload m ts err Hts Htext).
      apply Runs.end_early. right. by exists err. }
  2:{ rewrite (receive_utterance_empty w payload m ts Hts Htext).
      apply Runs.end_early. by left. }
  set (o := request_options payload ts).
  set (k := generate_cache_key text o).
  destruct (cache m !! k) as [p|] eqn:Hk.
  - destruct (path_exists w p) eqn:Hp.
    + rewrite (receive_utterance_hit w payload m ts text Hts Htext p Hk Hp).
      by apply (Runs.end_hit w payload m ts text p).
    + rewrite (receive_utterance_miss w payload m ts text Hts Htext)
        by (fold o k; intros p' Hp'; congruence).
      fold o k.
      set (e := default SystemTTSEngine (tts_engines_get (request_engine payload))).
      destruct (generate_audio e w text o) as [p1|err1] eqn:H1.
      * rewrite (dispatch_first w (request_engine payload) text o k p1 _ H1).
        fold e. cbn [fst snd]. rewrite after_after.
        cbn [cache after]. rewrite insert_delete_eq.
        by apply (Runs.end_served w payload m ts text e p1 [name e]).
      * destruct (decide (request_engine payload = JStr "system")) as [Hsys|Hsys].
        -- assert (He : e = SystemTTSEngine) by (subst e; by rewrite Hsys).
           rewrite He in H1. rewrite Hsys.
           rewrite (dispatch_reraise w text o k err1 _ H1).
           cbn [fst snd]. rewrite after_after. cbn [cache after].
           by apply (Runs.end_failed w payload m ts text err1 ["system"]).
        -- rewrite (dispatch_fallback w (request_engine payload) text o k err1 _
                      H1 Hsys). fold e.
           destruct (generate_audio SystemTTSEngine w text o) as [p2|err2] eqn:H2.
           ++ cbn [fst snd]. rewrite after_after.
              cbn [cache after]. rewrite insert_delete_eq.
              by apply (Runs.end_served w payload m ts text SystemTTSEngine p2 [name e; "system"]).
           ++ cbn [fst snd]. rewrite after_after. cbn [cache after].
              by apply (Runs.end_failed w payload m ts text err2 [name e; "system"]).
  - rewrite (receive_utterance_miss w payload m ts text Hts Htext)
      by (fold o k; intros p' Hp'; congruence).
    fold o k.
    set (e := default SystemTTSEngine (tts_engines_get (request_engine payload))).
    destruct (generate_audio e w text o) as [p1|err1] eqn:H1.
    + rewrite (dispatch_first w (request_engine payload) text o k p1 _ H1).
      fold e. cbn [fst snd]. rewrite after_after.
      cbn [cache after]. rewrite insert_delete_eq.
      by apply (Runs.end_served w payload m ts text e p1 [name e]).
    + destruct (decide (request_engine payload = JStr "system")) as [Hsys|Hsys].
      * assert (He : e = SystemTTSEngine) by (subst e; by rewrite Hsys).
        rewrite He in H1. rewrite Hsys.
        rewrite (dispatch_reraise w text o k err1 _ H1).
        cbn [fst snd]. rewrite after_after. cbn [cache after].
        by apply (Runs.end_failed w payload m ts text err1 ["system"]).
      * rewrite (dispatch_fallback w (request_engine payload) text o k err1 _
                   H1 Hsys). fold e.
        destruct (generate_audio SystemTTSEngine w text o) as [p2|err2] eqn:H2.
        -- cbn [fst snd]. rewrite after_after.
           cbn [cache after]. rewrite insert_delete_eq.
           by apply (Runs.end_served w payload m ts text SystemTTSEngine p2 [name e; "system"]).
        -- cbn [fst snd]. rewrite after_after. cbn [cache after].
           by apply (Runs.end_failed w payload m ts text err2 [name e; "system"]).
Qed.

End Shape.

Lemma invoked_map_invoke names : invoked (map Invoke names) = names.
Proof. induction names as [|n names IH]; simpl; [|rewrite IH]; reflexivity. Qed.

Lemma ending_step w payload m r m' :
  Runs.ending w payload m r m' ->
  request_count m' = request_count m + 1
  /\ (size (cache m') <= S (size (cache m)))%nat
  /\ exists evs, trace m' = (trace m ++ evs)%list.
Proof.
  intros H. destruct H; cbn [after count_request request_count cache trace].
  - split; [reflexivity|]. split; [lia|]. exists []. by rewrite app_nil_r.
  - split; [reflexivity|]. split; [lia|]. by eexists.
  - split; [reflexivity|]. split; [|by eexists].
    pose proof (map_size_delete k (cache m)) as Hsz.
    destruct (cache m !! k); simpl in Hsz; unfold id in Hsz; lia.
  - split; [reflexivity|]. split; [|by eexists].
    pose proof (map_size_insert k p (cache m)) as Hsz.
    destruct (cache m !! k); simpl in Hsz; unfold id in Hsz; lia.
Qed.

(** X12.  Every request is counted once, whatever its outcome, and adds at
    most one entry to the cache: after any sequence of webhook requests
    [health_check] reports the initial count plus the number of requests,
    and a cache size that grew by at most that number. *)
Theorem every_request_is_counted_once
    (w0 : World) (m : machine) (rs : list (World * gmap string jval)) :
  let m' := Runs.requests m rs in
  request_count m' = request_count m + Z.of_nat (length rs)
  /\ (size (cache m') <= size (cache m) + length rs)%nat
  /\ endpoints.h_total_requests (endpoints.health_check w0 m')
     = endpoints.h_total_requests (endpoints.health_check w0 m)
       + Z.of_nat (length rs)
  /\ endpoints.h_cache_size (endpoints.health_check w0 m')
     <= endpoints.h_cache_size (endpoints.health_check w0 m)
        + Z.of_nat (length rs).
Proof.
  cbv zeta.
  assert (Hgen : forall rs m,
            request_count (Runs.requests m rs)
            = request_count m + Z.of_nat (length rs)
            /\ (size (cache (Runs.requests m rs))
                <= size (cache m) + length rs)%nat).
  { clear. induction rs as [|[w payload] rs IH]; intros m.
    - simpl. split; lia.
    - cbn [Runs.requests length].
      destruct (IH (snd (receive_utterance w payload m))) as [Hc Hs].
      destruct (ending_step w payload m _ _
                  (receive_utterance_ending w payload m)) as (Hc1 & Hs1 & _).
      split; lia. }
  destruct (Hgen rs m) as [Hc Hs].
  unfold endpoints.health_check; cbn [endpoints.h_total_requests
                                        endpoints.h_cache_size].
  repeat split; lia.
Qed.

(** X13.  A 200 is never served from the cache: a successful response
    always carries the path that an engine returned for this very request,
    with [cache_hit] false and that engine (the last one invoked) as
    [engine_used], and that path is then cached under the key of the
    request. *)
Theorem a_success_is_always_synthesized
    (w : World) (payload : gmap string jval) (m : machine) :
  let out := receive_utterance w payload m in
  http_status (fst out) = 200 ->
  exists ts text e p,
    decode_timestamp w (request_timestamp w payload) = Ok ts
    /\ checked_text (request_utterance payload) = Ok (Some text)
    /\ generate_audio e w text (request_options payload ts) = Ok p
    /\ fst out = success_response w (request_agent payload) (name e) p false
    /\ cache (snd out)
         !! generate_cache_key text (request_options payload ts) = Some p
    /\ List.last (invoked (trace (snd out))) EmptyString = name e.
Proof.
  intros out H200. subst out.
  pose proof (receive_utterance_ending w payload m) as Hend.
  destruct Hend as [r Hr|ts text p Hts Htext k Hk Hp
                    |ts text err names Hts Htext o k Hn Herr
                    |ts text e p names Hts Htext o k Hgen Hlast].
  - destruct Hr as [->|[err ->]]; discriminate.
  - discriminate.
  - discriminate.
  - exists ts, text, e, p. repeat split; try assumption.
    + cbn [after cache]. apply lookup_insert_eq.
    + cbn [after trace]. rewrite !invoked_app, invoked_miss_events.
      rewrite invoked_map_invoke. cbn [invoked flat_map app].
      rewrite app_nil_r.
      destruct names as [|n names]; [by destruct e|].
      rewrite <- Hlast. clear.
      induction (invoked (trace (count_request m))) as [|x l IH]; [reflexivity|].
      cbn [app]. rewrite <- IH. by destruct (l ++ n :: names)%list eqn:E;
        [destruct l; discriminate|].
Qed.

Lemma a_success_is_always_synthesized_witness :
  exists ts text e p,
    decode_timestamp (Examples.example_world [])
      (request_timestamp (Examples.example_world []) (Examples.hello "gtts"))
    = Ok ts
    /\ checked_text (request_utterance (Examples.hello "gtts")) = Ok (Some text)
    /\ generate_audio e (Examples.example_world []) text
         (request_options (Examples.hello "gtts") ts) = Ok p
    /\ fst (receive_utterance (Examples.example_world []) (Examples.hello "gtts")
              Examples.fresh)
       = success_response (Examples.example_world []) (JStr "bot1") (name e) p false
    /\ cache (snd (receive_utterance (Examples.example_world [])
                     (Examples.hello "gtts") Examples.fresh))
         !! generate_cache_key text (request_options (Examples.hello "gtts") ts)
       = Some p
    /\ List.last
         (invoked (trace (snd (receive_utterance (Examples.example_world [])
                                 (Examples.hello "gtts") Examples.fresh))))
         EmptyString = name e.
Proof.
  apply (a_success_is_always_synthesized (Examples.example_world [])
           (Examples.hello "gtts") Examples.fresh).
  vm_compute. reflexivity.
Defined.

(** X14.  After [clear_cache] a request is synthesized again even when the
    file cached for it is still there: a request that passes the checks
    of the handler always has its engine invoked. *)
Theorem clear_cache_forces_synthesis
    (w : World) (payload : gmap string jval) (m : machine)
    (ts : tsval) (text : string) :
  decode_timestamp w (request_timestamp w payload) = Ok ts ->
  checked_text (request_utterance payload) = Ok (Some text) ->
  let e := default SystemTTSEngine (tts_engines_get (request_engine payload)) in
  let out := receive_utterance w payload (clear_cache m) in
  cache (clear_cache m) = ∅
  /\ (exists more,
        invoked (trace (snd out)) = (invoked (trace m) ++ name e :: more)%list)
  /\ forall p, generate_audio e w text (request_options payload ts) = Ok p ->
       fst out = success_response w (request_agent payload) (name e) p false.
Proof.
  intros Hts Htext e out. split; [reflexivity|]. subst out.
  rewrite (receive_utterance_miss w payload (clear_cache m) ts text Hts Htext)
    by (intros p; cbn [clear_cache cache]; rewrite lookup_empty; discriminate).
  set (o := request_options payload ts).
  set (k := generate_cache_key text o).
  assert (Hm : miss_events (clear_cache m) k = [Fingerprint k; CacheLookup k])
    by (unfold miss_events; cbn [clear_cache cache]; by rewrite lookup_empty).
  rewrite Hm.
  destruct (generate_audio e w text o) as [p1|err1] eqn:H1.
  - rewrite (dispatch_first w (request_engine payload) text o k p1 _ H1).
    fold e. cbn [fst snd after trace clear_cache count_request].
    split.
    + exists []. rewrite !invoked_app. cbn. by rewrite app_nil_r.
    + by intros p [= <-].
  - split; [|discriminate].
    destruct (decide (request_engine payload = JStr "system")) as [Hsys|Hsys].
    + assert (He : e = SystemTTSEngine) by (subst e; by rewrite Hsys).
      rewrite He in H1. rewrite Hsys, He.
      rewrite (dispatch_reraise w text o k err1 _ H1).
      cbn [fst snd after trace clear_cache count_request].
      exists []. rewrite !invoked_app. cbn. by rewrite app_nil_r.
    + rewrite (dispatch_fallback w (request_engine payload) text o k err1 _
                 H1 Hsys). fold e.
      exists ["system"].
      destruct (generate_audio SystemTTSEngine w text o);
        cbn [fst snd after trace clear_cache count_request];
        rewrite !invoked_app; cbn; by rewrite app_nil_r.
Qed.

Lemma clear_cache_forces_synthesis_witness :
  let path := "audio_files/bot1_2024-05-01T10-00-00.wav" in
  let first :=
    receive_utterance (Examples.example_world []) (Examples.hello "system")
      Examples.fresh in
  fst (receive_utterance (Examples.example_world [path]) (Examples.hello "system")
         (clear_cache (snd first)))
  = success_response (Examples.example_world [path]) (JStr "bot1") "system" path
      false.
Proof.
  cbv zeta.
  refine (proj2 (proj2
    (clear_cache_forces_synthesis
       (Examples.example_world ["audio_files/bot1_2024-05-01T10-00-00.wav"])
       (Examples.hello "system")
       (snd (receive_utterance (Examples.example_world [])
               (Examples.hello "system") Examples.fresh))
       (Datetime "2024-05-01T10:00:00") "hello" _ _)) _ _);
    vm_compute; reflexivity.
Defined.

(** X15.  Whether the system engine is tried again is decided by the name
    in the request, not by the engine that ran: when the system engine
    raises, a request that named ["system"] ends after one invocation,
    while a request that named an engine outside the registry has the
    system engine invoked twice.  Both end in the 500 that carries the
    message of the (last) exception, and neither leaves an entry under the
    key. *)
Theorem retry_is_decided_by_the_requested_name
    (w : World) (payload : gmap string jval) (m : machine)
    (ts : tsval) (text : string) (err : Py.exn) :
  decode_timestamp w (request_timestamp w payload) = Ok ts ->
  checked_text (request_utterance payload) = Ok (Some text) ->
  let o := request_options payload ts in
  let k := generate_cache_key text o in
  match cache m !! k with
  | Some p => path_exists w p = false
  | None => True
  end ->
  generate_audio SystemTTSEngine w text o = Raised err ->
  let out := receive_utterance w payload m in
  (request_engine payload = JStr "system" ->
   invoked (trace (snd out)) = (invoked (trace m) ++ ["system"])%list)
  /\ (tts_engines_get (request_engine payload) = None ->
      invoked (trace (snd out)) = (invoked (trace m) ++ ["system"; "system"])%list)
  /\ (request_engine payload = JStr "system"
      \/ tts_engines_get (request_engine payload) = None ->
      fst out = failure_response payload err
      /\ cache (snd out) !! k = None).
Proof.
  intros Hts Htext o k Hmiss Herr out. subst out.
  rewrite (receive_utterance_miss w payload m ts text Hts Htext
             (no_live_entry w m k Hmiss)).
  fold o k.
  assert (Hone : request_engine payload = JStr "system" ->
            dispatch w (request_engine payload) text o k
              (after (count_request m) (delete k (cache m)) (miss_events m k))
            = (Raised err,
               after (count_request m) (delete k (cache m))
                     (miss_events m k ++ [Invoke "system"])%list)).
  { intros ->. rewrite (dispatch_reraise w text o k err _ Herr).
    by rewrite after_after. }
  assert (Htwo : tts_engines_get (request_engine payload) = None ->
            dispatch w (request_engine payload) text o k
              (after (count_request m) (delete k (cache m)) (miss_events m k))
            = (Raised err,
               after (count_request m) (delete k (cache m))
                     (miss_events m k ++ [Invoke "system"; Invoke "system"])%list)).
  { intros Hnone.
    assert (Hne : request_engine payload <> JStr "system")
      by (intros Heq; rewrite Heq in Hnone; discriminate).
    pose proof (dispatch_fallback w (request_engine payload) text o k err) as Hd.
    rewrite Hnone in Hd. simpl default in Hd.
    rewrite (Hd _ Herr Hne), Herr. by rewrite after_after. }
  split; [|split].
  - intros Hsys. rewrite (Hone Hsys). cbn [fst snd after trace count_request].
    rewrite !invoked_app, invoked_miss_events. reflexivity.
  - intros Hnone. rewrite (Htwo Hnone). cbn [fst snd after trace count_request].
    rewrite !invoked_app, invoked_miss_events. reflexivity.
  - intros [Hsys|Hnone]; [rewrite (Hone Hsys) | rewrite (Htwo Hnone)];
      cbn [fst snd after cache]; (split; [reflexivity | apply lookup_delete_eq]).
Qed.

Lemma retry_is_decided_by_the_requested_name_witness :
  invoked (trace (snd (receive_utterance (Examples.example_world [])
                         Examples.numeric_timestamp_unknown_engine
                         Examples.fresh)))
  = ["system"; "system"].
Proof.
  refine (proj1 (proj2
    (retry_is_decided_by_the_requested_name (Examples.example_world [])
       Examples.numeric_timestamp_unknown_engine Examples.fresh
       (Undecoded (JInt 5)) "hi"
       (Py.Exn "AttributeError" "'int' object has no attribute 'isoformat'")
       _ _ _ _)) _); vm_compute; first [reflexivity | exact I].
Defined.

(** X16.  An utterance that is not a string.  The time stamp is decoded
    first: one that does not parse ends the request in its own 500.
    Otherwise a false value ([null], [false], [0], [0.0]) is answered like
    an empty text, with the 400, and a true value has no [strip] and ends
    the request in a 500.  In every case nothing is looked up, cached or
    synthesized. *)
Theorem utterance_that_is_not_a_string
    (w : World) (payload : gmap string jval) (m : machine) :
  (forall s, request_utterance payload <> JStr s) ->
  receive_utterance w payload m
  = (match decode_timestamp w (request_timestamp w payload) with
     | Raised err => failure_response payload err
     | Ok _ =>
         if truthy (request_utterance payload)
         then failure_response payload
                (Py.Exn "AttributeError"
                   ("'" ++ type_name (request_utterance payload)
                    ++ "' object has no attribute 'strip'"))
         else empty_response
     end,
     count_request m)
  /\ cache (count_request m) = cache m
  /\ trace (count_request m) = trace m.
Proof.
  intros Hnot. split; [|by split].
  destruct (decode_timestamp w (request_timestamp w payload)) as [ts|err] eqn:Hts;
    [|by apply receive_utterance_bad_timestamp].
  destruct (truthy (request_utterance payload)) eqn:Ht.
  - apply (receive_utterance_not_text w payload m ts); [exact Hts|].
    unfold checked_text. rewrite Ht. simpl.
    destruct (request_utterance payload) as [| | | |s]; try reflexivity.
    by destruct (Hnot s).
  - apply (receive_utterance_empty w payload m ts); [exact Hts|].
    unfold checked_text. by rewrite Ht.
Qed.

Lemma utterance_that_is_not_a_string_witness :
  receive_utterance (Examples.example_world []) Examples.numeric_utterance
    Examples.fresh
  = (failure_response Examples.numeric_utterance
       (Py.Exn "AttributeError" "'int' object has no attribute 'strip'"),
     count_request Examples.fresh)
  /\ receive_utterance (Examples.example_world [])
       (<["utterance" := JNull]> (<["timestamp" := JStr "garbage"]> ∅))
       Examples.fresh
     = (failure_response
          (<["utterance" := JNull]> (<["timestamp" := JStr "garbage"]> ∅))
          (Py.Exn "ValueError" "Invalid isoformat string: 'garbage'"),
        count_request Examples.fresh).
Proof.
  split.
  - refine (proj1 (utterance_that_is_not_a_string (Examples.example_world [])
                     Examples.numeric_utterance Examples.fresh _)).
    intros s. vm_compute. discriminate.
  - refine (proj1 (utterance_that_is_not_a_string (Examples.example_world [])
                     (<["utterance" := JNull]> (<["timestamp" := JStr "garbage"]> ∅))
                     Examples.fresh _)).
    intros s. vm_compute. discriminate.
Defined.

(** ** Escaping *)

Section Escaping.

Import JsonRead.

Lemma unescape_escape_char c rest :
  unescape (escape_char c ++ rest)
  = match unescape rest with
    | Some r => Some (String c r)
    | None => None
    end.
Proof.
  destruct c as [[] [] [] [] [] [] [] []]; reflexivity.
Qed.

Lemma unescape_escape s : unescape (escape s) = Some s.
Proof.
  induction s as [|c s IH]; [reflexivity|].
  cbn [escape]. by rewrite unescape_escape_char, IH.
Qed.

Lemma escape_inj s1 s2 : escape s1 = escape s2 -> s1 = s2.
Proof.
  intros H. apply (f_equal unescape) in H.
  rewrite !unescape_escape in H. congruence.
Qed.

Lemma all_chars_app p (s1 s2 : string) :
  all_chars p (s1 ++ s2) = all_chars p s1 && all_chars p s2.
Proof.
  induction s1 as [|c s1 IH]; [reflexivity|].
  rewrite string_app_cons. cbn [all_chars]. by rewrite IH, andb_assoc.
Qed.

Lemma escape_char_printable c : all_chars is_printable (escape_char c) = true.
Proof.
  destruct c as [[] [] [] [] [] [] [] []]; reflexivity.
Qed.

Lemma escape_printable s : all_chars is_printable (escape s) = true.
Proof.
  induction s as [|c s IH]; [reflexivity|].
  cbn [escape]. by rewrite all_chars_app, escape_char_printable, IH.
Qed.

Lemma rev_app_distr (x y : string) :
  String.rev (x ++ y) = String.rev y ++ String.rev x.
Proof.
  induction x as [|c x IH].
  - by rewrite string_app_nil_r.
  - by rewrite string_app_cons, !rev_cons, IH, string_app_assoc.
Qed.

Lemma string_app_inv_tail (x y tail : string) : x ++ tail = y ++ tail -> x = y.
Proof.
  intros H. apply (f_equal String.rev) in H.
  rewrite !rev_app_distr in H.
  apply (inj (String.app _)) in H.
  apply (f_equal String.rev) in H. by rewrite !rev_rev in H.
Qed.

Lemma quote_inj s1 s2 : quote s1 = quote s2 -> s1 = s2.
Proof.
  unfold quote. intros [= H].
  by apply string_app_inv_tail, escape_inj in H.
Qed.

End Escaping.

(** X17.  Escaping loses nothing on strings of code points below U+0100
    (the strings of this development): what [json.dumps] writes for such a
    string is printable ASCII (so that [.encode()] gives one byte per
    character), and reading the escapes back gives the string again; two
    different such strings therefore never get the same literal.  (Beyond
    U+00FF this is not so: a code point above U+FFFF and its pair of
    surrogates are written alike.) *)
Theorem escaping_is_ascii_and_reversible (s s' : string) :
  JsonRead.all_chars JsonRead.is_printable (quote s) = true
  /\ JsonRead.unescape (escape s) = Some s
  /\ (quote s = quote s' -> s = s').
Proof.
  split; [|split].
  - unfold quote. cbn [JsonRead.all_chars].
    rewrite all_chars_app, escape_printable. reflexivity.
  - apply unescape_escape.
  - apply quote_inj.
Qed.

Section Preimage.

Lemma sorted_cache_data text o :
  sort_items (cache_data text o)
  = [("engine", engine o); ("language", language o); ("speed", speed o);
     ("text", JStr text); ("voice_type", voice_type o)].
Proof. reflexivity. Qed.

Lemma dumps_cache_data text o :
  dumps (cache_data text o) true
  = "{" ++ (quote "engine" ++ ": " ++ dumps_scalar (engine o) ++ ", "
            ++ quote "language" ++ ": " ++ dumps_scalar (language o) ++ ", "
            ++ quote "speed" ++ ": " ++ dumps_scalar (speed o) ++ ", "
            ++ quote "text" ++ ": " ++ quote text ++ ", "
            ++ quote "voice_type" ++ ": " ++ dumps_scalar (voice_type o))
        ++ "}".
Proof. reflexivity. Qed.

End Preimage.

(** X18.  The data that are hashed tell requests apart, for strings of
    code points below U+0100 (the strings of this development): two
    requests that differ only in such a text, or only in such a string
    given for the engine, the language or the voice type, never serialize
    to the same JSON, so that their cache keys can only coincide through a
    collision of MD5. *)
Theorem hashed_data_distinguish_requests
    (text text' : string) (a : jval) (ts : tsval) (e v l s : jval)
    (x x' : string) :
  (dumps (cache_data text (mkOptions a ts e v l s)) true
   = dumps (cache_data text' (mkOptions a ts e v l s)) true -> text = text')
  /\ (dumps (cache_data text (mkOptions a ts (JStr x) v l s)) true
      = dumps (cache_data text (mkOptions a ts (JStr x') v l s)) true -> x = x')
  /\ (dumps (cache_data text (mkOptions a ts e v (JStr x) s)) true
      = dumps (cache_data text (mkOptions a ts e v (JStr x') s)) true -> x = x')
  /\ (dumps (cache_data text (mkOptions a ts e (JStr x) l s)) true
      = dumps (cache_data text (mkOptions a ts e (JStr x') l s)) true -> x = x').
Proof.
  repeat split; rewrite !dumps_cache_data;
    cbn [engine language speed voice_type dumps_scalar]; intros H;
    apply (inj (String.app _)) in H; apply string_app_inv_tail in H;
    repeat (apply (inj (String.app _)) in H).
  - by apply string_app_inv_tail, quote_inj in H.
  - by apply string_app_inv_tail, quote_inj in H.
  - by apply string_app_inv_tail, quote_inj in H.
  - by apply quote_inj in H.
Qed.

(** ** The shape of the key *)

Section KeyShape.

Import JsonRead.

Lemma hex_digit_lower n : (n < 16)%N -> is_lower_hex (hex_digit n) = true.
Proof.
  intros Hn. unfold is_lower_hex, hex_digit.
  destruct (n <? 10)%N eqn:H10.
  - apply N.ltb_lt in H10.
    rewrite N_ascii_embedding by lia.
    apply orb_true_iff. left. apply andb_true_iff.
    split; apply N.leb_le; lia.
  - apply N.ltb_ge in H10.
    rewrite N_ascii_embedding by lia.
    apply orb_true_iff. right. apply andb_true_iff.
    split; apply N.leb_le; lia.
Qed.

Lemma hex_of_byte_lower b :
  0 <= b < 256 -> all_chars is_lower_hex (MD5.hex_of_byte b) = true.
Proof.
  intros Hb. unfold MD5.hex_of_byte. cbn [all_chars].
  rewrite !hex_digit_lower; [reflexivity| |].
  - assert (0 <= b mod 16 < 16) by (apply Z.mod_pos_bound; lia). lia.
  - assert (0 <= b / 16 < 16).
    { split; [apply Z.div_pos; lia | apply Z.div_lt_upper_bound; lia]. }
    lia.
Qed.

Lemma le_bytes_range k n : Forall (fun b => 0 <= b < 256) (MD5.le_bytes k n).
Proof.
  revert n. induction k as [|k IH]; intros n; simpl; constructor; [|apply IH].
  change 255 with (Z.ones 8). rewrite Z.land_ones by lia.
  apply Z.mod_pos_bound. lia.
Qed.

Lemma digest_range msg : Forall (fun b => 0 <= b < 256) (MD5.digest msg).
Proof.
  unfold MD5.digest. rewrite !Forall_app. repeat split; apply le_bytes_range.
Qed.

Lemma concat_hex_lower bs :
  Forall (fun b => 0 <= b < 256) bs ->
  all_chars is_lower_hex (String.concat EmptyString (map MD5.hex_of_byte bs))
  = true.
Proof.
  induction 1 as [|b bs Hb Hbs IH]; [reflexivity|].
  destruct bs as [|b' bs].
  - by apply hex_of_byte_lower.
  - change (all_chars is_lower_hex
              (MD5.hex_of_byte b ++
               String.concat EmptyString (map MD5.hex_of_byte (b' :: bs)))
            = true).
    rewrite all_chars_app, IH, hex_of_byte_lower by done. reflexivity.
Qed.

End KeyShape.

(** X19.  The cache key is always a string of 32 lower-case hexadecimal
    digits, whatever the text and the options are. *)
Theorem cache_key_is_32_hex_digits (text : string) (o : options) :
  String.length (generate_cache_key text o) = 32%nat
  /\ JsonRead.all_chars JsonRead.is_lower_hex (generate_cache_key text o) = true.
Proof.
  split; [apply generate_cache_key_length|].
  unfold generate_cache_key, MD5.hexdigest.
  apply concat_hex_lower, digest_range.
Qed.

(** ** What the engines return *)

(** X20.  An engine returns a path only when the time stamp of the options
    is a [datetime], and the path is fixed by the agent and the time stamp:
    [<agent>_<time stamp with dashes>.mp3] for gTTS and OpenAI, the same
    stem with [.wav] or [_silent.wav] for the system engine.  The text, the
    voice, the language and the speed play no part, so two requests of one
    agent with one time stamp are given the same file. *)
Theorem audio_path_is_fixed_by_agent_and_timestamp
    (w : World) (e : engine_t) (text : string) (o : options) (p : string) :
  generate_audio e w text o = Ok p ->
  exists iso,
    timestamp o = Datetime iso
    /\ let file suffix :=
         audio_dir_join w
           (to_str (agent o) ++ "_" ++ Py.replace_char ":" "-" iso ++ suffix) in
       match e with
       | SystemTTSEngine => p = file ".wav" \/ p = file "_silent.wav"
       | _ => p = file ".mp3"
       end.
Proof.
  destruct o as [a ts en vt la sp]. cbn [timestamp agent].
  destruct ts as [iso|v].
  - intros H. exists iso. split; [reflexivity|]. cbv zeta.
    destruct e; cbn [generate_audio] in H.
    + unfold GTTSEngine_generate_audio, audio_filename, rbind in H.
      cbn [timestamp_isoformat timestamp agent language speed] in H.
      destruct (negb (GTTS_AVAILABLE w)); [discriminate|].
      destruct (gtts_new w text la sp); [|discriminate].
      destruct (gtts_save w text la sp _); [|discriminate].
      by injection H as <-.
    + unfold OpenAITTSEngine_generate_audio, audio_filename, rbind in H.
      cbn [timestamp_isoformat timestamp agent voice_type speed] in H.
      destruct (negb (openai_client w)); [discriminate|].
      destruct (openai_speech_create w _ text sp); [|discriminate].
      destruct (write_content w _); [|discriminate].
      by injection H as <-.
    + unfold SystemTTSEngine_generate_audio, audio_filename, rbind in H.
      cbn [timestamp_isoformat timestamp agent speed] in H.
      destruct (espeak_run w sp _ text) as [[returncode stderr]|err].
      * destruct (returncode =? 0).
        -- injection H as <-. by left.
        -- destruct (wave_write w _ silent_wav); [|discriminate].
           injection H as <-. by right.
      * destruct (wave_write w _ silent_wav); [|discriminate].
        injection H as <-. by right.
  - intros H. exfalso.
    destruct e; cbn [generate_audio] in H.
    + unfold GTTSEngine_generate_audio, audio_filename, rbind in H.
      cbn [timestamp_isoformat timestamp agent language speed] in H.
      destruct (negb (GTTS_AVAILABLE w)); [discriminate|].
      destruct (gtts_new w text la sp); discriminate.
    + unfold OpenAITTSEngine_generate_audio, audio_filename, rbind in H.
      cbn [timestamp_isoformat timestamp agent voice_type speed] in H.
      destruct (negb (openai_client w)); [discriminate|].
      destruct (openai_speech_create w _ text sp); discriminate.
    + discriminate.
Qed.

Lemma audio_path_is_fixed_by_agent_and_timestamp_witness :
  exists iso,
    Datetime "2024-05-01T10:00:00" = Datetime iso
    /\ ("audio_files/bot1_2024-05-01T10-00-00.wav"
        = "audio_files/" ++ "bot1" ++ "_" ++ Py.replace_char ":" "-" iso ++ ".wav"
        \/ "audio_files/bot1_2024-05-01T10-00-00.wav"
           = "audio_files/" ++ "bot1" ++ "_" ++ Py.replace_char ":" "-" iso
             ++ "_silent.wav").
Proof.
  exact (audio_path_is_fixed_by_agent_and_timestamp (Examples.example_world [])
           SystemTTSEngine "hello"
           (mkOptions (JStr "bot1") (Datetime "2024-05-01T10:00:00")
                      (JStr "system") (JStr "neutral") (JStr "en") (JFloat "1.0"))
           "audio_files/bot1_2024-05-01T10-00-00.wav" eq_refl).
Defined.

(** X21.  [/engines] and the health check agree on which engines are
    available, and an engine that they report as unavailable raises on
    every call, before anything is sent or written; the system engine is
    always reported as available.  Each engine of the registry is listed
    under its own name. *)
Theorem unavailable_engines_always_raise
    (w : World) (m : machine) (e : engine_t) (text : string) (o : options) :
  map (fun item => (fst item, endpoints.info_available (snd item)))
      (endpoints.list_engines w)
  = endpoints.h_engines_available (endpoints.health_check w m)
  /\ In (name e,
         endpoints.mkEngineInfo (name e) (endpoints.available w (name e))
           (endpoints.title (name e) ++ " Text-to-Speech Engine"))
        (endpoints.list_engines w)
  /\ tts_engines_get (JStr (name e)) = Some e
  /\ endpoints.available w "system" = true
  /\ (endpoints.available w (name e) = false ->
      exists msg,
        generate_audio e w text o = Raised (Py.Exn "Exception" msg)
        /\ (msg = "gTTS engine not available"
            \/ msg = "OpenAI TTS engine not available")).
Proof.
  split; [reflexivity|]. split; [|split; [|split; [reflexivity|]]].
  - destruct e; cbn; auto.
  - by destruct e.
  - destruct e; cbn [name]; unfold endpoints.available; cbn.
    + intros Hg. exists "gTTS engine not available".
      unfold GTTSEngine_generate_audio. rewrite Hg. auto.
    + intros Ho. exists "OpenAI TTS engine not available".
      unfold OpenAITTSEngine_generate_audio. rewrite Ho. auto.
    + discriminate.
Qed.

(** The descriptions that [/engines] gives. *)
Example list_engines_descriptions :
  map (fun item => endpoints.info_description (snd item))
      (endpoints.list_engines (Examples.example_world []))
  = ["Gtts Text-to-Speech Engine"; "Openai Text-to-Speech Engine";
     "System Text-to-Speech Engine"].
Proof. reflexivity. Qed.

(** ** Avatar binding *)

Section Avatar.

Import heygen_integration.

Variable data : gmap string jval.
Variable audio_file_path : string.
Variable service : HeyGenAvatarService.
Variable post : video_request -> result http_answer.

Lemma error_dict_error message : error_dict message !! "error" = Some (JStr message).
Proof. unfold error_dict. apply lookup_insert_eq. Qed.

Lemma bind_unfold :
  bind_avatar_to_utterance data audio_file_path service post
  = if negb (truthy (get data "avatar_id")) then Skipped "No avatar ID provided"
    else match data !! "utterance" with
         | None => BindError (JStr "'utterance'")
         | Some text =>
             if negb (has_key service)
             then BindError (JStr "HeyGen API key not provided")
             else match post (sent data text) with
                  | Raised e => BindError (JStr (Py.exn_str e))
                  | Ok r =>
                      if status_code r =? 200 then
                        match json_body r with
                        | Raised e => BindError (JStr (Py.exn_str e))
                        | Ok body =>
                            match body !! "error" with
                            | Some x => BindError x
                            | None => Bound (get body "video_id")
                                            "Avatar video generation initiated"
                            end
                        end
                      else BindError
                             (JStr ("HeyGen API error: "
                                    ++ Py.str_of_int (status_code r)))
                  end
         end.
Proof.
  unfold bind_avatar_to_utterance, create_avatar_video, rbind.
  destruct (negb (truthy (get data "avatar_id"))); [reflexivity|].
  destruct (data !! "utterance") as [text|]; [|reflexivity].
  destruct (negb (has_key service)); [reflexivity|].
  fold (sent data text).
  destruct (post (sent data text)) as [r|e].
  - destruct (status_code r =? 200).
    + destruct (json_body r) as [body|e].
      * by destruct (body !! "error").
      * by rewrite error_dict_error.
    + by rewrite error_dict_error.
  - by rewrite error_dict_error.
Qed.

End Avatar.

(** X22.  When an avatar is bound: [bind_avatar_to_utterance] reports
    success exactly when the data carry a true [avatar_id] and an
    utterance, the service has an API key, and the request (sent with
    ["default"] and ["#ffffff"] in place of a missing voice or background)
    is answered 200 with a JSON object that has no ["error"] key; the
    video id reported is the one of that object. *)
Theorem avatar_is_bound_exactly_when
    (data : gmap string jval) (audio_file_path : string)
    (service : heygen_integration.HeyGenAvatarService)
    (post : heygen_integration.video_request
            -> result heygen_integration.http_answer)
    (video_id : jval) (message : string) :
  heygen_integration.bind_avatar_to_utterance data audio_file_path service post
  = heygen_integration.Bound video_id message
  <-> truthy (heygen_integration.get data "avatar_id") = true
      /\ heygen_integration.has_key service = true
      /\ exists text body,
           data !! "utterance" = Some text
           /\ post (heygen_integration.sent data text)
              = Ok (heygen_integration.mkAnswer 200 (Ok body))
           /\ body !! "error" = None
           /\ video_id = heygen_integration.get body "video_id"
           /\ message = "Avatar video generation initiated".
Proof.
  rewrite bind_unfold. split.
  - destruct (truthy (heygen_integration.get data "avatar_id")); [|discriminate].
    cbn [negb].
    destruct (data !! "utterance") as [text|]; [|discriminate].
    destruct (heygen_integration.has_key service); [|discriminate].
    cbn [negb].
    destruct (post (heygen_integration.sent data text)) as [[code body]|e] eqn:Hp;
      [|discriminate].
    cbn [heygen_integration.status_code heygen_integration.json_body].
    destruct (code =? 200) eqn:Hc; [|discriminate].
    apply Z.eqb_eq in Hc. subst code.
    destruct body as [body|e]; [|discriminate].
    destruct (body !! "error") eqn:He; [discriminate|].
    intros [= <- <-]. repeat split. by exists text, body.
  - intros (Ha & Hk & text & body & Hu & Hp & He & -> & ->).
    rewrite Ha, Hu, Hk, Hp. cbn. by rewrite He.
Qed.

(** X23.  What is reported when an avatar is not bound, and in which
    order: without a true [avatar_id] the binding is skipped, whatever
    else is missing; then a missing utterance is reported (as the
    [KeyError] text), then a missing API key; a call that raises, or an
    answer other than 200, becomes the error message, and no exception
    leaves the function. *)
Theorem avatar_binding_errors
    (data : gmap string jval) (audio_file_path : string)
    (service : heygen_integration.HeyGenAvatarService)
    (post : heygen_integration.video_request
            -> result heygen_integration.http_answer) :
  let avatar := truthy (heygen_integration.get data "avatar_id") in
  let out :=
    heygen_integration.bind_avatar_to_utterance data audio_file_path service post in
  (avatar = false -> out = heygen_integration.Skipped "No avatar ID provided")
  /\ (avatar = true -> data !! "utterance" = None ->
      out = heygen_integration.BindError (JStr "'utterance'"))
  /\ (forall text, avatar = true -> data !! "utterance" = Some text ->
      heygen_integration.has_key service = false ->
      out = heygen_integration.BindError (JStr "HeyGen API key not provided"))
  /\ (forall text e, avatar = true -> data !! "utterance" = Some text ->
      heygen_integration.has_key service = true ->
      post (heygen_integration.sent data text) = Raised e ->
      out = heygen_integration.BindError (JStr (Py.exn_str e)))
  /\ (forall text r, avatar = true -> data !! "utterance" = Some text ->
      heygen_integration.has_key service = true ->
      post (heygen_integration.sent data text) = Ok r ->
      heygen_integration.status_code r <> 200 ->
      out = heygen_integration.BindError
              (JStr ("HeyGen API error: "
                     ++ Py.str_of_int (heygen_integration.status_code r)))).
Proof.
  intros avatar out. subst avatar out. rewrite bind_unfold.
  repeat split.
  - by intros ->.
  - by intros -> ->.
  - by intros text -> -> ->.
  - by intros text e -> -> -> ->.
  - intros text r -> -> -> -> Hc. cbn.
    by apply Z.eqb_neq in Hc as ->.
Qed.

Example avatar_bound :
  heygen_integration.bind_avatar_to_utterance heygen_integration.example_data
    "audio_files/bot1.wav" heygen_integration.with_key
    heygen_integration.example_post
  = heygen_integration.Bound (JStr "v1") "Avatar video generation initiated".
Proof. reflexivity. Qed.

Example avatar_without_key :
  heygen_integration.bind_avatar_to_utterance heygen_integration.example_data
    "audio_files/bot1.wav" heygen_integration.without_key
    heygen_integration.example_post
  = heygen_integration.BindError (JStr "HeyGen API key not provided").
Proof. reflexivity. Qed.

(** ** The quota over time *)

Section Quota.

Import rate_limiter.
Local Open Scope list_scope.

Lemma stamps_of_app i (cs1 cs2 : list (string * Q)) :
  Runs.stamps_of i (cs1 ++ cs2) = Runs.stamps_of i cs1 ++ Runs.stamps_of i cs2.
Proof. unfold Runs.stamps_of. by rewrite List.filter_app, map_app. Qed.

Lemma stamps_of_one i id (t : Q) :
  Runs.stamps_of i [(id, t)] = if String.eqb id i then [t] else [].
Proof. unfold Runs.stamps_of. simpl. by destruct (String.eqb id i). Qed.

Lemma forall_older (T T' ws : Q) (l : list Q) :
  (T <= T')%Q -> Forall (fun s => (s < T - ws)%Q) l ->
  Forall (fun s => (s < T' - ws)%Q) l.
Proof.
  intros HT H. eapply Forall_impl; [exact H|]. intros s Hs. simpl in Hs. lra.
Qed.

(** One call keeps the windows in step with the allowed calls. *)
Lemma tracks_is_allowed hist T rl id now :
  (T <= now)%Q -> Runs.tracks hist T rl ->
  Runs.tracks (hist ++ (if fst (is_allowed rl id now) then [(id, now)] else []))
              now (snd (is_allowed rl id now)).
Proof.
  intros HT Hinv i. destruct (Hinv i) as (dropped & Heq & Hold).
  rewrite (proj2 (limits_is_allowed rl id now)).
  rewrite stamps_of_app, Heq.
  destruct (decide (id = i)) as [<-|Hne].
  - rewrite window_is_allowed. cbv zeta.
    destruct (clean_old_suffix (now - inject_Z (window_seconds rl)) (window rl id))
      as (dropped' & Hw & Hold').
    set (kept := clean_old _ _) in *.
    assert (Hfst : fst (is_allowed rl id now)
                   = (Z.of_nat (length kept) <? max_requests rl)).
    { unfold is_allowed. fold kept. by destruct (_ <? _). }
    rewrite Hfst. exists (dropped ++ dropped'). split.
    + rewrite Hw at 1.
      destruct (_ <? _).
      * rewrite stamps_of_one, String.eqb_refl. by rewrite <- !app_assoc.
      * cbn. by rewrite app_nil_r, <- app_assoc.
    + apply Forall_app. split; [by apply (forall_older T)|exact Hold'].
  - rewrite window_is_allowed_ne by done.
    exists dropped. split; [|by apply (forall_older T)].
    destruct (fst (is_allowed rl id now)).
    + rewrite stamps_of_one.
      destruct (String.eqb_spec id i) as [Heq'|_]; [done|]. by rewrite app_nil_r.
    + cbn. by rewrite app_nil_r.
Qed.

Lemma tracks_calls cs hist T rl :
  StronglySorted Qle (T :: map snd cs) -> Runs.tracks hist T rl ->
  Runs.tracks (hist ++ Runs.allowed rl cs) (List.last (map snd cs) T)
              (Runs.calls rl cs).
Proof.
  revert hist T rl. induction cs as [|[id now] cs IH]; intros hist T rl Hs Hinv.
  - simpl. by rewrite app_nil_r.
  - inversion Hs as [|? ? Hs' Hall]; subst.
    inversion Hall as [|? ? HT _]; subst.
    cbn [Runs.calls Runs.allowed map]. cbn [fst snd] in *.
    rewrite last_cons_default.
    pose proof (tracks_is_allowed hist T rl id now HT Hinv) as Hstep.
    specialize (IH _ now _ Hs' Hstep).
    destruct (fst (is_allowed rl id now));
      [by rewrite <- app_assoc in IH | by rewrite app_nil_r in IH].
Qed.

Lemma filter_length_le {A} (f : A -> bool) (l : list A) :
  (length (List.filter f l) <= length l)%nat.
Proof. induction l as [|x l IH]; simpl; [lia|]. destruct (f x); simpl; lia. Qed.

Lemma filter_recent_dropped (θ : Q) (dropped kept : list Q) :
  Forall (fun s => (s < θ)%Q) dropped ->
  List.filter (fun s => Qle_bool θ s) (dropped ++ kept)
  = List.filter (fun s => Qle_bool θ s) kept.
Proof.
  induction 1 as [|s dropped Hs _ IH]; [reflexivity|].
  cbn [app List.filter].
  destruct (Qle_bool θ s) eqn:Hle; [|exact IH].
  apply Qle_bool_iff in Hle. lra.
Qed.

Lemma tracks_init mx ws T : Runs.tracks [] T (RateLimiter_init mx ws).
Proof.
  intros i. exists []. split; [|constructor]. by rewrite window_init.
Qed.

Lemma last_forall {A} (P : A -> Prop) (l : list A) (d : A) :
  Forall P l -> P d -> P (List.last l d).
Proof.
  intros Hl. revert d. induction Hl as [|x l Hx _ IH]; intros d Hd; [exact Hd|].
  rewrite last_cons_default. by apply IH.
Qed.

Lemma sorted_before_last (l : list Q) (x : Q) :
  StronglySorted Qle (l ++ [x]) ->
  StronglySorted Qle l /\ Forall (fun t => (t <= x)%Q) l.
Proof.
  induction l as [|y l IH]; cbn [app]; intros Hs.
  - split; constructor.
  - inversion Hs as [|? ? Hs' Hall]; subst.
    destruct (IH Hs') as [Hl Hle].
    apply Forall_app in Hall as [Hall1 Hall2].
    split; constructor; auto. by inversion Hall2.
Qed.

End Quota.

(** X24.  The quota holds over time: with a clock that never goes back, a
    call that [is_allowed] allows is preceded by fewer than [max_requests]
    allowed calls of the same identifier within the last [window_seconds];
    no identifier is ever allowed more than [max_requests] calls in a
    window. *)
Theorem quota_is_enforced
    (max_requests window_seconds : Z) (cs : list (string * Q))
    (id : string) (now : Q) :
  StronglySorted Qle (map snd (cs ++ [(id, now)])) ->
  let new := rate_limiter.RateLimiter_init max_requests window_seconds in
  fst (rate_limiter.is_allowed (Runs.calls new cs) id now) = true ->
  Z.of_nat
    (length
       (List.filter (fun s => Qle_bool (now - inject_Z window_seconds) s)
          (Runs.stamps_of id (Runs.allowed new cs))))
  < max_requests.
Proof.
  intros Hs new Hok.
  rewrite map_app in Hs. cbn [map snd] in Hs.
  destruct (sorted_before_last _ _ Hs) as [Hsorted Hbefore].
  assert (Htr : exists T, (T <= now)%Q
                          /\ Runs.tracks (Runs.allowed new cs) T (Runs.calls new cs)).
  { destruct cs as [|[id0 t0] cs'].
    - exists now. split; [apply Qle_refl | apply tracks_init].
    - exists (List.last (map snd ((id0, t0) :: cs')) t0). split.
      + apply (last_forall (fun t => (t <= now)%Q)); [exact Hbefore|].
        by inversion Hbefore.
      + apply (tracks_calls ((id0, t0) :: cs') [] t0 new); [|apply tracks_init].
        constructor; [exact Hsorted|].
        cbn [map snd] in *. inversion Hsorted as [|? ? _ Hall]; subst.
        constructor; [apply Qle_refl | exact Hall]. }
  destruct Htr as (T & HT & Htr).
  destruct (Htr id) as (dropped & Heq & Hold).
  destruct (limits_calls cs new) as [Hmax Hws].
  cbn [rate_limiter.RateLimiter_init rate_limiter.max_requests
       rate_limiter.window_seconds new] in Hmax, Hws.
  rewrite Hws in Hold.
  rewrite Heq, filter_recent_dropped
    by (eapply Forall_impl; [exact Hold|]; intros s Hlt; simpl in Hlt; lra).
  apply (proj1 (is_allowed_spec _ _ _)) in Hok. rewrite Hmax, Hws in Hok.
  destruct (clean_old_suffix (now - inject_Z window_seconds)
              (rate_limiter.window (Runs.calls new cs) id))
    as (dropped' & Hw & Hold').
  rewrite Hw at 1. rewrite filter_recent_dropped by exact Hold'.
  pose proof (filter_length_le
                (fun s => Qle_bool (now - inject_Z window_seconds) s)
                (rate_limiter.clean_old (now - inject_Z window_seconds)
                   (rate_limiter.window (Runs.calls new cs) id))).
  lia.
Qed.

Lemma quota_is_enforced_witness :
  Z.of_nat
    (length
       (List.filter (fun s => Qle_bool (12 - inject_Z 10) s)
          (Runs.stamps_of "a"
             (Runs.allowed (rate_limiter.RateLimiter_init 2 10)
                [("a", 1%Q); ("b", 2%Q); ("a", 2%Q); ("a", 3%Q)]))))
  < 2.
Proof.
  apply (quota_is_enforced 2 10
           [("a", 1%Q); ("b", 2%Q); ("a", 2%Q); ("a", 3%Q)] "a" 12).
  - simpl. repeat constructor; unfold Qle; simpl; lia.
  - vm_compute. reflexivity.
Defined.

Lemma stale_entry_is_a_miss_witness :
  let first :=
    receive_utterance (Examples.example_world []) (Examples.hello "system")
      Examples.fresh in
  let stale :=
    receive_utterance (Examples.example_world []) (Examples.hello "system")
      (snd first) in
  http_status (fst stale) = 200
  /\ In (CacheEvict "c9d8e1b9f6bf8d124d367b3fa104ce12") (trace (snd stale)).
Proof.
  cbv zeta.
  destruct (stale_entry_is_a_miss (Examples.example_world [])
              (Examples.hello "system")
              (snd (receive_utterance (Examples.example_world [])
                      (Examples.hello "system") Examples.fresh))
              (Datetime "2024-05-01T10:00:00") "hello"
              "audio_files/bot1_2024-05-01T10-00-00.wav")
    as (Hresp & _ & _ & Hevict).
  - vm_compute. reflexivity.
  - vm_compute. reflexivity.
  - vm_compute. reflexivity.
  - vm_compute. reflexivity.
  - split.
    + rewrite Hresp. vm_compute. reflexivity.
    + exact Hevict.
Defined.
